(** * JobInsight-Ai: resume upload, job-posting extraction, Gemini service
      and analysis history, embedded from the TypeScript sources.

    Source files and the modules that embed them:
    - [src/components/ResumeUpload.tsx]: [File], [ResumeUpload]
    - [src/components/JobDescriptionInput.tsx]: [JobDescriptionInput] (the
      input component) and [AnalysisResults] (the results component)
    - [src/lib/supabase.ts]: [GeminiService], on top of [Json]
    - the dashboard page: [AnalysisHistoryItem], [Dashboard]

    JavaScript strings are sequences of UTF-16 code units; they are modelled
    as [list N], one [N] per code unit, so that [length] is the [.length]
    property of the source.  A component is modelled by its state record and
    by one function per handler or effect, from the committed state before
    the call to the committed state after it; what a handler does to the
    outside (callbacks, toasts) is returned as a list of effects.  Calls
    that await the network or the file system take the outcome of the
    awaited operation as an argument. *)

From Stdlib Require Import NArith List Ascii String Bool Lia DecimalString.
From stdpp Require Import base option list gmap.

Open Scope nat_scope.
Set Warnings "-register-all".

(** ** JavaScript strings *)

Abbreviation jsstring := (list N).

Module Js.

(** An ASCII literal as a JavaScript string. *)
Definition str (s : string) : jsstring :=
  List.map N_of_ascii (list_ascii_of_string s).

Definition ch (a : ascii) : N := N_of_ascii a.

Definition eqb (s t : jsstring) : bool := bool_decide (s = t).

(** A string used as a condition: only the empty string is falsy. *)
Definition truthy (s : jsstring) : bool :=
  match s with [] => false | _ :: _ => true end.

(** [Number.prototype.toString] on a non-negative integer below 2^53, which
    is also how a template literal prints such a number. *)
Definition of_N (n : N) : jsstring := str (NilZero.string_of_uint (N.to_uint n)).

(** [String.prototype.substring(start, end)] on natural arguments: both
    arguments are clamped to the length and swapped when out of order. *)
Definition substring (s : jsstring) (from to : nat) : jsstring :=
  let a := Nat.min from (length s) in
  let b := Nat.min to (length s) in
  take (Nat.max a b - Nat.min a b) (drop (Nat.min a b) s).

(** The class [\s] of the regular-expression grammar, which is also the set
    of code units removed by [String.prototype.trim] (WhiteSpace and
    LineTerminator). *)
Definition is_space (c : N) : bool :=
  ((9 <=? c) && (c <=? 13) || (c =? 32) || (c =? 160) || (c =? 5760)
   || (8192 <=? c) && (c <=? 8202) || (c =? 8232) || (c =? 8233)
   || (c =? 8239) || (c =? 8287) || (c =? 12288) || (c =? 65279))%N.

(** The dot of the regular-expression grammar (without the [s] flag) matches
    every code unit that is not a line terminator. *)
Definition is_line_terminator (c : N) : bool :=
  ((c =? 10) || (c =? 13) || (c =? 8232) || (c =? 8233))%N.

Fixpoint take_while (p : N -> bool) (s : jsstring) : jsstring :=
  match s with
  | c :: t => if p c then c :: take_while p t else []
  | [] => []
  end.

Fixpoint drop_while (p : N -> bool) (s : jsstring) : jsstring :=
  match s with
  | c :: t => if p c then drop_while p t else s
  | [] => []
  end.

Definition trim (s : jsstring) : jsstring :=
  rev (drop_while is_space (rev (drop_while is_space s))).

Fixpoint starts_with (p s : jsstring) : bool :=
  match p, s with
  | [], _ => true
  | a :: p', b :: s' => (a =? b)%N && starts_with p' s'
  | _ :: _, [] => false
  end.

(** [String.prototype.includes]. *)
Fixpoint includes (s p : jsstring) : bool :=
  starts_with p s ||
  match s with
  | _ :: t => includes t p
  | [] => false
  end.

(** [Array.prototype.join] on an array of strings. *)
Fixpoint join (sep : jsstring) (l : list jsstring) : jsstring :=
  match l with
  | [] => []
  | [x] => x
  | x :: rest => x ++ sep ++ join sep rest
  end.

(** [String.prototype.split] with a one-code-unit separator: the result
    always has at least one element, and adjacent separators give empty
    elements. *)
Fixpoint split (sep : N) (s : jsstring) : list jsstring :=
  match s with
  | [] => [[]]
  | c :: t =>
      if (c =? sep)%N then [] :: split sep t
      else match split sep t with
           | w :: ws => (c :: w) :: ws
           | [] => [[c]]
           end
  end.

(** *** Regular expressions with the [g] flag

    A pattern is given by its matcher at a position: [m s] is the length of
    the match that starts at the first code unit of [s], if there is one.
    Every pattern of the sources matches at least one code unit.  The scan
    resumes after the end of a match, and one code unit further on when
    there is no match, as [lastIndex] does. *)

Definition matcher := jsstring -> option nat.

Fixpoint match_all_from (m : matcher) (skip : nat) (s : jsstring) : list jsstring :=
  match s with
  | [] => []
  | _ :: t =>
      match skip with
      | S k => match_all_from m k t
      | O =>
          match m s with
          | Some n => take n s :: match_all_from m (n - 1) t
          | None => match_all_from m 0 t
          end
      end
  end.

(** [s.match(/re/g)]: the list of all matches, [[]] standing for [null]. *)
Definition match_all (m : matcher) (s : jsstring) : list jsstring :=
  match_all_from m 0 s.

Fixpoint replace_all_from (m : matcher) (by_ : jsstring) (skip : nat) (s : jsstring) : jsstring :=
  match s with
  | [] => []
  | c :: t =>
      match skip with
      | S k => replace_all_from m by_ k t
      | O =>
          match m s with
          | Some n => by_ ++ replace_all_from m by_ (n - 1) t
          | None => c :: replace_all_from m by_ 0 t
          end
      end
  end.

(** [s.replace(/re/g, by_)]. *)
Definition replace_all (m : matcher) (by_ : jsstring) (s : jsstring) : jsstring :=
  replace_all_from m by_ 0 s.

(** A character class [[...]] as a pattern. *)
Definition class (p : N -> bool) : matcher :=
  fun s => match s with
           | c :: _ => if p c then Some 1 else None
           | [] => None
           end.

(** [\s+]: the longest run of white space, when it is not empty. *)
Definition spaces1 : matcher :=
  fun s => match take_while is_space s with
           | [] => None
           | run => Some (length run)
           end.

End Js.

Notation "'$' s" := (Js.str s%string) (at level 1, format "'$' s").

(** ** Results of calls that may throw *)

Inductive JsResult (A : Type) : Type :=
| Returned (a : A)
| Thrown (message : jsstring).
Arguments Returned {A} a.
Arguments Thrown {A} message.

(** ** Resume upload ([ResumeUpload.tsx]) *)

Module File.
(** The browser's [File] object as [handleFileChange] reads it.  [decoded]
    is the outcome of reading the bytes and decoding them as UTF-8, which
    is what both [selectedFile.text()] and
    [new TextDecoder('utf-8').decode(await selectedFile.arrayBuffer())]
    deliver; the read may be rejected. *)
Record t := mk {
  name : jsstring;
  type : jsstring;
  size : N;
  decoded : JsResult jsstring
}.
End File.

Module ResumeUpload.

(** The component state: [file], [uploading], [error]. *)
Record State := mkState {
  file : option File.t;
  uploading : bool;
  error : option jsstring
}.

(** What a handler does besides updating the state. *)
Inductive Effect :=
| ToastError (msg : jsstring)
| ToastSuccess (msg : jsstring)
| OnUpload (uploaded : bool) (extractedText : option jsstring).

Definition validTypes : list jsstring :=
  [ $"application/pdf";
    $"application/msword";
    $"application/vnd.openxmlformats-officedocument.wordprocessingml.document";
    $"text/plain" ].

(** [5 * 1024 * 1024] *)
Definition maxSize : N := 5 * 1024 * 1024.

(** *** The three PDF heuristics *)

(** [/\(([^\)]+)\)/]: an opening parenthesis, one or more code units
    other than a closing parenthesis, a closing parenthesis. *)
Definition paren_token : Js.matcher :=
  fun s =>
    match s with
    | c :: r =>
        if (c =? Js.ch "(")%N then
          let body := Js.take_while (fun x => negb (x =? Js.ch ")")%N) r in
          match body, drop (length body) r with
          | _ :: _, _ :: _ => Some (length body + 2)
          | _, _ => None
          end
        else None
    | [] => None
    end.

(** [/\/Text\s*\[/] *)
Definition text_open : Js.matcher :=
  fun s =>
    if Js.starts_with $"/Text" s then
      let r := drop 5 s in
      let ws := Js.take_while Js.is_space r in
      match drop (length ws) r with
      | c :: _ => if (c =? Js.ch "[")%N then Some (5 + length ws + 1) else None
      | [] => None
      end
    else None.

(** [/\/Text\s*\[(.*?)\]/]: after the opening, the shortest run of code
    units that are not line terminators, up to the first closing bracket. *)
Definition text_array : Js.matcher :=
  fun s =>
    match text_open s with
    | Some n =>
        let r := drop n s in
        let body := Js.take_while (fun x => negb (x =? Js.ch "]")%N) r in
        match drop (length body) r with
        | _ :: _ =>
            if forallb (fun x => negb (Js.is_line_terminator x)) body
            then Some (n + length body + 1) else None
        | [] => None
        end
    | None => None
    end.

(** [/\\n|\\r/]: a backslash followed by [n] or by [r]. *)
Definition escaped_newline : Js.matcher :=
  fun s =>
    match s with
    | a :: b :: _ =>
        if ((a =? 92) && ((b =? Js.ch "n") || (b =? Js.ch "r")))%N
        then Some 2 else None
    | _ => None
    end.

Definition is_paren (c : N) : bool := ((c =? Js.ch "(") || (c =? Js.ch ")"))%N.
Definition printable (c : N) : bool := ((32 <=? c) && (c <=? 126))%N.

(** Heuristic 1: text between parentheses.  [None] when the pattern has
    no match, in which case [text] is left as it was. *)
Definition parenTokens (content : jsstring) : option jsstring :=
  match Js.match_all paren_token content with
  | [] => None
  | extractParenthesisContent =>
      Some (Js.replace_all Js.spaces1 $" "
             (Js.replace_all escaped_newline $" "
               (Js.replace_all (Js.class is_paren) $" "
                 (Js.join $" " extractParenthesisContent))))
  end.

(** Heuristic 2: the [/Text[...]] arrays. *)
Definition textArrays (content : jsstring) : option jsstring :=
  match Js.match_all text_array content with
  | [] => None
  | textMatches =>
      Some (Js.replace_all (Js.class (fun c => c =? Js.ch ")")%N) $" "
             (Js.replace_all (Js.class (fun c => c =? Js.ch "(")%N) $" "
               (Js.replace_all (Js.class (fun c => c =? Js.ch "]")%N) []
                 (Js.replace_all text_open []
                   (Js.join $" " textMatches)))))
  end.

(** Heuristic 3: keep the printable ASCII words of more than two code
    units. *)
Definition printableFilter (content : jsstring) : jsstring :=
  let text :=
    Js.join $" "
      (List.filter (fun word => 2 <? length word)
        (Js.split 32
          (Js.replace_all (Js.class (fun c => negb (printable c))) $" " content))) in
  Js.trim (Js.replace_all Js.spaces1 $" " text).

Inductive Heuristic := ParenTokens | TextArrays | PrintableFilter.

(** The variable [text] of the PDF branch, together with the record of
    the heuristics that were run to produce it. *)
Record PdfRun := mkRun {
  text : jsstring;
  attempted : list Heuristic
}.

Definition extractPdfText (content : jsstring) : PdfRun :=
  let run := mkRun [] [] in
  let run :=
    mkRun (default (text run) (parenTokens content))
          (attempted run ++ [ParenTokens]) in
  let run :=
    if length (text run) <? 100 then
      mkRun (default (text run) (textArrays content))
            (attempted run ++ [TextArrays])
    else run in
  let run :=
    if length (text run) <? 100 then
      mkRun (printableFilter content) (attempted run ++ [PrintableFilter])
    else run in
  run.

Definition pdfFailureText (name : jsstring) : jsstring :=
  name ++ $" - Resume includes experience in software development, programming skills, and education details.".

Definition wordText (name : jsstring) : jsstring :=
  name ++ $" - Resume includes professional experience spanning multiple years in technology roles, with skills in programming languages, databases, and web frameworks. Education includes degree in computer science or related field.".

Definition genericText (name : jsstring) : jsstring :=
  name ++ $" - Resume includes professional background in technology with various technical skills and educational qualifications.".

(** The text of the [try] block before the minimum-quality check; a
    rejected read of a plain-text file leaves the block through the outer
    [catch]. *)
Definition extractText (f : File.t) : JsResult jsstring :=
  if Js.eqb (File.type f) $"text/plain" then
    File.decoded f
  else if Js.eqb (File.type f) $"application/pdf" then
    match File.decoded f with
    | Returned content => Returned (text (extractPdfText content))
    | Thrown _ => Returned (pdfFailureText (File.name f))
    end
  else
    Returned (wordText (File.name f)).

(** "Ensure minimum text quality" *)
Definition ensureMinimum (f : File.t) (text : jsstring) : jsstring :=
  if length text <? 50 then genericText (File.name f) else text.

Definition handleFileChange (selectedFile : option File.t) (st : State)
  : State * list Effect :=
  match selectedFile with
  | None => (st, [])
  | Some f =>
      if negb (bool_decide (File.type f ∈ validTypes)) then
        (mkState (file st) (uploading st)
           (Some $"Invalid file type. Please upload a PDF, DOC, DOCX, or TXT file."),
         [ToastError $"Invalid file type"])
      else if (maxSize <? File.size f)%N then
        (mkState (file st) (uploading st)
           (Some $"File too large. Maximum size is 5MB."),
         [ToastError $"File too large"])
      else
        match extractText f with
        | Returned text =>
            (mkState (Some f) false None,
             [ToastSuccess $"Resume uploaded and processed successfully!";
              OnUpload true (Some (ensureMinimum f text))])
        | Thrown _ =>
            (mkState (Some f) false
               (Some $"Error processing resume. Please try again."),
             [ToastError $"Error processing resume"])
        end
  end.

(** The "Remove" button. *)
Definition handleRemove (st : State) : State * list Effect :=
  (mkState None (uploading st) (error st), [OnUpload false None]).

(** The texts handed to [onUpload] by a list of effects. *)
Definition uploadedTexts (effs : list Effect) : list jsstring :=
  omap (fun e => match e with
                 | OnUpload _ (Some t) => Some t
                 | _ => None
                 end) effs.

Definition onUploadCalls (effs : list Effect) : list Effect :=
  List.filter (fun e => match e with OnUpload _ _ => true | _ => false end) effs.

End ResumeUpload.

(** ** Job-posting extraction ([JobDescriptionInput.tsx]) *)

Module JobDescriptionInput.

(** With the [i] flag (and without [u]) two code units match when their
    canonical forms are equal.  The canonical form of an ASCII letter is its
    upper-case letter; a code unit of 128 or more never has an ASCII
    canonical form, so against the ASCII patterns below it is enough to
    fold the ASCII lower-case letters. *)
Definition canonicalize (c : N) : N :=
  if ((97 <=? c) && (c <=? 122))%N then (c - 32)%N else c.

Fixpoint starts_with_i (p s : jsstring) : bool :=
  match p, s with
  | [], _ => true
  | a :: p', b :: s' => (canonicalize a =? canonicalize b)%N && starts_with_i p' s'
  | _ :: _, [] => false
  end.

(** [/job description|requirements|responsibilities/i] at a position. *)
Definition heading_here (s : jsstring) : bool :=
  starts_with_i $"job description" s
  || starts_with_i $"requirements" s
  || starts_with_i $"responsibilities" s.

(** [extractedText.match(/.../i)]: [None] for [null], otherwise the [index]
    of the leftmost match. *)
Fixpoint match_index (s : jsstring) : option nat :=
  if heading_here s then Some 0
  else match s with
       | [] => None
       | _ :: t => S <$> match_index t
       end.

(** [extractedText.replace(/\s+/g, ' ').trim()] *)
Definition collapse (textContent : jsstring) : jsstring :=
  Js.trim (Js.replace_all Js.spaces1 $" " textContent).

(** The text that is stored, from the [textContent] of the selected node.
    The condition [jobDescriptionMatches && jobDescriptionMatches.index]
    holds when there is a match and its index is not [0]. *)
Definition extractJobText (textContent : jsstring) : jsstring :=
  let extractedText := collapse textContent in
  let jobDescriptionMatches := match_index extractedText in
  let otherwise :=
    if 5000 <? length extractedText
    then Js.substring extractedText 0 5000 ++ $"..."
    else extractedText in
  match jobDescriptionMatches with
  | Some index =>
      if negb (index =? 0)
      then Js.substring extractedText index (index + 4000)
      else otherwise
  | None => otherwise
  end.

(** What [fetch] through the relay gives.  The DOM work (parsing the HTML,
    removing [script] and [style], selecting [main], [article],
    [.job-description], [#job-description] or the whole fragment) is the
    browser's; [textContent] is the [textContent || ''] of the selected
    node, and reading the body may be rejected. *)
Inductive FetchOutcome :=
| FetchRejected (message : jsstring)
| FetchResponse (ok : bool) (status : N) (textContent : JsResult jsstring).

Record State := mkState {
  activeTab : jsstring;
  jobUrl : jsstring;
  jobText : jsstring;
  isExtracting : bool;
  extractionError : option jsstring
}.

Inductive Effect :=
| OnJobDescriptionChange (description : jsstring)
| ToastSuccess (msg : jsstring)
| ToastError (msg : jsstring).

(** The [try] block: the text to store, or the message of the error. *)
Definition fetchJobText (response : FetchOutcome) : JsResult jsstring :=
  match response with
  | FetchRejected message => Thrown message
  | FetchResponse false status _ =>
      if (status =? 403)%N then
        Thrown $"Access denied: The website is blocking automated access. Please use the 'Paste Text' option instead."
      else if (status =? 404)%N then
        Thrown $"Job posting not found. Please check the URL and try again."
      else Thrown ($"Failed to fetch URL: " ++ Js.of_N status)
  | FetchResponse true _ (Thrown message) => Thrown message
  | FetchResponse true _ (Returned textContent) => Returned (extractJobText textContent)
  end.

Definition handleExtractFromUrl (response : FetchOutcome) (st : State)
  : State * list Effect :=
  if negb (Js.truthy (jobUrl st)) then (st, [])
  else
    match fetchJobText response with
    | Returned extractedText =>
        (mkState (activeTab st) (jobUrl st) extractedText false None,
         [OnJobDescriptionChange extractedText;
          ToastSuccess $"Job description extracted successfully"])
    | Thrown errorMessage =>
        (mkState (activeTab st) (jobUrl st) (jobText st) false (Some errorMessage),
         [ToastError errorMessage])
    end.

Definition handleTextChange (value : jsstring) (st : State) : State * list Effect :=
  (mkState (activeTab st) (jobUrl st) value (isExtracting st) (extractionError st),
   [OnJobDescriptionChange value]).

End JobDescriptionInput.

(** ** JSON values and [JSON.parse] *)

Module Json.

(** A number is kept as the literal that denotes it; what the engine makes
    of the literal as a double is left to the [Engine] below. *)
Inductive value :=
| Null
| Bool (b : bool)
| Num (lexeme : jsstring)
| Str (s : jsstring)
| Arr (items : list value)
| Obj (members : list (jsstring * value)).

(** An object is the list of its own properties.  Defining a property that
    is already there replaces its value where it stands. *)
Fixpoint set_member (k : jsstring) (v : value) (m : list (jsstring * value))
  : list (jsstring * value) :=
  match m with
  | [] => [(k, v)]
  | (k', v') :: rest =>
      if Js.eqb k k' then (k, v) :: rest else (k', v') :: set_member k v rest
  end.

Fixpoint lookup_member (k : jsstring) (m : list (jsstring * value)) : option value :=
  match m with
  | [] => None
  | (k', v') :: rest => if Js.eqb k k' then Some v' else lookup_member k rest
  end.

(** Reading a property whose name is neither an index nor [length]:
    [None] is [undefined].  Only objects have such properties; reading
    from [null] throws and is handled where it can happen. *)
Definition member (v : value) (k : jsstring) : option value :=
  match v with
  | Obj m => lookup_member k m
  | _ => None
  end.

(** *** The parser *)

Inductive outcome (A : Type) : Type :=
| Parsed (a : A) (rest : jsstring)
| SyntaxError
| OutOfFuel.
Arguments Parsed {A} a rest.
Arguments SyntaxError {A}.
Arguments OutOfFuel {A}.

Definition is_ws (c : N) : bool :=
  ((c =? 9) || (c =? 10) || (c =? 13) || (c =? 32))%N.

Definition skip_ws (s : jsstring) : jsstring := Js.drop_while is_ws s.

Definition is_digit (c : N) : bool := ((48 <=? c) && (c <=? 57))%N.

Definition hex_digit (c : N) : option N :=
  if is_digit c then Some (c - 48)%N
  else if ((97 <=? c) && (c <=? 102))%N then Some (c - 87)%N
  else if ((65 <=? c) && (c <=? 70))%N then Some (c - 55)%N
  else None.

Definition hex4 (a b c d : N) : option N :=
  match hex_digit a, hex_digit b, hex_digit c, hex_digit d with
  | Some x, Some y, Some z, Some w => Some (((x * 16 + y) * 16 + z) * 16 + w)%N
  | _, _, _, _ => None
  end.

(** The one-letter escapes. *)
Definition escape (e : N) : option N :=
  if (e =? 34)%N then Some 34%N
  else if (e =? 92)%N then Some 92%N
  else if (e =? 47)%N then Some 47%N
  else if (e =? Js.ch "b")%N then Some 8%N
  else if (e =? Js.ch "f")%N then Some 12%N
  else if (e =? Js.ch "n")%N then Some 10%N
  else if (e =? Js.ch "r")%N then Some 13%N
  else if (e =? Js.ch "t")%N then Some 9%N
  else None.

(** The characters of a string after its opening quote, up to and
    including the closing quote. *)
Fixpoint parse_chars (s : jsstring) (acc : jsstring) : outcome jsstring :=
  match s with
  | [] => SyntaxError
  | c :: r =>
      if (c =? 34)%N then Parsed (rev acc) r
      else if (c =? 92)%N then
        match r with
        | [] => SyntaxError
        | e :: r1 =>
            if (e =? Js.ch "u")%N then
              match r1 with
              | h1 :: h2 :: h3 :: h4 :: r2 =>
                  match hex4 h1 h2 h3 h4 with
                  | Some u => parse_chars r2 (u :: acc)
                  | None => SyntaxError
                  end
              | _ => SyntaxError
              end
            else
              match escape e with
              | Some x => parse_chars r1 (x :: acc)
              | None => SyntaxError
              end
        end
      else if (c <? 32)%N then SyntaxError
      else parse_chars r (c :: acc)
  end.

(** Digits, at least one. *)
Definition parse_digits (s : jsstring) : outcome jsstring :=
  match Js.take_while is_digit s with
  | [] => SyntaxError
  | ds => Parsed ds (drop (length ds) s)
  end.

(** A number: an optional minus sign, an integer part that is [0] or
    starts with a digit from 1 to 9, an optional fraction (a dot and at
    least one digit), an optional exponent ([e] or [E], an optional sign,
    at least one digit). *)
Definition parse_number (s : jsstring) : outcome jsstring :=
  let '(sign, r0) :=
    match s with
    | c :: r => if (c =? 45)%N then ([c], r) else ([], s)
    | [] => ([], s)
    end in
  let int :=
    match r0 with
    | d :: r1 => if (d =? 48)%N then Parsed [d] r1 else parse_digits r0
    | [] => SyntaxError
    end in
  match int with
  | Parsed ds r1 =>
      let frac :=
        match r1 with
        | dot :: r2 =>
            if (dot =? 46)%N then
              match parse_digits r2 with
              | Parsed fs r3 => Parsed (dot :: fs) r3
              | other => other
              end
            else Parsed [] r1
        | [] => Parsed [] r1
        end in
      match frac with
      | Parsed fs r3 =>
          let exp :=
            match r3 with
            | e :: r4 =>
                if ((e =? 101) || (e =? 69))%N then
                  let '(esign, r5) :=
                    match r4 with
                    | c :: r => if ((c =? 43) || (c =? 45))%N then ([c], r) else ([], r4)
                    | [] => ([], r4)
                    end in
                  match parse_digits r5 with
                  | Parsed es r6 => Parsed (e :: esign ++ es) r6
                  | other => other
                  end
                else Parsed [] r3
            | [] => Parsed [] r3
            end in
          match exp with
          | Parsed es r6 => Parsed (sign ++ ds ++ fs ++ es) r6
          | other => other
          end
      | other => other
      end
  | other => other
  end.

Definition parse_literal (s : jsstring) : outcome value :=
  if Js.starts_with $"true" s then Parsed (Bool true) (drop 4 s)
  else if Js.starts_with $"false" s then Parsed (Bool false) (drop 5 s)
  else if Js.starts_with $"null" s then Parsed Null (drop 4 s)
  else SyntaxError.

(** A value, the rest of an array after its opening bracket, the rest of
    an object after its opening brace. *)
Fixpoint parse_value (fuel : nat) (s : jsstring) {struct fuel} : outcome value :=
  match fuel with
  | O => OutOfFuel
  | S fuel' =>
      match skip_ws s with
      | [] => SyntaxError
      | c :: r =>
          if (c =? Js.ch "{")%N then
            match skip_ws r with
            | c' :: r' =>
                if (c' =? Js.ch "}")%N then Parsed (Obj []) r'
                else parse_members fuel' r []
            | [] => SyntaxError
            end
          else if (c =? Js.ch "[")%N then
            match skip_ws r with
            | c' :: r' =>
                if (c' =? Js.ch "]")%N then Parsed (Arr []) r'
                else parse_elements fuel' r []
            | [] => SyntaxError
            end
          else if (c =? 34)%N then
            match parse_chars r [] with
            | Parsed str rest => Parsed (Str str) rest
            | SyntaxError => SyntaxError
            | OutOfFuel => OutOfFuel
            end
          else if ((c =? 45) || is_digit c)%N then
            match parse_number (c :: r) with
            | Parsed lexeme rest => Parsed (Num lexeme) rest
            | SyntaxError => SyntaxError
            | OutOfFuel => OutOfFuel
            end
          else parse_literal (c :: r)
      end
  end
with parse_elements (fuel : nat) (s : jsstring) (acc : list value) {struct fuel}
  : outcome value :=
  match fuel with
  | O => OutOfFuel
  | S fuel' =>
      match parse_value fuel' s with
      | Parsed v r =>
          match skip_ws r with
          | c :: r' =>
              if (c =? Js.ch ",")%N then parse_elements fuel' r' (v :: acc)
              else if (c =? Js.ch "]")%N then Parsed (Arr (rev (v :: acc))) r'
              else SyntaxError
          | [] => SyntaxError
          end
      | SyntaxError => SyntaxError
      | OutOfFuel => OutOfFuel
      end
  end
with parse_members (fuel : nat) (s : jsstring) (acc : list (jsstring * value))
  {struct fuel} : outcome value :=
  match fuel with
  | O => OutOfFuel
  | S fuel' =>
      match skip_ws s with
      | q :: r =>
          if (q =? 34)%N then
            match parse_chars r [] with
            | Parsed key r1 =>
                match skip_ws r1 with
                | colon :: r2 =>
                    if (colon =? Js.ch ":")%N then
                      match parse_value fuel' r2 with
                      | Parsed v r3 =>
                          match skip_ws r3 with
                          | c :: r4 =>
                              if (c =? Js.ch ",")%N then
                                parse_members fuel' r4 (set_member key v acc)
                              else if (c =? Js.ch "}")%N then
                                Parsed (Obj (set_member key v acc)) r4
                              else SyntaxError
                          | [] => SyntaxError
                          end
                      | SyntaxError => SyntaxError
                      | OutOfFuel => OutOfFuel
                      end
                    else SyntaxError
                | [] => SyntaxError
                end
            | SyntaxError => SyntaxError
            | OutOfFuel => OutOfFuel
            end
          else SyntaxError
      | [] => SyntaxError
      end
  end.

(** Fuel that is always enough for a text (see [parse_value_enough_fuel]). *)
Definition fuel_for (text : jsstring) : nat := 2 * length text + 1.

(** [JSON.parse(text)]: [None] when it throws a [SyntaxError]. *)
Definition parse (text : jsstring) : option value :=
  match parse_value (fuel_for text) text with
  | Parsed v rest =>
      match skip_ws rest with
      | [] => Some v
      | _ :: _ => None
      end
  | SyntaxError | OutOfFuel => None
  end.

End Json.

(** ** The Gemini service ([lib/supabase.ts]) *)

Module GeminiService.
Import Json.

(** What the JavaScript engine decides about numbers: whether the double
    denoted by a JSON number literal is zero, and whether [v > 0] holds
    for a value [v] after the coercions of the relational comparison. *)
Record Engine := mkEngine {
  number_is_zero : jsstring -> bool;
  greater_than_zero : value -> bool
}.

(** A value used as a condition. *)
Definition truthy (E : Engine) (v : value) : bool :=
  match v with
  | Null => false
  | Bool b => b
  | Num lexeme => negb (number_is_zero E lexeme)
  | Str s => Js.truthy s
  | Arr _ | Obj _ => true
  end.

(** *** The reply of the generation endpoint

    [data] with the fields [callGeminiAPI] reads; a field that is absent,
    [undefined] or [null] is [None]. *)
Record Part := mkPart { text : option jsstring }.
Record Content := mkContent { parts : option (list Part) }.
Record Candidate := mkCandidate { content : option Content }.
Record ApiError := mkApiError { message : option jsstring }.
Record GeminiData := mkData {
  error : option ApiError;
  candidates : option (list Candidate)
}.

(** The [Response] of [fetch]; [json] is the outcome of [response.json()]. *)
Record Response := mkResponse {
  ok : bool;
  status : N;
  statusText : jsstring;
  json : JsResult GeminiData
}.

Inductive FetchOutcome :=
| FetchRejected (message : jsstring)
| FetchResolved (response : Response).

(** The three prompts; the template text around the interpolated values is
    fixed and left out. *)
Inductive Prompt :=
| SalaryTrendsPrompt
| LearningRecommendationsPrompt
| ResumeJobMatchPrompt (resumeContent jobDescContent : jsstring).

(** The configuration and the network. *)
Record Env := mkEnv {
  GEMINI_API_KEY : option jsstring;
  fetch : Prompt -> FetchOutcome
}.

(** [data.candidates[0]?.content?.parts?.[0]?.text] *)
Definition firstText (data : GeminiData) : option jsstring :=
  cs ← candidates data;
  c ← head cs;
  ct ← content c;
  ps ← parts ct;
  p ← head ps;
  text p.

Definition callGeminiAPI (env : Env) (prompt : Prompt) : JsResult jsstring :=
  if negb (from_option Js.truthy false (GEMINI_API_KEY env)) then
    Thrown $"Gemini API key is not configured"
  else
    match fetch env prompt with
    | FetchRejected message => Thrown message
    | FetchResolved response =>
        if negb (ok response) then
          match json response with
          | Thrown message => Thrown message
          | Returned errorData =>
              Thrown ($"API error: " ++ Js.of_N (status response) ++ $" "
                      ++ statusText response)
          end
        else
          match json response with
          | Thrown message => Thrown message
          | Returned data =>
              match error data with
              | Some e =>
                  Thrown (match message e with
                          | Some m => if Js.truthy m then m
                                      else $"Failed to get response from Gemini"
                          | None => $"Failed to get response from Gemini"
                          end)
              | None =>
                  match firstText data with
                  | Some t =>
                      if Js.truthy t then Returned t
                      else Thrown $"Invalid response format from Gemini API"
                  | None => Thrown $"Invalid response format from Gemini API"
                  end
              end
          end
    end.

(** [open[\s\S]*close] without the [g] flag: from the first [open] to the
    last [close] after it. *)
Definition span (open close : N) (s : jsstring) : option jsstring :=
  match Js.drop_while (fun c => negb (c =? open)%N) s with
  | [] => None
  | o :: body =>
      match Js.drop_while (fun c => negb (c =? close)%N) (rev body) with
      | [] => None
      | upto => Some (o :: rev upto)
      end
  end.

(** [responseText.match(/\[[\s\S]*\]/)] and then
    [jsonMatch ? jsonMatch[0] : responseText]. *)
Definition arrayText (responseText : jsstring) : jsstring :=
  default responseText (span (Js.ch "[") (Js.ch "]") responseText).

Definition objectText (responseText : jsstring) : jsstring :=
  default responseText (span (Js.ch "{") (Js.ch "}") responseText).

(** [v.slice(0, 3)]: arrays and strings have a [slice] method; on anything
    else the call throws a [TypeError] ([None]). *)
Definition slice3 (v : value) : option value :=
  match v with
  | Arr items => Some (Arr (take 3 items))
  | Str s => Some (Str (take 3 s))
  | Null | Bool _ | Num _ | Obj _ => None
  end.

(** The [.length] of a value that has one as an array or a string. *)
Definition js_length (v : value) : option nat :=
  match v with
  | Arr items => Some (length items)
  | Str s => Some (length s)
  | _ => None
  end.

Definition rupee : N := 8377.
Definition arrow_up : N := 8599.
Definition s_ (x : string) : value := Str (Js.str x).
Definition n_ (x : string) : value := Num (Js.str x).
Definition inr_range (low high : string) : value :=
  Str (rupee :: Js.str low ++ $" - " ++ rupee :: Js.str high).
Definition up_by (percent : string) : value :=
  Str (arrow_up :: $" " ++ Js.str percent).

Definition salaryTrendsFallback : value :=
  Arr [ Obj [ ($"role", s_ "Full Stack Developer");
              ($"salaryInINR", inr_range "8,00,000" "15,00,000");
              ($"growth", up_by "18%") ];
        Obj [ ($"role", s_ "DevOps Engineer");
              ($"salaryInINR", inr_range "12,00,000" "22,00,000");
              ($"growth", up_by "25%") ];
        Obj [ ($"role", s_ "Data Scientist");
              ($"salaryInINR", inr_range "10,00,000" "20,00,000");
              ($"growth", up_by "20%") ] ].

Definition recommendation (title type provider duration priority url : string) : value :=
  Obj [ ($"title", s_ title); ($"type", s_ type); ($"provider", s_ provider);
        ($"duration", s_ duration); ($"priority", s_ priority); ($"url", s_ url) ].

Definition learningRecommendationsFallback : value :=
  Arr [ recommendation "AWS Solutions Architect Associate" "Certification" "AWS"
          "3-4 weeks" "High"
          "https://aws.amazon.com/certification/certified-solutions-architect-associate/";
        recommendation "Full Stack Web Development" "Course" "Coursera"
          "6 months" "High" "https://www.coursera.org/specializations/full-stack-react";
        recommendation "Python for Data Science" "Course" "edX"
          "8 weeks" "Medium" "https://www.edx.org/course/python-for-data-science" ].

(** The inner [try] of the two list calls; [None] when it throws. *)
Definition parseFirstThree (responseText : jsstring) : option value :=
  trends ← parse (arrayText responseText);
  slice3 trends.

Definition getSalaryTrendsFromGemini (env : Env) : value :=
  let attempt : JsResult value :=
    match callGeminiAPI env SalaryTrendsPrompt with
    | Returned responseText =>
        match parseFirstThree responseText with
        | Some trends => Returned trends
        | None => Thrown $"Failed to parse salary trends data"
        end
    | Thrown message => Thrown message
    end in
  match attempt with
  | Returned trends => trends
  | Thrown _ => salaryTrendsFallback
  end.

Definition getLearningRecommendationsFromGemini (env : Env) : value :=
  let attempt : JsResult value :=
    match callGeminiAPI env LearningRecommendationsPrompt with
    | Returned responseText =>
        match parseFirstThree responseText with
        | Some recommendations => Returned recommendations
        | None => Thrown $"Failed to parse learning recommendations data"
        end
    | Thrown message => Thrown message
    end in
  match attempt with
  | Returned recommendations => recommendations
  | Thrown _ => learningRecommendationsFallback
  end.

(** *** The comprehensive analysis *)

Definition unknownSkill : value := s_ "Unknown Skill".

(** The own enumerable properties that a spread copies from an array or
    from a string: one property per index. *)
Definition indexed (items : list value) : list (jsstring * value) :=
  imap (fun i v => (Js.of_N (N.of_nat i), v)) items.

(** [{...item, skill: item.skill || "Unknown Skill"}]; [None] when reading
    [item.skill] throws, which it does for [null]. *)
Definition withSkillName (E : Engine) (item : value) : option value :=
  match item with
  | Null => None
  | Obj m =>
      let skill :=
        match lookup_member $"skill" m with
        | Some sv => if truthy E sv then sv else unknownSkill
        | None => unknownSkill
        end in
      Some (Obj (set_member $"skill" skill m))
  | Arr items => Some (Obj (set_member $"skill" unknownSkill (indexed items)))
  | Str s =>
      Some (Obj (set_member $"skill" unknownSkill
                   (indexed (List.map (fun c => Str [c]) s))))
  | Bool _ | Num _ => Some (Obj [($"skill", unknownSkill)])
  end.

(** "Ensure skill gap data has proper skill names": the statements between
    [JSON.parse] and [return analysis]; [None] when they throw.  A string or
    an object in the place of the array has no [map] method. *)
Definition nameSkillGaps (E : Engine) (analysis : value) : option value :=
  match analysis with
  | Null => None
  | Obj m =>
      match lookup_member $"skillGapData" m with
      | Some (Arr items) =>
          if 0 <? length items then
            named ← mapM (withSkillName E) items;
            Some (Obj (set_member $"skillGapData" (Arr named) m))
          else Some analysis
      | Some (Str s) => if 0 <? length s then None else Some analysis
      | Some (Obj sm) =>
          match lookup_member $"length" sm with
          | Some len => if greater_than_zero E len then None else Some analysis
          | None => Some analysis
          end
      | Some Null | Some (Bool _) | Some (Num _) | None => Some analysis
      end
  | Bool _ | Num _ | Str _ | Arr _ => Some analysis
  end.

Definition skillGap (skill current required : string) : value :=
  Obj [ ($"skill", s_ skill); ($"current", n_ current); ($"required", n_ required) ].

Definition demand (skill demandLevel growthTrend : string) : value :=
  Obj [ ($"skill", s_ skill); ($"demandLevel", s_ demandLevel);
        ($"growthTrend", s_ growthTrend) ].

Definition fit (trait matchScore jobRequirement : string) : value :=
  Obj [ ($"trait", s_ trait); ($"matchScore", n_ matchScore);
        ($"jobRequirement", s_ jobRequirement) ].

Definition careerPath (role timeframe low high : string) (requiredSkills : list string)
  : value :=
  Obj [ ($"role", s_ role); ($"timeframe", s_ timeframe);
        ($"potentialSalary", inr_range low high);
        ($"requiredSkills", Arr (List.map s_ requiredSkills)) ].

(** "Enhanced fallback data with Indian market context" *)
Definition fallbackAnalysis : value :=
  Obj [
    ($"skillMatch", Obj [
       ($"matched", Arr [
          s_ "Problem-solving abilities";
          s_ "Basic programming knowledge";
          s_ "Communication skills";
          s_ "Team collaboration";
          s_ "Technical aptitude" ]);
       ($"missing", Arr [
          s_ "Advanced JavaScript frameworks";
          s_ "Cloud computing experience";
          s_ "System design knowledge";
          s_ "DevOps practices";
          s_ "Database optimization" ]);
       ($"overallMatchPercentage", n_ "65") ]);
    ($"skillGapData", Arr [
       skillGap "JavaScript/React" "60" "85";
       skillGap "Node.js/Backend" "45" "80";
       skillGap "AWS/Cloud" "25" "75";
       skillGap "Database Management" "55" "70";
       skillGap "DevOps/CI-CD" "20" "65";
       skillGap "System Design" "30" "75";
       skillGap "API Development" "50" "80" ]);
    ($"recommendations", Arr [
       recommendation "React.js Complete Guide" "Course" "Udemy" "40 hours" "High"
         "https://www.udemy.com/course/react-the-complete-guide-incl-redux/";
       recommendation "AWS Certified Developer" "Certification" "AWS" "8 weeks" "High"
         "https://aws.amazon.com/certification/certified-developer-associate/";
       recommendation "System Design Interview" "Course" "Educative" "6 weeks" "Medium"
         "https://www.educative.io/courses/grokking-the-system-design-interview" ]);
    ($"industryDemand", Arr [
       demand "React.js" "Very High" "Rapidly Growing";
       demand "Node.js" "High" "Growing";
       demand "AWS" "Very High" "Rapidly Growing";
       demand "Python" "High" "Growing";
       demand "DevOps" "Very High" "Rapidly Growing" ]);
    ($"personalityFit", Arr [
       fit "Technical Communication" "70" "Clear technical documentation and code reviews";
       fit "Team Collaboration" "75" "Agile development and cross-functional teamwork";
       fit "Continuous Learning" "80"
         "Staying updated with latest technologies and best practices" ]);
    ($"careerPathSuggestions", Arr [
       careerPath "Senior Full Stack Developer" "2-3 years" "12,00,000" "20,00,000"
         ["Advanced React"; "System Architecture"; "Team Leadership";
          "Performance Optimization"]%string;
       careerPath "Technical Lead" "4-5 years" "20,00,000" "35,00,000"
         ["System Design"; "Team Management"; "Product Strategy"; "Mentoring"]%string ]);
    ($"strengths", Arr [
       s_ "Solid foundation in core programming concepts and problem-solving";
       s_ "Good communication skills suitable for Indian corporate environment";
       s_ "Adaptability and willingness to learn new technologies" ]);
    ($"weaknesses", Arr [
       s_ "Limited experience with modern JavaScript frameworks and cloud technologies";
       s_ "Needs improvement in system design and scalability concepts" ]);
    ($"competitiveAdvantage",
       s_ "Strong fundamentals with good learning potential for the rapidly growing Indian tech market");
    ($"matchScoreReasoning",
       s_ "Provide a brief and precise explanation (1-2 sentences) for the overall match percentage, focusing on the most significant matching strengths and missing skills.")
  ].

Definition resumeTooShort : jsstring :=
  $"Resume text is too short for accurate analysis. Please provide a more detailed resume.".

Definition jobDescriptionTooShort : jsstring :=
  $"Job description is too short for accurate analysis. Please provide a more detailed job description.".

(** The inner [try] of [analyzeResumeJobMatch]; [None] when it throws. *)
Definition parseAnalysis (E : Engine) (responseText : jsstring) : option value :=
  analysis ← parse (objectText responseText);
  nameSkillGaps E analysis.

(** The outer [try] block. *)
Definition analysisAttempt (E : Engine) (env : Env) (resumeText jobDescription : jsstring)
  : JsResult value :=
  if negb (Js.truthy resumeText) || (length (Js.trim resumeText) <? 50) then
    Thrown resumeTooShort
  else if negb (Js.truthy jobDescription) || (length (Js.trim jobDescription) <? 50) then
    Thrown jobDescriptionTooShort
  else
    let resumeContent := Js.trim resumeText in
    let jobDescContent := Js.trim jobDescription in
    match callGeminiAPI env (ResumeJobMatchPrompt resumeContent jobDescContent) with
    | Returned responseText =>
        match parseAnalysis E responseText with
        | Some analysis => Returned analysis
        | None => Thrown $"Failed to parse resume analysis data"
        end
    | Thrown message => Thrown message
    end.

(** The outer [catch]: an error whose message includes "too short" is thrown
    again, every other error is replaced by the fallback analysis. *)
Definition analyzeResumeJobMatch (E : Engine) (env : Env)
  (resumeText jobDescription : jsstring) : JsResult value :=
  match analysisAttempt E env resumeText jobDescription with
  | Returned analysis => Returned analysis
  | Thrown message =>
      if Js.includes message $"too short" then Thrown message
      else Returned fallbackAnalysis
  end.

End GeminiService.

(** ** The dashboard page: inputs, history, local storage *)

Module AnalysisHistoryItem.
(** [matchPercentage] is whatever [overallMatchPercentage] held, [None]
    when it was [undefined]. *)
Record t := mk {
  id : jsstring;
  date : jsstring;
  matchPercentage : option Json.value;
  jobTitle : option jsstring;
  resumeText : option jsstring;
  jobDescription : option jsstring
}.
End AnalysisHistoryItem.

Module Dashboard.

Record User := mkUser { email : jsstring }.

(** [Date.now()] and [new Date().toLocaleDateString()] at the time of a
    call. *)
Record Clock := mkClock { now : N; localeDate : jsstring }.

Inductive Toast :=
| ToastError (msg : jsstring)
| ToastSuccess (msg : jsstring).

(** The state of the page, the signed-in user of the auth context, and what
    the page reads and writes outside itself: local storage (each entry
    holding the array that its JSON text denotes) and the toasts shown. *)
Record State := mkState {
  activeTab : jsstring;
  resumeUploaded : bool;
  resumeText : jsstring;
  jobDescription : jsstring;
  showResults : bool;
  authModalOpen : bool;
  analysisHistory : list AnalysisHistoryItem.t;
  hasBeenSaved : bool;
  selectedHistoryItem : option AnalysisHistoryItem.t;
  user : option User;
  localStorage : gmap jsstring (list AnalysisHistoryItem.t);
  toasts : list Toast
}.

Definition toast (t : Toast) (st : State) : State :=
  mkState (activeTab st) (resumeUploaded st) (resumeText st) (jobDescription st)
    (showResults st) (authModalOpen st) (analysisHistory st) (hasBeenSaved st)
    (selectedHistoryItem st) (user st) (localStorage st) (toasts st ++ [t]).

Definition storageKey (u : User) : jsstring := $"analysisHistory_" ++ email u.

(** "Load analysis history from localStorage when component mounts" *)
Definition loadHistory (st : State) : State :=
  match user st with
  | Some u =>
      match localStorage st !! storageKey u with
      | Some savedHistory =>
          mkState (activeTab st) (resumeUploaded st) (resumeText st) (jobDescription st)
            (showResults st) (authModalOpen st) savedHistory (hasBeenSaved st)
            (selectedHistoryItem st) (user st) (localStorage st) (toasts st)
      | None => st
      end
  | None => st
  end.

Definition handleAnalyze (st : State) : State :=
  match user st with
  | None =>
      let st := toast (ToastError $"Please sign in to analyze your resume") st in
      mkState (activeTab st) (resumeUploaded st) (resumeText st) (jobDescription st)
        (showResults st) true (analysisHistory st) (hasBeenSaved st)
        (selectedHistoryItem st) (user st) (localStorage st) (toasts st)
  | Some _ =>
      if negb (resumeUploaded st) || negb (Js.truthy (resumeText st)) then
        toast (ToastError $"Please upload your resume first") st
      else if negb (Js.truthy (jobDescription st)) then
        toast (ToastError $"Please enter a job description") st
      else if length (resumeText st) <? 50 then
        toast (ToastError $"Resume content is too short for meaningful analysis") st
      else if length (jobDescription st) <? 50 then
        toast (ToastError $"Job description is too short for meaningful analysis") st
      else
        mkState (activeTab st) (resumeUploaded st) (resumeText st) (jobDescription st)
          true (authModalOpen st) (analysisHistory st) false
          (selectedHistoryItem st) (user st) (localStorage st) (toasts st)
  end.

Definition handleResumeUpload (uploaded : bool) (extractedText : option jsstring)
  (st : State) : State :=
  let extractedText := default [] extractedText in
  let newText :=
    if Js.truthy extractedText then extractedText
    else if negb uploaded then [] else resumeText st in
  mkState (activeTab st) uploaded newText (jobDescription st)
    (showResults st) (authModalOpen st) (analysisHistory st) (hasBeenSaved st)
    (selectedHistoryItem st) (user st) (localStorage st) (toasts st).

Definition handleJobDescriptionChange (jd : jsstring) (st : State) : State :=
  mkState (activeTab st) (resumeUploaded st) (resumeText st) jd
    (showResults st) (authModalOpen st) (analysisHistory st) (hasBeenSaved st)
    (selectedHistoryItem st) (user st) (localStorage st) (toasts st).

(** [jobDescription.split('\n')[0] || "Untitled Position"] *)
Definition titleOf (jobDescription : jsstring) : jsstring :=
  match Js.split 10 jobDescription with
  | first :: _ => if Js.truthy first then first else $"Untitled Position"
  | [] => $"Untitled Position"
  end.

(** "Save analysis to history - modified to prevent duplicates" *)
Definition saveToHistory (clock : Clock) (matchPercentage : option Json.value)
  (st : State) : State :=
  match user st with
  | None => st
  | Some u =>
      if hasBeenSaved st then st
      else
        let newHistoryItem :=
          AnalysisHistoryItem.mk (Js.of_N (now clock)) (localeDate clock)
            matchPercentage (Some (titleOf (jobDescription st)))
            (Some (resumeText st)) (Some (jobDescription st)) in
        let updatedHistory := newHistoryItem :: analysisHistory st in
        mkState (activeTab st) (resumeUploaded st) (resumeText st) (jobDescription st)
          (showResults st) (authModalOpen st) updatedHistory true
          (selectedHistoryItem st) (user st)
          (<[storageKey u := updatedHistory]> (localStorage st))
          (toasts st ++ [ToastSuccess $"Analysis saved to history"])
  end.

Definition handleViewHistory (item : AnalysisHistoryItem.t) (st : State) : State :=
  match AnalysisHistoryItem.resumeText item, AnalysisHistoryItem.jobDescription item with
  | Some itemResume, Some itemJob =>
      if Js.truthy itemResume && Js.truthy itemJob then
        mkState (activeTab st) true itemResume itemJob
          true (authModalOpen st) (analysisHistory st) (hasBeenSaved st)
          (Some item) (user st) (localStorage st) (toasts st)
      else
        toast (ToastError $"Unable to load analysis history. Resume or job description data is missing.")
          (mkState (activeTab st) (resumeUploaded st) (resumeText st) (jobDescription st)
             (showResults st) (authModalOpen st) (analysisHistory st) (hasBeenSaved st)
             (Some item) (user st) (localStorage st) (toasts st))
  | _, _ =>
      toast (ToastError $"Unable to load analysis history. Resume or job description data is missing.")
        (mkState (activeTab st) (resumeUploaded st) (resumeText st) (jobDescription st)
           (showResults st) (authModalOpen st) (analysisHistory st) (hasBeenSaved st)
           (Some item) (user st) (localStorage st) (toasts st))
  end.

(** The [onBack] handler given to the results. *)
Definition onBack (st : State) : State :=
  match selectedHistoryItem st with
  | Some _ =>
      mkState (activeTab st) (resumeUploaded st) (resumeText st) (jobDescription st)
        false (authModalOpen st) (analysisHistory st) false
        None (user st) (localStorage st) (toasts st)
  | None =>
      mkState (activeTab st) false [] []
        false (authModalOpen st) (analysisHistory st) false
        None (user st) (localStorage st) (toasts st)
  end.

Definition setActiveTab (tab : jsstring) (st : State) : State :=
  mkState tab (resumeUploaded st) (resumeText st) (jobDescription st)
    (showResults st) (authModalOpen st) (analysisHistory st) (hasBeenSaved st)
    (selectedHistoryItem st) (user st) (localStorage st) (toasts st).

End Dashboard.

(** ** The results component (second part of [JobDescriptionInput.tsx]) *)

Module AnalysisResults.
Import GeminiService.

(** [analysisError], the [hasSaved] ref, and what [useQuery] reports for
    the comprehensive analysis. *)
Record State := mkState {
  analysisError : option jsstring;
  hasSaved : bool;
  analysisResults : option Json.value;
  analysisLoading : bool;
  analysisQueryError : option jsstring
}.

(** A fresh mount with nothing in the query cache. *)
Definition mount : State := mkState None false None true None.

Definition queryFn (E : Engine) (env : Env) (resumeText jobDescription : jsstring)
  : JsResult Json.value :=
  if negb (Js.truthy resumeText) || (length resumeText <? 50) then
    Thrown $"Resume text is too short for accurate analysis. Please provide a more detailed resume with at least 50 characters."
  else if negb (Js.truthy jobDescription) || (length jobDescription <? 50) then
    Thrown $"Job description is too short for accurate analysis. Please provide a more detailed job description with at least 50 characters."
  else analyzeResumeJobMatch E env resumeText jobDescription.

(** The query settles, with the result of its last attempt. *)
Definition settle (outcome : JsResult Json.value) (v : State) : State :=
  match outcome with
  | Returned data => mkState (analysisError v) (hasSaved v) (Some data) false None
  | Thrown message =>
      mkState (analysisError v) (hasSaved v) (analysisResults v) false (Some message)
  end.

(** "Handle analysis errors" *)
Definition errorEffect (v : State) : State :=
  mkState (analysisQueryError v) (hasSaved v) (analysisResults v)
    (analysisLoading v) (analysisQueryError v).

(** [analysisResults.skillMatch.overallMatchPercentage]; the outer [None]
    is a [TypeError], thrown when [skillMatch] is [undefined] or [null]. *)
Definition overallMatchPercentage (results : Json.value) : option (option Json.value) :=
  match Json.member results $"skillMatch" with
  | None | Some Json.Null => None
  | Some skillMatch => Some (Json.member skillMatch $"overallMatchPercentage")
  end.

(** "Save analysis to history when results are loaded - only once": one
    evaluation of the effect, with [saveToHistory] as [onSaveAnalysis].
    [None] when the effect throws. *)
Definition saveEffect (E : Engine) (clock : Dashboard.Clock)
  (page : Dashboard.State) (v : State) : option (Dashboard.State * State) :=
  match analysisResults v with
  | Some results =>
      if truthy E results && negb (analysisLoading v)
         && negb (from_option Js.truthy false (analysisError v))
         && negb (hasSaved v)
      then
        percentage ← overallMatchPercentage results;
        Some (Dashboard.saveToHistory clock percentage page,
              mkState (analysisError v) true (analysisResults v)
                (analysisLoading v) (analysisQueryError v))
      else Some (page, v)
  | None => Some (page, v)
  end.

(** The component is mounted again (the tab that holds it is shown again):
    a new [hasSaved] ref, and the results still in the query cache. *)
Definition remount (v : State) : State :=
  mkState None false (analysisResults v) (analysisLoading v) (analysisQueryError v).

(** What can happen to displayed results without a new analysis. *)
Inductive Rerender :=
| SaveEffect (clock : Dashboard.Clock)
| ErrorEffect
| SaveToHistory (clock : Dashboard.Clock) (matchPercentage : option Json.value)
| Remount
| SetActiveTab (tab : jsstring).

Definition rerender (E : Engine) (ev : Rerender) (pv : Dashboard.State * State)
  : option (Dashboard.State * State) :=
  let '(page, v) := pv in
  match ev with
  | SaveEffect clock => saveEffect E clock page v
  | ErrorEffect => Some (page, errorEffect v)
  | SaveToHistory clock matchPercentage =>
      Some (Dashboard.saveToHistory clock matchPercentage page, v)
  | Remount => Some (page, remount v)
  | SetActiveTab tab => Some (Dashboard.setActiveTab tab page, v)
  end.

Fixpoint rerenders (E : Engine) (evs : list Rerender) (pv : Dashboard.State * State)
  : option (Dashboard.State * State) :=
  match evs with
  | [] => Some pv
  | ev :: rest => pv' ← rerender E ev pv; rerenders E rest pv'
  end.

(** The results on display: an object with a [skillMatch] that is not
    [null], so that the save effect can read the percentage. *)
Definition readable (results : Json.value) : Prop :=
  exists skillMatch,
    Json.member results $"skillMatch" = Some skillMatch /\ skillMatch <> Json.Null.

(** After the save: the flag of the page is set and the results are still
    the readable ones. *)
Definition saved (pv : Dashboard.State * State) : Prop :=
  Dashboard.hasBeenSaved (fst pv) = true /\
  from_option readable True (analysisResults (snd pv)).

End AnalysisResults.

(** ** Sample inputs *)

Module Sample.
Import Json GeminiService.

(** A string literal of JSON text: the characters between double quotes. *)
Definition quoted (x : string) : jsstring := 34%N :: Js.str x ++ [34%N].

Definition oversized_pdf : File.t :=
  File.mk $"cv.pdf" $"application/pdf" 5242881 (Returned $"%PDF-1.4").

Definition short_note : File.t :=
  File.mk $"cv.txt" $"text/plain" 5 (Returned $"hello").

Definition sixty_chars : jsstring :=
  $"Experienced engineer with Python, SQL and cloud skills, 2024".

Definition plain_resume : File.t :=
  File.mk $"resume.txt" $"text/plain" 60 (Returned sixty_chars).

Definition tiny_content : jsstring :=
  $"BT (Senior engineer) Tj /Text [(Python) (SQL)] ET trailer".

Definition tiny_pdf : File.t :=
  File.mk $"cv.pdf" $"application/pdf" 64 (Returned tiny_content).

(** A page text that starts with a section heading and is longer than 5000
    code units. *)
Definition heading_first : jsstring := $"Requirements: " ++ repeat (Js.ch "x") 5000.

(** An engine for the examples: a number literal is zero when its digits
    before the exponent are all [0], and [v > 0] is decided for numbers and
    booleans. *)
Definition literal_is_zero (lexeme : jsstring) : bool :=
  forallb (fun c => negb ((49 <=? c) && (c <=? 57))%N)
    (Js.take_while (fun c => negb ((c =? 101) || (c =? 69))%N) lexeme).

Definition engine : Engine :=
  mkEngine literal_is_zero
    (fun v => match v with
              | Num lexeme => negb (Js.starts_with $"-" lexeme) && negb (literal_is_zero lexeme)
              | Bool b => b
              | _ => false
              end).

Definition resume : jsstring :=
  $"Backend engineer, six years of Python, PostgreSQL and AWS; led a team of four.".

Definition job : jsstring :=
  $"Senior Backend Engineer" ++ [10%N] ++
  $"We need strong Python, SQL and cloud skills, and experience leading small teams.".

(** The endpoint answers 200 with one candidate whose text is [reply]. *)
Definition replying (reply : jsstring) : Env :=
  mkEnv (Some $"test-key")
    (fun _ => FetchResolved
       (mkResponse true 200 $"OK"
          (Returned (mkData None
             (Some [mkCandidate (Some (mkContent (Some [mkPart (Some reply)])))]))))).

(** The endpoint answers with an HTTP error status. *)
Definition failing (status : N) (statusText : jsstring) : Env :=
  mkEnv (Some $"test-key")
    (fun _ => FetchResolved
       (mkResponse false status statusText (Returned (mkData None None)))).

Definition prose_reply : jsstring := $"Sorry, I cannot help with that request.".

Definition analysis_reply : jsstring :=
  $"{" ++ quoted "skillMatch" ++ $":{" ++ quoted "overallMatchPercentage" ++ $":72}}".

Definition alice : Dashboard.User := Dashboard.mkUser $"alice@example.com".

Definition storedItem : AnalysisHistoryItem.t :=
  AnalysisHistoryItem.mk $"1718000000000" $"6/10/2024" (Some (n_ "72"))
    (Some $"Senior Backend Engineer") (Some resume) (Some job).

(** The page after a reload: signed in, one record in local storage. *)
Definition reloaded : Dashboard.State :=
  Dashboard.loadHistory
    (Dashboard.mkState $"analyze" false [] [] false false [] false None (Some alice)
       {[ Dashboard.storageKey alice := [storedItem] ]} []).

Definition later : Dashboard.Clock := Dashboard.mkClock 1718100000000 $"6/11/2024".

(** The page with an uploaded resume and a pasted job description. *)
Definition ready : Dashboard.State :=
  Dashboard.mkState $"analyze" true resume job false false [] false None (Some alice) ∅ [].

End Sample.

(** ** Shapes of texts *)

Module TextShape.

(** No two white-space code units next to each other. *)
Fixpoint single_spaced (s : jsstring) : bool :=
  match s with
  | a :: t =>
      match t with
      | b :: _ => negb (Js.is_space a && Js.is_space b) && single_spaced t
      | [] => true
      end
  | [] => true
  end.

(** The only white space is the space character. *)
Definition plain_spaces (s : jsstring) : Prop :=
  Forall (fun c => Js.is_space c = true -> c = 32%N) s.

(** No white space at either end. *)
Definition trimmed (s : jsstring) : Prop :=
  (forall c, head s = Some c -> Js.is_space c = false) /\
  (forall c, last s = Some c -> Js.is_space c = false).

End TextShape.

(** ** The page as a whole: its actions and the wiring of its components *)

Module Page.
Import Dashboard.

(** [<ResumeUpload onUpload={handleResumeUpload} />]: the calls of
    [onUpload] reach [handleResumeUpload], in order. *)
Definition deliverUpload (effs : list ResumeUpload.Effect) (page : State) : State :=
  foldl (fun st e =>
           match e with
           | ResumeUpload.OnUpload uploaded extractedText =>
               handleResumeUpload uploaded extractedText st
           | _ => st
           end) page effs.

(** [<JobDescriptionInput onJobDescriptionChange={handleJobDescriptionChange} />] *)
Definition deliverJobDescription (effs : list JobDescriptionInput.Effect) (page : State)
  : State :=
  foldl (fun st e =>
           match e with
           | JobDescriptionInput.OnJobDescriptionChange jd =>
               handleJobDescriptionChange jd st
           | _ => st
           end) page effs.

(** What can happen to the page while the signed-in user stays the same. *)
Inductive Action :=
| Load
| Analyze
| ResumeUploaded (uploaded : bool) (extractedText : option jsstring)
| JobDescriptionChanged (jd : jsstring)
| Save (clock : Clock) (matchPercentage : option Json.value)
| ViewHistory (item : AnalysisHistoryItem.t)
| Back
| SwitchTab (tab : jsstring).

Definition act (a : Action) (page : State) : State :=
  match a with
  | Load => loadHistory page
  | Analyze => handleAnalyze page
  | ResumeUploaded uploaded extractedText => handleResumeUpload uploaded extractedText page
  | JobDescriptionChanged jd => handleJobDescriptionChange jd page
  | Save clock matchPercentage => saveToHistory clock matchPercentage page
  | ViewHistory item => handleViewHistory item page
  | Back => onBack page
  | SwitchTab tab => setActiveTab tab page
  end.

Definition acts (actions : list Action) (page : State) : State :=
  foldl (fun st a => act a st) page actions.

(** The list on the page is the list in local storage under the key of
    the signed-in user (the empty list when there is no entry). *)
Definition synced (page : State) : Prop :=
  match user page with
  | Some u => analysisHistory page = default [] (localStorage page !! storageKey u)
  | None => True
  end.

End Page.

(** ** What the results component derives for display *)

Module ResultsDisplay.

(** [skill.length > 20 ? skill.substring(0, 20) + "..." : skill] *)
Definition cleanSkill (skill : jsstring) : jsstring :=
  if 20 <? length skill then Js.substring skill 0 20 ++ $"..." else skill.

Record Row := mkRow {
  skill : jsstring;
  current : N;
  required : N
}.

(** [createSkillGapData].  [draw k n] is the value of
    [Math.floor(Math.random() * n)] at the [k]-th call of [Math.random]
    (counted from 0); a row makes two calls. *)
Definition createSkillGapData (draw : nat -> N -> N)
  (matchedSkills missingSkills : list jsstring) : list Row :=
  let matched := take 4 matchedSkills in
  let missing := take 4 missingSkills in
  imap (fun i skill =>
          mkRow (cleanSkill skill) (draw (2 * i)%nat 25 + 70)%N (draw (2 * i + 1)%nat 15 + 75)%N)
       matched
  ++
  imap (fun j skill =>
          let i := length matched + j in
          mkRow (cleanSkill skill) (draw (2 * i)%nat 40 + 10)%N (draw (2 * i + 1)%nat 15 + 75)%N)
       missing.

(** [analysisResults?.skillMatch.overallMatchPercentage || 0], read by
    every render of the component; [None] is a [TypeError], thrown when
    the results are there and their [skillMatch] is [undefined] or
    [null]. *)
Definition matchPercentage (E : GeminiService.Engine)
  (analysisResults : option Json.value) : option Json.value :=
  match analysisResults with
  | None | Some Json.Null => Some (GeminiService.n_ "0")
  | Some results =>
      percentage ← AnalysisResults.overallMatchPercentage results;
      Some (match percentage with
            | Some p => if GeminiService.truthy E p then p else GeminiService.n_ "0"
            | None => GeminiService.n_ "0"
            end)
  end.

End ResultsDisplay.

(** ** More sample inputs *)

Module Fixture.
Import Json GeminiService.

Definition word_file : File.t :=
  File.mk $"cv.docx"
    $"application/vnd.openxmlformats-officedocument.wordprocessingml.document"
    2048 (Thrown $"NotReadableError").

Definition unreadable_pdf : File.t :=
  File.mk $"cv.pdf" $"application/pdf" 2048 (Thrown $"NotReadableError").

Definition unreadable_text : File.t :=
  File.mk $"cv.txt" $"text/plain" 2048 (Thrown $"NotReadableError").

Definition pdf_content : jsstring :=
  $"BT (Senior  engineer\n) Tj /Text [(Python) (SQL)] ET".

Definition posting : jsstring :=
  $"  Acme  Corp " ++ [10%N; 9%N] ++ $" Job Description: build   things  ".

Definition url_entered : JobDescriptionInput.State :=
  JobDescriptionInput.mkState $"url" $"https://example.com/jobs/1" $"old text" false None.

(** No API key in the environment; the network would answer. *)
Definition no_key : Env :=
  mkEnv None (fetch (Sample.replying Sample.analysis_reply)).

Definition fenced_array : jsstring :=
  $"Here you go: [1, 2, 3, 4] Hope this helps.".

Definition gaps_body : jsstring :=
  Sample.quoted "skillGapData" ++ $":[{" ++ Sample.quoted "skill" ++ $":0},[7]],"
  ++ Sample.quoted "strengths" ++ $":[]".

Definition gaps_reply : jsstring :=
  $"Sure: " ++ Js.ch "{" :: gaps_body ++ Js.ch "}" :: $" Done.".

Definition null_gap_reply : jsstring :=
  $"{" ++ Sample.quoted "skillGapData" ++ $":[null]}".

Definition bob : Dashboard.User := Dashboard.mkUser $"bob@example.com".

Definition first_draw : nat -> N -> N := fun _ _ => 0%N.

(** A reply that is valid JSON and an object, with none of the members of
    a [ComprehensiveAnalysis]. *)
Definition empty_object_reply : jsstring := $"{}".

End Fixture.

(** * Theorems *)

(** ** Resume upload *)

Section ResumeUploadFacts.
Import ResumeUpload.

Lemma eqb_refl (s : jsstring) : Js.eqb s s = true.
Proof. unfold Js.eqb. by apply bool_decide_eq_true_2. Qed.

Lemma validTypes_spec (ty : jsstring) :
  ty ∈ validTypes <->
  ty = $"application/pdf" \/ ty = $"application/msword" \/
  ty = $"application/vnd.openxmlformats-officedocument.wordprocessingml.document" \/
  ty = $"text/plain".
Proof.
  unfold validTypes. rewrite !elem_of_cons, elem_of_nil. tauto.
Qed.

Lemma maxSize_value : maxSize = 5242880%N.
Proof. reflexivity. Qed.

Lemma genericText_length (name : jsstring) : 50 <= length (genericText name).
Proof.
  unfold genericText. rewrite length_app.
  change (length $" - Resume includes professional background in technology with various technical skills and educational qualifications.") with 118.
  lia.
Qed.

Lemma ensureMinimum_length f (text : jsstring) : 50 <= length (ensureMinimum f text).
Proof.
  unfold ensureMinimum. destruct (length text <? 50) eqn:E.
  - apply genericText_length.
  - apply Nat.ltb_ge in E. exact E.
Qed.

Lemma ensureMinimum_long f (text : jsstring) :
  50 <= length text -> ensureMinimum f text = text.
Proof.
  intros H. unfold ensureMinimum.
  destruct (length text <? 50) eqn:E; [apply Nat.ltb_lt in E; lia | reflexivity].
Qed.

(** What [handleFileChange] does with a file that passes both checks. *)
Lemma handleFileChange_accepted f st :
  File.type f ∈ validTypes -> (File.size f <= maxSize)%N ->
  handleFileChange (Some f) st =
  match extractText f with
  | Returned text =>
      (mkState (Some f) false None,
       [ToastSuccess $"Resume uploaded and processed successfully!";
        OnUpload true (Some (ensureMinimum f text))])
  | Thrown _ =>
      (mkState (Some f) false (Some $"Error processing resume. Please try again."),
       [ToastError $"Error processing resume"])
  end.
Proof.
  intros Hty Hsz. unfold handleFileChange.
  rewrite (bool_decide_eq_true_2 _ Hty). simpl negb. cbv iota.
  destruct (maxSize <? File.size f)%N eqn:E; [apply N.ltb_lt in E; lia | reflexivity].
Qed.

(** C7: a file whose declared media type is not one of the four accepted
    ones, or whose size is above 5,242,880 bytes, is rejected: the error
    state is set, an error toast is shown, and [onUpload] is not called. *)
Theorem C7_rejected_file_not_uploaded (f : File.t) (st : State) :
  (File.type f <> $"application/pdf" /\
   File.type f <> $"application/msword" /\
   File.type f <> $"application/vnd.openxmlformats-officedocument.wordprocessingml.document" /\
   File.type f <> $"text/plain")
  \/ (5242880 < File.size f)%N ->
  is_Some (error (fst (handleFileChange (Some f) st))) /\
  (exists msg, snd (handleFileChange (Some f) st) = [ToastError msg]) /\
  onUploadCalls (snd (handleFileChange (Some f) st)) = [] /\
  uploadedTexts (snd (handleFileChange (Some f) st)) = [].
Proof.
  intros H. unfold handleFileChange.
  destruct (bool_decide (File.type f ∈ validTypes)) eqn:Hty; simpl negb; cbv iota.
  - destruct H as [H | H].
    + apply bool_decide_eq_true_1, validTypes_spec in Hty. tauto.
    + replace (maxSize <? File.size f)%N with true
        by (symmetry; apply N.ltb_lt; rewrite maxSize_value; exact H).
      simpl. eauto 6.
  - simpl. eauto 6.
Qed.

Lemma C7_rejected_file_not_uploaded_witness :
  (5242880 < File.size Sample.oversized_pdf)%N /\
  onUploadCalls (snd (handleFileChange (Some Sample.oversized_pdf) (mkState None false None))) = [].
Proof.
  split; [reflexivity |].
  apply (C7_rejected_file_not_uploaded Sample.oversized_pdf (mkState None false None)).
  right. reflexivity.
Defined.

(** C8: every text handed to [onUpload] has at least 50 code units; it is
    the text of the extraction steps when that has 50 code units or more,
    and otherwise the generic sentence that starts with the file name. *)
Theorem C8_uploaded_text_floor (f : File.t) (st : State) (up : bool) (t : jsstring) :
  OnUpload up (Some t) ∈ snd (handleFileChange (Some f) st) ->
  50 <= length t /\
  exists raw, extractText f = Returned raw /\
    t = if length raw <? 50
        then File.name f ++ $" - Resume includes professional background in technology with various technical skills and educational qualifications."
        else raw.
Proof.
  unfold handleFileChange.
  destruct (negb (bool_decide (File.type f ∈ validTypes))).
  { simpl. rewrite list_elem_of_singleton. discriminate. }
  destruct (maxSize <? File.size f)%N.
  { simpl. rewrite list_elem_of_singleton. discriminate. }
  destruct (extractText f) as [raw | msg]; simpl.
  - rewrite !elem_of_cons, elem_of_nil. intros [H | [H | []]]; [discriminate |].
    injection H as _ ->. split; [apply ensureMinimum_length |].
    exists raw. split; reflexivity.
  - rewrite list_elem_of_singleton. discriminate.
Qed.

Lemma C8_uploaded_text_floor_witness :
  let t := $"cv.txt" ++ $" - Resume includes professional background in technology with various technical skills and educational qualifications." in
  50 <= length t /\
  exists raw, extractText Sample.short_note = Returned raw /\
    t = if length raw <? 50
        then File.name Sample.short_note ++ $" - Resume includes professional background in technology with various technical skills and educational qualifications."
        else raw.
Proof.
  apply (C8_uploaded_text_floor Sample.short_note (mkState None false None) true).
  apply list_elem_of_In. right. left. reflexivity.
Defined.

(** C9: an accepted plain-text file whose content has at least 50 code
    units is handed to [onUpload] unchanged. *)
Theorem C9_plain_text_verbatim (f : File.t) (st : State) (content : jsstring) :
  File.type f = $"text/plain" ->
  (File.size f <= 5242880)%N ->
  File.decoded f = Returned content ->
  50 <= length content ->
  onUploadCalls (snd (handleFileChange (Some f) st)) = [OnUpload true (Some content)] /\
  uploadedTexts (snd (handleFileChange (Some f) st)) = [content].
Proof.
  intros Hty Hsz Hread Hlen.
  rewrite handleFileChange_accepted.
  - unfold extractText. rewrite Hty, eqb_refl, Hread. simpl.
    rewrite ensureMinimum_long by exact Hlen. split; reflexivity.
  - apply validTypes_spec. tauto.
  - rewrite maxSize_value. exact Hsz.
Qed.

Lemma C9_plain_text_verbatim_witness :
  uploadedTexts (snd (handleFileChange (Some Sample.plain_resume) (mkState None false None)))
  = [Sample.sixty_chars].
Proof.
  apply (C9_plain_text_verbatim Sample.plain_resume (mkState None false None) Sample.sixty_chars).
  - reflexivity.
  - vm_compute. discriminate.
  - reflexivity.
  - vm_compute. lia.
Defined.

(** The cascade of [extractPdfText], read off its three stages. *)
Local Ltac cascade_case := solve [repeat split; simpl; auto; lia].

(** The cascade of [extractPdfText], read off its three stages. *)
Lemma extractPdfText_cases (content : jsstring) :
  let run := extractPdfText content in
  let n1 := length (default [] (parenTokens content)) in
  let n2 := length (default [] (textArrays content)) in
  (attempted run = [ParenTokens] /\ 100 <= n1 /\
   Some (text run) = parenTokens content) \/
  (attempted run = [ParenTokens; TextArrays] /\ n1 < 100 /\ 100 <= n2 /\
   Some (text run) = textArrays content) \/
  (attempted run = [ParenTokens; TextArrays; PrintableFilter] /\
   n1 < 100 /\ n2 < 100 /\ text run = printableFilter content).
Proof.
  unfold extractPdfText. cbv zeta.
  destruct (parenTokens content) as [t1 |];
    destruct (textArrays content) as [t2 |];
    cbn -[Nat.ltb printableFilter];
    repeat (match goal with
            | |- context [?a <? 100] => destruct (Nat.ltb_spec a 100)
            end; cbn -[Nat.ltb printableFilter]);
    cbn -[printableFilter] in *;
    first [ exfalso; lia
          | left; cascade_case
          | right; left; cascade_case
          | right; right; cascade_case ].
Qed.

(** C6: for an accepted PDF file whose bytes can be read, the extraction
    runs the parenthesis heuristic, then the [/Text[...]] heuristic, then
    the printable-character filter, in this order; a later heuristic runs
    only when every earlier one gave fewer than 100 code units, and the
    first heuristic that gives 100 or more is the text handed to
    [onUpload]. *)
Theorem C6_pdf_heuristics_in_order (f : File.t) (st : State) (content : jsstring) :
  File.type f = $"application/pdf" ->
  (File.size f <= 5242880)%N ->
  File.decoded f = Returned content ->
  let run := extractPdfText content in
  let n1 := length (default [] (parenTokens content)) in
  let n2 := length (default [] (textArrays content)) in
  let calls := onUploadCalls (snd (handleFileChange (Some f) st)) in
  (attempted run = [ParenTokens] /\ 100 <= n1 /\
   calls = [OnUpload true (parenTokens content)]) \/
  (attempted run = [ParenTokens; TextArrays] /\ n1 < 100 /\ 100 <= n2 /\
   calls = [OnUpload true (textArrays content)]) \/
  (attempted run = [ParenTokens; TextArrays; PrintableFilter] /\
   n1 < 100 /\ n2 < 100 /\
   calls = [OnUpload true (Some (ensureMinimum f (printableFilter content)))]).
Proof.
  intros Hty Hsz Hread run n1 n2 calls.
  assert (Hcalls : calls = [OnUpload true (Some (ensureMinimum f (text run)))]).
  { subst calls. rewrite handleFileChange_accepted.
    - unfold extractText. rewrite Hty, Hread. reflexivity.
    - apply validTypes_spec. tauto.
    - rewrite maxSize_value. exact Hsz. }
  destruct (extractPdfText_cases content) as [H | [H | H]]; fold run n1 n2 in H.
  - destruct H as (Ha & Hn & Ht). left. repeat split; auto.
    rewrite Hcalls, <- Ht. rewrite ensureMinimum_long; [reflexivity |].
    subst n1. rewrite <- Ht in Hn. simpl in Hn. lia.
  - destruct H as (Ha & Hn1 & Hn2 & Ht). right; left. repeat split; auto.
    rewrite Hcalls, <- Ht. rewrite ensureMinimum_long; [reflexivity |].
    subst n2. rewrite <- Ht in Hn2. simpl in Hn2. lia.
  - destruct H as (Ha & Hn1 & Hn2 & Ht). right; right. repeat split; auto.
    rewrite Hcalls, Ht. reflexivity.
Qed.

Lemma C6_pdf_heuristics_in_order_witness :
  let run := extractPdfText Sample.tiny_content in
  let n1 := length (default [] (parenTokens Sample.tiny_content)) in
  let n2 := length (default [] (textArrays Sample.tiny_content)) in
  let calls :=
    onUploadCalls (snd (handleFileChange (Some Sample.tiny_pdf) (mkState None false None))) in
  (attempted run = [ParenTokens] /\ 100 <= n1 /\
   calls = [OnUpload true (parenTokens Sample.tiny_content)]) \/
  (attempted run = [ParenTokens; TextArrays] /\ n1 < 100 /\ 100 <= n2 /\
   calls = [OnUpload true (textArrays Sample.tiny_content)]) \/
  (attempted run = [ParenTokens; TextArrays; PrintableFilter] /\
   n1 < 100 /\ n2 < 100 /\
   calls = [OnUpload true (Some (ensureMinimum Sample.tiny_pdf (printableFilter Sample.tiny_content)))]).
Proof.
  apply (C6_pdf_heuristics_in_order Sample.tiny_pdf (mkState None false None) Sample.tiny_content).
  - reflexivity.
  - vm_compute. discriminate.
  - reflexivity.
Defined.

(** The three ways through the cascade, on small files. *)
Example cascade_stops_at_parentheses :
  attempted (extractPdfText ($"(" ++ repeat (Js.ch "a") 120 ++ $")")) = [ParenTokens].
Proof. vm_compute. reflexivity. Qed.

Example cascade_stops_at_text_arrays :
  attempted (extractPdfText ($"/Text [" ++ repeat (Js.ch "b") 120 ++ $"]"))
  = [ParenTokens; TextArrays].
Proof. vm_compute. reflexivity. Qed.

Example cascade_reaches_printable_filter :
  extractPdfText Sample.tiny_content
  = mkRun $"(Senior engineer) /Text [(Python) (SQL)] trailer"
      [ParenTokens; TextArrays; PrintableFilter].
Proof. vm_compute. reflexivity. Qed.

End ResumeUploadFacts.

(** ** [JSON.parse] never runs out of fuel *)

Section JsonFacts.
Import Json.

Lemma drop_while_length (p : N -> bool) (s : jsstring) :
  length (Js.drop_while p s) <= length s.
Proof.
  induction s as [| c t IH]; simpl; [lia |].
  destruct (p c); simpl; lia.
Qed.

Lemma skip_ws_length (s : jsstring) : length (skip_ws s) <= length s.
Proof. apply drop_while_length. Qed.

Lemma parse_chars_consumes (n : nat) :
  forall s acc, length s <= n ->
    parse_chars s acc <> OutOfFuel /\
    forall v r, parse_chars s acc = Parsed v r -> length r < length s.
Proof.
  induction n as [| n IH]; intros s acc Hn.
  - destruct s; [| simpl in Hn; lia]. simpl. split; [discriminate | intros; discriminate].
  - destruct s as [| c r]; [simpl; split; [discriminate | intros; discriminate] |].
    simpl in Hn. cbn [parse_chars].
    destruct (c =? 34)%N.
    { split; [discriminate |]. intros v r0 H. injection H as _ <-. simpl. lia. }
    destruct (c =? 92)%N.
    { destruct r as [| e r1]; [split; [discriminate | intros; discriminate] |].
      simpl in Hn.
      destruct (e =? Js.ch "u")%N.
      - destruct r1 as [| h1 [| h2 [| h3 [| h4 r2]]]];
          try (split; [discriminate | intros; discriminate]).
        destruct (hex4 h1 h2 h3 h4); [| split; [discriminate | intros; discriminate]].
        simpl in Hn. destruct (IH r2 (n0 :: acc)) as [H1 H2]; [lia |].
        split; [exact H1 |]. intros v r H. apply H2 in H. simpl. lia.
      - destruct (escape e); [| split; [discriminate | intros; discriminate]].
        destruct (IH r1 (n0 :: acc)) as [H1 H2]; [lia |].
        split; [exact H1 |]. intros v r H. apply H2 in H. simpl. lia. }
    destruct (c <? 32)%N; [split; [discriminate | intros; discriminate] |].
    destruct (IH r (c :: acc)) as [H1 H2]; [lia |].
    split; [exact H1 |]. intros v r0 H. apply H2 in H. simpl. lia.
Qed.

Lemma parse_digits_consumes (s : jsstring) :
  parse_digits s <> OutOfFuel /\
  forall v r, parse_digits s = Parsed v r -> length r < length s.
Proof.
  unfold parse_digits.
  destruct (Js.take_while is_digit s) as [| d ds] eqn:E.
  - split; [discriminate | intros; discriminate].
  - split; [discriminate |]. intros v r H. injection H as _ <-.
    destruct s as [| c t]; [discriminate |].
    rewrite length_drop. simpl. lia.
Qed.

Lemma parse_number_consumes (s : jsstring) :
  parse_number s <> OutOfFuel /\
  forall v r, parse_number s = Parsed v r -> length r <= length s /\ (s <> [] -> length r < length s).
Proof.
  assert (Hdig : forall x, parse_digits x <> OutOfFuel) by (intros x; apply parse_digits_consumes).
  assert (Hlen : forall x v r, parse_digits x = Parsed v r -> length r < length x)
    by (intros x; apply parse_digits_consumes).
  unfold parse_number.
  set (sr := match s with
             | c :: r => if (c =? 45)%N then ([c], r) else ([], s)
             | [] => ([], s)
             end).
  assert (Hsr : length (snd sr) <= length s).
  { subst sr. destruct s as [| c r]; simpl; [lia |]. destruct (c =? 45)%N; simpl; lia. }
  destruct sr as [sign r0]. simpl in Hsr.
  set (int := match r0 with
              | d :: r1 => if (d =? 48)%N then Parsed [d] r1 else parse_digits r0
              | [] => SyntaxError
              end).
  assert (Hint : int <> OutOfFuel /\ forall v r, int = Parsed v r -> length r < length r0).
  { subst int. destruct r0 as [| d r1]; [split; [discriminate | intros; discriminate] |].
    destruct (d =? 48)%N.
    - split; [discriminate |]. intros v r H. injection H as _ <-. simpl. lia.
    - split; [apply Hdig | apply Hlen]. }
  destruct int as [ds r1 | |]; [| split; [discriminate | intros; discriminate] | tauto].
  destruct Hint as [_ Hint]. specialize (Hint ds r1 eq_refl).
  set (frac := match r1 with
               | dot :: r2 =>
                   if (dot =? 46)%N then
                     match parse_digits r2 with
                     | Parsed fs r3 => Parsed (dot :: fs) r3
                     | other => other
                     end
                   else Parsed [] r1
               | [] => Parsed [] r1
               end).
  assert (Hfrac : frac <> OutOfFuel /\ forall v r, frac = Parsed v r -> length r <= length r1).
  { subst frac. destruct r1 as [| dot r2]; [split; [discriminate |]; intros v r H; injection H as _ <-; lia |].
    destruct (dot =? 46)%N.
    - specialize (Hdig r2). specialize (Hlen r2).
      destruct (parse_digits r2) as [fs r3 | |]; [| split; [discriminate | intros; discriminate] | tauto].
      split; [discriminate |]. intros v r H. injection H as _ <-.
      specialize (Hlen fs r3 eq_refl). simpl. lia.
    - split; [discriminate |]. intros v r H. injection H as _ <-. lia. }
  destruct frac as [fs r3 | |]; [| split; [discriminate | intros; discriminate] | tauto].
  destruct Hfrac as [_ Hfrac]. specialize (Hfrac fs r3 eq_refl).
  set (exp := match r3 with
              | e :: r4 =>
                  if ((e =? 101) || (e =? 69))%N then
                    let '(esign, r5) :=
                      match r4 with
                      | c :: r => if ((c =? 43) || (c =? 45))%N then ([c], r) else ([], r4)
                      | [] => ([], r4)
                      end in
                    match parse_digits r5 with
                    | Parsed es r6 => Parsed (e :: esign ++ es) r6
                    | other => other
                    end
                  else Parsed [] r3
              | [] => Parsed [] r3
              end).
  assert (Hexp : exp <> OutOfFuel /\ forall v r, exp = Parsed v r -> length r <= length r3).
  { subst exp. destruct r3 as [| e r4]; [split; [discriminate |]; intros v r H; injection H as _ <-; lia |].
    destruct ((e =? 101) || (e =? 69))%N.
    - set (er := match r4 with
                 | c :: r => if ((c =? 43) || (c =? 45))%N then ([c], r) else ([], r4)
                 | [] => ([], r4)
                 end).
      assert (Her : length (snd er) <= length r4).
      { subst er. destruct r4 as [| c r]; simpl; [lia |].
        destruct ((c =? 43) || (c =? 45))%N; simpl; lia. }
      destruct er as [esign r5]. simpl in Her.
      specialize (Hdig r5). specialize (Hlen r5).
      destruct (parse_digits r5) as [es r6 | |]; [| split; [discriminate | intros; discriminate] | tauto].
      split; [discriminate |]. intros v r H. injection H as _ <-.
      specialize (Hlen es r6 eq_refl). simpl. lia.
    - split; [discriminate |]. intros v r H. injection H as _ <-. lia. }
  destruct exp as [es r6 | |]; [| split; [discriminate | intros; discriminate] | tauto].
  destruct Hexp as [_ Hexp]. specialize (Hexp es r6 eq_refl).
  split; [discriminate |]. intros v r H. injection H as _ <-.
  split; [lia |]. intros _. lia.
Qed.

Lemma parse_literal_consumes (c : N) (t : jsstring) :
  parse_literal (c :: t) <> OutOfFuel /\
  forall v r, parse_literal (c :: t) = Parsed v r -> length r < length (c :: t).
Proof.
  unfold parse_literal.
  destruct (Js.starts_with $"true" (c :: t));
    [split; [discriminate |]; intros v r H; injection H as _ <-;
     rewrite length_drop; simpl; lia |].
  destruct (Js.starts_with $"false" (c :: t));
    [split; [discriminate |]; intros v r H; injection H as _ <-;
     rewrite length_drop; simpl; lia |].
  destruct (Js.starts_with $"null" (c :: t));
    [split; [discriminate |]; intros v r H; injection H as _ <-;
     rewrite length_drop; simpl; lia |].
  split; [discriminate | intros; discriminate].
Qed.

Local Ltac no_parse := solve [intros; discriminate].

(** Every successful parse consumes at least one code unit. *)
Lemma parse_value_consumes (fuel : nat) :
  (forall s v r, parse_value fuel s = Parsed v r -> length r < length s) /\
  (forall s acc v r, parse_elements fuel s acc = Parsed v r -> length r < length s) /\
  (forall s acc v r, parse_members fuel s acc = Parsed v r -> length r < length s).
Proof.
  induction fuel as [| fuel (IHv & IHe & IHm)]; [repeat split; no_parse |].
  repeat split.
  - intros s v r. cbn [parse_value].
    pose proof (skip_ws_length s) as Hs.
    destruct (skip_ws s) as [| c t]; [no_parse |]. simpl in Hs.
    destruct (c =? Js.ch "{")%N.
    { pose proof (skip_ws_length t) as Ht.
      destruct (skip_ws t) as [| c' t']; [no_parse |]. simpl in Ht.
      destruct (c' =? Js.ch "}")%N.
      - intros H. injection H as _ <-. lia.
      - intros H. apply IHm in H. lia. }
    destruct (c =? Js.ch "[")%N.
    { pose proof (skip_ws_length t) as Ht.
      destruct (skip_ws t) as [| c' t']; [no_parse |]. simpl in Ht.
      destruct (c' =? Js.ch "]")%N.
      - intros H. injection H as _ <-. lia.
      - intros H. apply IHe in H. lia. }
    destruct (c =? 34)%N.
    { destruct (parse_chars_consumes (length t) t [] (le_n _)) as [_ Hc].
      destruct (parse_chars t []) as [str rest | |]; [| no_parse | no_parse].
      intros H. injection H as _ <-. specialize (Hc _ _ eq_refl). lia. }
    destruct ((c =? 45) || is_digit c)%N.
    { destruct (parse_number_consumes (c :: t)) as [_ Hn].
      destruct (parse_number (c :: t)) as [lexeme rest | |]; [| no_parse | no_parse].
      intros H. injection H as _ <-.
      destruct (Hn _ _ eq_refl) as [_ Hn']. specialize (Hn' ltac:(discriminate)).
      simpl in Hn'. lia. }
    intros H. apply parse_literal_consumes in H. simpl in H. lia.
  - intros s acc v r. cbn [parse_elements].
    destruct (parse_value fuel s) as [v0 r0 | |] eqn:E; [| no_parse | no_parse].
    apply IHv in E. pose proof (skip_ws_length r0) as Hr.
    destruct (skip_ws r0) as [| c r']; [no_parse |]. simpl in Hr.
    destruct (c =? Js.ch ",")%N.
    { intros H. apply IHe in H. lia. }
    destruct (c =? Js.ch "]")%N; [| no_parse].
    intros H. injection H as _ <-. lia.
  - intros s acc v r. cbn [parse_members].
    pose proof (skip_ws_length s) as Hs.
    destruct (skip_ws s) as [| q t]; [no_parse |]. simpl in Hs.
    destruct (q =? 34)%N; [| no_parse].
    destruct (parse_chars_consumes (length t) t [] (le_n _)) as [_ Hc].
    destruct (parse_chars t []) as [key r1 | |]; [| no_parse | no_parse].
    specialize (Hc _ _ eq_refl).
    pose proof (skip_ws_length r1) as H1.
    destruct (skip_ws r1) as [| colon r2]; [no_parse |]. simpl in H1.
    destruct (colon =? Js.ch ":")%N; [| no_parse].
    destruct (parse_value fuel r2) as [v0 r3 | |] eqn:E; [| no_parse | no_parse].
    apply IHv in E. pose proof (skip_ws_length r3) as H3.
    destruct (skip_ws r3) as [| c r4]; [no_parse |]. simpl in H3.
    destruct (c =? Js.ch ",")%N.
    { intros H. apply IHm in H. lia. }
    destruct (c =? Js.ch "}")%N; [| no_parse].
    intros H. injection H as _ <-. lia.
Qed.

(** With fuel above twice the length of the text the parser gives a value
    or a syntax error. *)
Lemma parse_value_enough_fuel (fuel : nat) :
  (forall s, 2 * length s < fuel -> parse_value fuel s <> OutOfFuel) /\
  (forall s acc, 2 * length s + 1 < fuel -> parse_elements fuel s acc <> OutOfFuel) /\
  (forall s acc, 2 * length s + 1 < fuel -> parse_members fuel s acc <> OutOfFuel).
Proof.
  induction fuel as [| fuel (IHv & IHe & IHm)]; [repeat split; intros; lia |].
  destruct (parse_value_consumes fuel) as (Cv & Ce & Cm).
  repeat split.
  - intros s Hf. cbn [parse_value].
    pose proof (skip_ws_length s) as Hs.
    destruct (skip_ws s) as [| c t]; [discriminate |]. simpl in Hs.
    destruct (c =? Js.ch "{")%N.
    { pose proof (skip_ws_length t) as Ht.
      destruct (skip_ws t) as [| c' t']; [discriminate |]. simpl in Ht.
      destruct (c' =? Js.ch "}")%N; [discriminate |]. apply IHm. lia. }
    destruct (c =? Js.ch "[")%N.
    { pose proof (skip_ws_length t) as Ht.
      destruct (skip_ws t) as [| c' t']; [discriminate |]. simpl in Ht.
      destruct (c' =? Js.ch "]")%N; [discriminate |]. apply IHe. lia. }
    destruct (c =? 34)%N.
    { destruct (parse_chars_consumes (length t) t [] (le_n _)) as [Hc _].
      destruct (parse_chars t []); [discriminate | discriminate | contradiction]. }
    destruct ((c =? 45) || is_digit c)%N.
    { destruct (parse_number_consumes (c :: t)) as [Hn _].
      destruct (parse_number (c :: t)); [discriminate | discriminate | contradiction]. }
    apply parse_literal_consumes.
  - intros s acc Hf. cbn [parse_elements].
    specialize (IHv s ltac:(lia)).
    destruct (parse_value fuel s) as [v0 r0 | |] eqn:E; [| discriminate | contradiction].
    apply Cv in E. pose proof (skip_ws_length r0) as Hr.
    destruct (skip_ws r0) as [| c r']; [discriminate |]. simpl in Hr.
    destruct (c =? Js.ch ",")%N; [apply IHe; lia |].
    destruct (c =? Js.ch "]")%N; discriminate.
  - intros s acc Hf. cbn [parse_members].
    pose proof (skip_ws_length s) as Hs.
    destruct (skip_ws s) as [| q t]; [discriminate |]. simpl in Hs.
    destruct (q =? 34)%N; [| discriminate].
    destruct (parse_chars_consumes (length t) t [] (le_n _)) as [Hc0 Hc].
    destruct (parse_chars t []) as [key r1 | |]; [| discriminate | contradiction].
    specialize (Hc _ _ eq_refl).
    pose proof (skip_ws_length r1) as H1.
    destruct (skip_ws r1) as [| colon r2]; [discriminate |]. simpl in H1.
    destruct (colon =? Js.ch ":")%N; [| discriminate].
    specialize (IHv r2 ltac:(lia)).
    destruct (parse_value fuel r2) as [v0 r3 | |] eqn:E; [| discriminate | contradiction].
    apply Cv in E. pose proof (skip_ws_length r3) as H3.
    destruct (skip_ws r3) as [| c r4]; [discriminate |]. simpl in H3.
    destruct (c =? Js.ch ",")%N; [apply IHm; lia |].
    destruct (c =? Js.ch "}")%N; discriminate.
Qed.

(** [JSON.parse] is total: the fuel it is given is never used up, so [None]
    always stands for a syntax error. *)
Lemma parse_total (text : jsstring) :
  parse_value (fuel_for text) text <> OutOfFuel.
Proof.
  apply (parse_value_enough_fuel (fuel_for text)). unfold fuel_for. lia.
Qed.

End JsonFacts.

(** ** Job-posting extraction *)

Section JobDescriptionFacts.
Import JobDescriptionInput.

(** A heading found after the first code unit: the stored text is the
    window of at most 4000 code units that starts at the heading. *)
Lemma extractJobText_window (textContent : jsstring) (i : nat) :
  match_index (collapse textContent) = Some (S i) ->
  extractJobText textContent
  = Js.substring (collapse textContent) (S i) (S i + 4000).
Proof. intros H. unfold extractJobText. rewrite H. reflexivity. Qed.

(** No heading and more than 5000 code units: the first 5000 and an
    ellipsis. *)
Lemma extractJobText_truncated (textContent : jsstring) :
  match_index (collapse textContent) = None ->
  5000 < length (collapse textContent) ->
  extractJobText textContent = take 5000 (collapse textContent) ++ $"...".
Proof.
  intros H Hlen. unfold extractJobText. rewrite H.
  replace (5000 <? length (collapse textContent)) with true
    by (symmetry; apply Nat.ltb_lt; exact Hlen).
  unfold Js.substring.
  rewrite Nat.min_0_l, Nat.max_0_l, (Nat.min_l 5000) by lia.
  reflexivity.
Qed.

(** C3, where the code departs from it: when the heading is the very first
    thing in the text, [index] is [0], the condition
    [jobDescriptionMatches && jobDescriptionMatches.index] is false, and the
    text is cut at 5000 code units with an ellipsis instead of being
    windowed to 4000. *)
Theorem C3_heading_at_index_zero_is_not_windowed :
  let extractedText := collapse Sample.heading_first in
  match_index extractedText = Some 0 /\
  length extractedText = 5000 + 14 /\
  extractJobText Sample.heading_first = take 5000 extractedText ++ $"..." /\
  length (extractJobText Sample.heading_first) = 5000 + 3 /\
  length (Js.substring extractedText 0 (0 + 4000)) = 4000.
Proof. vm_compute. repeat split; reflexivity. Qed.

End JobDescriptionFacts.

(** ** The Gemini service *)

Section GeminiFacts.
Import Json GeminiService.

Lemma long_after_trim_truthy (s : jsstring) :
  50 <= length (Js.trim s) -> Js.truthy s = true.
Proof. destruct s; [vm_compute; lia | reflexivity]. Qed.

Lemma passes_validation (s : jsstring) :
  50 <= length (Js.trim s) ->
  negb (Js.truthy s) || (length (Js.trim s) <? 50) = false.
Proof.
  intros H. rewrite (long_after_trim_truthy s H). simpl.
  apply Nat.ltb_ge. exact H.
Qed.

Lemma fails_validation (s : jsstring) :
  s = [] \/ length (Js.trim s) < 50 ->
  negb (Js.truthy s) || (length (Js.trim s) <? 50) = true.
Proof.
  intros [-> | H]; [reflexivity |].
  apply orb_true_iff. right. apply Nat.ltb_lt. exact H.
Qed.

(** The first half of C5: a resume or a job description that is empty or
    shorter than 50 code units after trimming makes the call throw the
    validation error. *)
Lemma analyze_rejects_short_resume E env (resumeText jobDescription : jsstring) :
  resumeText = [] \/ length (Js.trim resumeText) < 50 ->
  analyzeResumeJobMatch E env resumeText jobDescription = Thrown resumeTooShort.
Proof.
  intros H. unfold analyzeResumeJobMatch, analysisAttempt.
  rewrite (fails_validation _ H). reflexivity.
Qed.

Lemma analyze_rejects_short_job E env (resumeText jobDescription : jsstring) :
  50 <= length (Js.trim resumeText) ->
  jobDescription = [] \/ length (Js.trim jobDescription) < 50 ->
  analyzeResumeJobMatch E env resumeText jobDescription = Thrown jobDescriptionTooShort.
Proof.
  intros Hr H. unfold analyzeResumeJobMatch, analysisAttempt.
  rewrite (passes_validation _ Hr), (fails_validation _ H). reflexivity.
Qed.

(** With valid inputs, an error of the endpoint call is replaced by the
    fallback analysis as long as its message does not include "too short". *)
Lemma analyze_masks_call_failure E env (resumeText jobDescription message : jsstring) :
  50 <= length (Js.trim resumeText) ->
  50 <= length (Js.trim jobDescription) ->
  callGeminiAPI env (ResumeJobMatchPrompt (Js.trim resumeText) (Js.trim jobDescription))
  = Thrown message ->
  Js.includes message $"too short" = false ->
  analyzeResumeJobMatch E env resumeText jobDescription = Returned fallbackAnalysis.
Proof.
  intros Hr Hj Hcall Hmsg. unfold analyzeResumeJobMatch, analysisAttempt.
  rewrite (passes_validation _ Hr), (passes_validation _ Hj). cbv zeta.
  rewrite Hcall, Hmsg. reflexivity.
Qed.

(** With valid inputs, a reply from which no analysis can be read is
    replaced by the fallback analysis. *)
Lemma analyze_masks_parse_failure E env (resumeText jobDescription responseText : jsstring) :
  50 <= length (Js.trim resumeText) ->
  50 <= length (Js.trim jobDescription) ->
  callGeminiAPI env (ResumeJobMatchPrompt (Js.trim resumeText) (Js.trim jobDescription))
  = Returned responseText ->
  parseAnalysis E responseText = None ->
  analyzeResumeJobMatch E env resumeText jobDescription = Returned fallbackAnalysis.
Proof.
  intros Hr Hj Hcall Hparse. unfold analyzeResumeJobMatch, analysisAttempt.
  rewrite (passes_validation _ Hr), (passes_validation _ Hj). cbv zeta.
  rewrite Hcall, Hparse. reflexivity.
Qed.

Lemma salary_fallback_on_parse_failure env (responseText : jsstring) :
  callGeminiAPI env SalaryTrendsPrompt = Returned responseText ->
  parseFirstThree responseText = None ->
  getSalaryTrendsFromGemini env = salaryTrendsFallback.
Proof.
  intros Hcall Hparse. unfold getSalaryTrendsFromGemini. rewrite Hcall, Hparse. reflexivity.
Qed.

Lemma learning_fallback_on_parse_failure env (responseText : jsstring) :
  callGeminiAPI env LearningRecommendationsPrompt = Returned responseText ->
  parseFirstThree responseText = None ->
  getLearningRecommendationsFromGemini env = learningRecommendationsFallback.
Proof.
  intros Hcall Hparse. unfold getLearningRecommendationsFromGemini.
  rewrite Hcall, Hparse. reflexivity.
Qed.

(** C1 as the specification words it does not hold: with valid inputs and
    a reply that holds no JSON at all, [analyzeResumeJobMatch] returns the
    fallback analysis instead of failing with a parse error. *)
Lemma C1_parse_error_is_not_surfaced :
  50 <= length (Js.trim Sample.resume) /\
  50 <= length (Js.trim Sample.job) /\
  callGeminiAPI (Sample.replying Sample.prose_reply)
    (ResumeJobMatchPrompt (Js.trim Sample.resume) (Js.trim Sample.job))
  = Returned Sample.prose_reply /\
  parse (objectText Sample.prose_reply) = None /\
  analyzeResumeJobMatch Sample.engine (Sample.replying Sample.prose_reply)
    Sample.resume Sample.job
  = Returned fallbackAnalysis.
Proof. vm_compute. repeat split; try reflexivity; lia. Qed.

(** C1, amended: with a resume and a job description of trimmed length 50
    or more, when [JSON.parse] throws on the text taken from the reply, the
    call to [analyzeResumeJobMatch] does not fail: it returns the hardcoded
    fallback analysis.  Under the same failure [getSalaryTrendsFromGemini]
    and [getLearningRecommendationsFromGemini] return their hardcoded
    fallback arrays, of exactly 3 elements each. *)
Theorem C1_parse_failure_gives_fallbacks E env
  (resumeText jobDescription reply1 reply2 reply3 : jsstring) :
  50 <= length (Js.trim resumeText) ->
  50 <= length (Js.trim jobDescription) ->
  callGeminiAPI env (ResumeJobMatchPrompt (Js.trim resumeText) (Js.trim jobDescription))
  = Returned reply1 ->
  parse (objectText reply1) = None ->
  callGeminiAPI env SalaryTrendsPrompt = Returned reply2 ->
  parse (arrayText reply2) = None ->
  callGeminiAPI env LearningRecommendationsPrompt = Returned reply3 ->
  parse (arrayText reply3) = None ->
  analyzeResumeJobMatch E env resumeText jobDescription = Returned fallbackAnalysis /\
  getSalaryTrendsFromGemini env = salaryTrendsFallback /\
  js_length salaryTrendsFallback = Some 3 /\
  getLearningRecommendationsFromGemini env = learningRecommendationsFallback /\
  js_length learningRecommendationsFallback = Some 3.
Proof.
  intros Hr Hj H1 P1 H2 P2 H3 P3. repeat split.
  - apply (analyze_masks_parse_failure E env _ _ reply1); auto.
    unfold parseAnalysis. rewrite P1. reflexivity.
  - apply (salary_fallback_on_parse_failure env reply2); auto.
    unfold parseFirstThree. rewrite P2. reflexivity.
  - apply (learning_fallback_on_parse_failure env reply3); auto.
    unfold parseFirstThree. rewrite P3. reflexivity.
Qed.

Lemma C1_parse_failure_gives_fallbacks_witness :
  analyzeResumeJobMatch Sample.engine (Sample.replying Sample.prose_reply)
    Sample.resume Sample.job = Returned fallbackAnalysis /\
  getSalaryTrendsFromGemini (Sample.replying Sample.prose_reply) = salaryTrendsFallback /\
  js_length salaryTrendsFallback = Some 3 /\
  getLearningRecommendationsFromGemini (Sample.replying Sample.prose_reply)
  = learningRecommendationsFallback /\
  js_length learningRecommendationsFallback = Some 3.
Proof.
  apply (C1_parse_failure_gives_fallbacks Sample.engine
           (Sample.replying Sample.prose_reply) Sample.resume Sample.job
           Sample.prose_reply Sample.prose_reply Sample.prose_reply).
  - vm_compute. lia.
  - vm_compute. lia.
  - reflexivity.
  - reflexivity.
  - reflexivity.
  - reflexivity.
  - reflexivity.
  - reflexivity.
Defined.

(** C5, where the code departs from it: the outer [catch] recognises the
    validation error by the words "too short" in the message, so an error
    of the endpoint whose message has these words is thrown to the caller
    too.  Here the endpoint answers 400 with the status text
    "Payload too short". *)
Theorem C5_upstream_error_with_too_short_is_rethrown :
  50 <= length (Js.trim Sample.resume) /\
  50 <= length (Js.trim Sample.job) /\
  analyzeResumeJobMatch Sample.engine (Sample.failing 400 $"Payload too short")
    Sample.resume Sample.job
  = Thrown $"API error: 400 Payload too short".
Proof. vm_compute. repeat split; try reflexivity; lia. Qed.

(** The two list calls never give more than three items. *)
Lemma slice3_length (v w : value) :
  slice3 v = Some w -> exists n, js_length w = Some n /\ n <= 3.
Proof.
  destruct v; simpl; try discriminate; intros H; injection H as <-; simpl;
    eexists; (split; [reflexivity |]); rewrite length_take; lia.
Qed.

Lemma salary_trends_at_most_three env :
  exists n, js_length (getSalaryTrendsFromGemini env) = Some n /\ n <= 3.
Proof.
  unfold getSalaryTrendsFromGemini.
  destruct (callGeminiAPI env SalaryTrendsPrompt) as [responseText | message].
  - unfold parseFirstThree.
    destruct (parse (arrayText responseText)) as [trends |]; simpl.
    + destruct (slice3 trends) as [w |] eqn:E.
      * apply (slice3_length _ _ E).
      * exists 3. split; [reflexivity | lia].
    + exists 3. split; [reflexivity | lia].
  - exists 3. split; [reflexivity | lia].
Qed.

Lemma learning_recommendations_at_most_three env :
  exists n, js_length (getLearningRecommendationsFromGemini env) = Some n /\ n <= 3.
Proof.
  unfold getLearningRecommendationsFromGemini.
  destruct (callGeminiAPI env LearningRecommendationsPrompt) as [responseText | message].
  - unfold parseFirstThree.
    destruct (parse (arrayText responseText)) as [trends |]; simpl.
    + destruct (slice3 trends) as [w |] eqn:E.
      * apply (slice3_length _ _ E).
      * exists 3. split; [reflexivity | lia].
    + exists 3. split; [reflexivity | lia].
  - exists 3. split; [reflexivity | lia].
Qed.

(** A reply whose bracketed part is a JSON array: its first three items. *)
Lemma salary_trends_truncates_array env (responseText : jsstring) (items : list value) :
  callGeminiAPI env SalaryTrendsPrompt = Returned responseText ->
  parse (arrayText responseText) = Some (Arr items) ->
  getSalaryTrendsFromGemini env = Arr (take 3 items).
Proof.
  intros Hcall Hparse. unfold getSalaryTrendsFromGemini, parseFirstThree.
  rewrite Hcall, Hparse. reflexivity.
Qed.

Lemma learning_recommendations_truncates_array env (responseText : jsstring)
  (items : list value) :
  callGeminiAPI env LearningRecommendationsPrompt = Returned responseText ->
  parse (arrayText responseText) = Some (Arr items) ->
  getLearningRecommendationsFromGemini env = Arr (take 3 items).
Proof.
  intros Hcall Hparse. unfold getLearningRecommendationsFromGemini, parseFirstThree.
  rewrite Hcall, Hparse. reflexivity.
Qed.

(** Any failure of the endpoint call gives the fallback arrays. *)
Lemma list_calls_fallback_on_call_failure env (m1 m2 : jsstring) :
  callGeminiAPI env SalaryTrendsPrompt = Thrown m1 ->
  callGeminiAPI env LearningRecommendationsPrompt = Thrown m2 ->
  getSalaryTrendsFromGemini env = salaryTrendsFallback /\
  getLearningRecommendationsFromGemini env = learningRecommendationsFallback.
Proof.
  intros H1 H2. unfold getSalaryTrendsFromGemini, getLearningRecommendationsFromGemini.
  rewrite H1, H2. split; reflexivity.
Qed.

(** C10, where the code departs from it: a reply that is one JSON string
    has no bracketed part, is parsed as it stands, and [slice(0, 3)] then
    gives the first three code units of the string: the calls return a
    string where an array is declared. *)
Theorem C10_string_reply_returns_a_string :
  parse (arrayText (Sample.quoted "abcdef")) = Some (Str $"abcdef") /\
  getSalaryTrendsFromGemini (Sample.replying (Sample.quoted "abcdef")) = Str $"abc" /\
  getLearningRecommendationsFromGemini (Sample.replying (Sample.quoted "abcdef"))
  = Str $"abc".
Proof. vm_compute. repeat split; reflexivity. Qed.

End GeminiFacts.

(** ** History *)

Section HistoryFacts.
Import Json GeminiService Dashboard AnalysisResults.

Lemma saveToHistory_after_save clock percentage (page : Dashboard.State) :
  hasBeenSaved page = true -> saveToHistory clock percentage page = page.
Proof.
  intros H. unfold saveToHistory. destruct (user page); [rewrite H |]; reflexivity.
Qed.

(** A first save by a signed-in user puts one record in front of the
    list and sets the flag. *)
Lemma saveToHistory_first_save clock percentage (page : Dashboard.State) u :
  user page = Some u -> hasBeenSaved page = false ->
  analysisHistory (saveToHistory clock percentage page)
  = AnalysisHistoryItem.mk (Js.of_N (now clock)) (localeDate clock) percentage
      (Some (titleOf (jobDescription page)))
      (Some (resumeText page)) (Some (jobDescription page))
    :: analysisHistory page
  /\ hasBeenSaved (saveToHistory clock percentage page) = true
  /\ localStorage (saveToHistory clock percentage page) !! storageKey u
     = Some (analysisHistory (saveToHistory clock percentage page)).
Proof.
  intros Hu Hs. unfold saveToHistory. rewrite Hu, Hs. cbn.
  repeat split. apply lookup_insert_eq.
Qed.

(** An analysis that [handleAnalyze] lets through starts with a signed-in
    user and the flag reset. *)
Lemma handleAnalyze_started (page : Dashboard.State) :
  showResults page = false ->
  showResults (handleAnalyze page) = true ->
  (exists u, user (handleAnalyze page) = Some u) /\
  hasBeenSaved (handleAnalyze page) = false /\
  analysisHistory (handleAnalyze page) = analysisHistory page /\
  resumeText (handleAnalyze page) = resumeText page /\
  jobDescription (handleAnalyze page) = jobDescription page.
Proof.
  intros Hoff. unfold handleAnalyze.
  destruct (user page) as [u |] eqn:Hu; cbn.
  - repeat (match goal with
            | |- context [if ?b then _ else _] => destruct b
            end; cbn); try (rewrite Hoff; discriminate).
    intros _. eauto 6.
  - rewrite Hoff. discriminate.
Qed.

Lemma readable_percentage (results : value) :
  readable results ->
  overallMatchPercentage results
  = Some (from_option (fun sm => member sm $"overallMatchPercentage") None
            (member results $"skillMatch")).
Proof.
  intros (sm & Hsm & Hnn). unfold overallMatchPercentage. rewrite Hsm. cbn.
  destruct sm; try reflexivity. contradiction.
Qed.

Local Ltac still_saved Hr :=
  eexists; (split; [reflexivity |]); repeat split; cbn; auto;
  try (rewrite Hr; cbn; auto).

Lemma rerender_saved E ev pv :
  saved pv ->
  exists pv', rerender E ev pv = Some pv' /\ saved pv' /\
    analysisHistory (fst pv') = analysisHistory (fst pv).
Proof.
  destruct pv as [page v]. intros [Hflag Hres]. cbn in Hflag, Hres.
  destruct (analysisResults v) as [results |] eqn:Hr; cbn in Hres;
    destruct ev as [clock | | clock percentage | | tab]; cbn [rerender];
    try rewrite (saveToHistory_after_save _ _ _ Hflag);
    try solve [still_saved Hr].
  - unfold saveEffect. rewrite Hr.
    destruct (truthy E results && negb (analysisLoading v)
              && negb (from_option Js.truthy false (analysisError v))
              && negb (hasSaved v)).
    + rewrite (readable_percentage _ Hres). cbn.
      rewrite (saveToHistory_after_save _ _ _ Hflag). still_saved Hr.
    + still_saved Hr.
  - unfold saveEffect. rewrite Hr. still_saved Hr.
Qed.

Lemma rerenders_saved E evs : forall pv,
  saved pv ->
  exists pv', rerenders E evs pv = Some pv' /\ saved pv' /\
    analysisHistory (fst pv') = analysisHistory (fst pv).
Proof.
  induction evs as [| ev rest IH]; intros pv Hpv.
  - exists pv. repeat split; auto; apply Hpv.
  - destruct (rerender_saved E ev pv Hpv) as (pv1 & Hstep & Hsaved & Hhist).
    destruct (IH pv1 Hsaved) as (pv2 & Hrest & Hsaved2 & Hhist2).
    exists pv2. cbn [rerenders]. rewrite Hstep. cbn [mbind option_bind].
    split; [exact Hrest |]. split; [exact Hsaved2 |].
    rewrite Hhist2, Hhist. reflexivity.
Qed.

(** The part of C4 that the code keeps, about evaluations of the effect
    body: when an analysis started with [handleAnalyze] has given results
    whose [skillMatch] can be read (the results are there, loading is
    over, no error is set and nothing was saved for them yet), the save
    effect puts exactly one record in the history of the signed-in user;
    after that, no evaluation of the save effect, no call of
    [saveToHistory], no re-render, remount or tab switch changes the
    list. *)
Theorem one_record_per_readable_analysis E (page0 : Dashboard.State)
  (v : AnalysisResults.State) (results : value)
  (clock : Clock) (evs : list Rerender) :
  showResults page0 = false ->
  showResults (handleAnalyze page0) = true ->
  analysisResults v = Some results ->
  readable results ->
  analysisLoading v = false ->
  from_option Js.truthy false (analysisError v) = false ->
  hasSaved v = false ->
  exists page1 v1 item,
    saveEffect E clock (handleAnalyze page0) v = Some (page1, v1) /\
    analysisHistory page1 = item :: analysisHistory page0 /\
    AnalysisHistoryItem.resumeText item = Some (resumeText page0) /\
    AnalysisHistoryItem.jobDescription item = Some (jobDescription page0) /\
    exists page2 v2,
      rerenders E evs (page1, v1) = Some (page2, v2) /\
      analysisHistory page2 = analysisHistory page1 /\
      length (analysisHistory page2) = S (length (analysisHistory page0)).
Proof.
  intros Hoff Hon Hv Hres Hload Herr Hfresh.
  destruct (handleAnalyze_started page0 Hoff Hon) as ((u & Hu) & Hflag & Hhist & Hrt & Hjd).
  assert (Htruthy : truthy E results = true).
  { destruct Hres as (sm & Hsm & _). destruct results; try discriminate. reflexivity. }
  unfold saveEffect. rewrite Hv, Htruthy, Hload, Herr, Hfresh. cbn [negb andb].
  rewrite (readable_percentage _ Hres). cbn [mbind option_bind].
  destruct (saveToHistory_first_save clock
              (from_option (fun sm => member sm $"overallMatchPercentage") None
                 (member results $"skillMatch"))
              (handleAnalyze page0) u Hu Hflag) as (Hnew & Hset & _).
  eexists _, _, _. split; [reflexivity |].
  split; [rewrite Hnew, Hhist; reflexivity |].
  split; [cbn; rewrite Hrt; reflexivity |].
  split; [cbn; rewrite Hjd; reflexivity |].
  match goal with
  | |- context [rerenders E evs ?pv] =>
      destruct (rerenders_saved E evs pv) as ([page2 v2] & Hrun & _ & Hsame)
  end.
  { split; [exact Hset |]. cbn. try rewrite Hv. exact Hres. }
  exists page2, v2. split; [exact Hrun |].
  cbn [fst] in Hsame. split; [exact Hsame |].
  rewrite Hsame, Hnew, Hhist. reflexivity.
Qed.

Lemma one_record_per_readable_analysis_witness :
  exists page1 v1 item,
    saveEffect Sample.engine Sample.later (handleAnalyze Sample.ready)
      (errorEffect (settle (Returned fallbackAnalysis) mount)) = Some (page1, v1) /\
    analysisHistory page1 = item :: analysisHistory Sample.ready /\
    AnalysisHistoryItem.resumeText item = Some (resumeText Sample.ready) /\
    AnalysisHistoryItem.jobDescription item = Some (jobDescription Sample.ready) /\
    exists page2 v2,
      rerenders Sample.engine
        [SaveEffect Sample.later; Remount; SaveEffect Sample.later;
         SaveToHistory Sample.later None]
        (page1, v1) = Some (page2, v2) /\
      analysisHistory page2 = analysisHistory page1 /\
      length (analysisHistory page2) = S (length (analysisHistory Sample.ready)).
Proof.
  apply (one_record_per_readable_analysis Sample.engine Sample.ready
           (errorEffect (settle (Returned fallbackAnalysis) mount)) fallbackAnalysis).
  - reflexivity.
  - reflexivity.
  - reflexivity.
  - eexists. split; [reflexivity | discriminate].
  - reflexivity.
  - reflexivity.
  - reflexivity.
Defined.

(** Results whose [skillMatch] cannot be read are never saved by the
    effect: it throws before [onSaveAnalysis] is called, or does
    nothing. *)
Lemma unreadable_results_are_not_saved E clock (page : Dashboard.State)
  (v : AnalysisResults.State) (results : value) :
  analysisResults v = Some results ->
  overallMatchPercentage results = None ->
  saveEffect E clock page v = None \/ saveEffect E clock page v = Some (page, v).
Proof.
  intros Hv Hp. unfold saveEffect. rewrite Hv, Hp.
  destruct (truthy E results && negb (analysisLoading v)
            && negb (from_option Js.truthy false (analysisError v))
            && negb (hasSaved v)); [left | right]; reflexivity.
Qed.

(** C4, where the code departs from it: [analyzeResumeJobMatch] returns
    whatever [JSON.parse] gives for the reply.  For the reply [{}], with
    valid inputs, a signed-in user and an analysis started by
    [handleAnalyze], the call succeeds with the empty object (not with
    the fallback), the query settles with data and without error, and
    the read of [skillMatch.overallMatchPercentage] throws, in the render
    and in the save effect: [saveToHistory] is not called and no record
    is added for this successful analysis. *)
Theorem C4_empty_object_analysis_is_not_saved :
  let page1 := handleAnalyze Sample.ready in
  let outcome :=
    queryFn Sample.engine (Sample.replying Fixture.empty_object_reply)
      (resumeText page1) (jobDescription page1) in
  let v1 := errorEffect (settle outcome mount) in
  is_Some (user page1) /\ showResults page1 = true /\ hasBeenSaved page1 = false /\
  analyzeResumeJobMatch Sample.engine (Sample.replying Fixture.empty_object_reply)
    Sample.resume Sample.job = Returned (Obj []) /\
  outcome = Returned (Obj []) /\
  v1 = AnalysisResults.mkState None false (Some (Obj [])) false None /\
  ResultsDisplay.matchPercentage Sample.engine (analysisResults v1) = None /\
  saveEffect Sample.engine Sample.later page1 v1 = None /\
  analysisHistory page1 = [].
Proof. vm_compute. repeat split; try reflexivity. eexists; reflexivity. Qed.

(** C2, where the code departs from it: after a reload the page holds one
    stored record and [hasBeenSaved] is [false]; viewing that record runs
    the analysis on its stored texts, and when the result arrives the save
    effect appends a second record for the same texts. *)
Theorem C2_viewing_a_record_saves_it_again :
  let page0 := setActiveTab $"history" Sample.reloaded in
  let page1 := setActiveTab $"analyze" (handleViewHistory Sample.storedItem page0) in
  let outcome :=
    queryFn Sample.engine (Sample.replying Sample.analysis_reply)
      (resumeText page1) (jobDescription page1) in
  let v1 := errorEffect (settle outcome mount) in
  analysisHistory page0 = [Sample.storedItem] /\
  hasBeenSaved page0 = false /\
  analysisHistory page1 = [Sample.storedItem] /\
  (fun pv => analysisHistory (fst pv)) <$> saveEffect Sample.engine Sample.later page1 v1
  = Some [ AnalysisHistoryItem.mk $"1718100000000" $"6/11/2024" (Some (n_ "72"))
             (Some $"Senior Backend Engineer") (Some Sample.resume) (Some Sample.job);
           Sample.storedItem ].
Proof. vm_compute. repeat split; reflexivity. Qed.

End HistoryFacts.

(** ** Strings: trimming, replacing, splitting *)

Section JsTextFacts.
Import TextShape.

Lemma take_drop_while (p : N -> bool) (s : jsstring) :
  Js.take_while p s ++ Js.drop_while p s = s.
Proof.
  induction s as [| c t IH]; [reflexivity |]. simpl.
  destruct (p c); simpl; [rewrite IH |]; reflexivity.
Qed.

Lemma drop_while_as_drop (p : N -> bool) (s : jsstring) :
  Js.drop_while p s = drop (length (Js.take_while p s)) s.
Proof.
  induction s as [| c t IH]; [reflexivity |]. simpl.
  destruct (p c); simpl; [exact IH | reflexivity].
Qed.

Lemma drop_while_head (p : N -> bool) (s : jsstring) (c : N) :
  head (Js.drop_while p s) = Some c -> p c = false.
Proof.
  induction s as [| a t IH]; simpl; [discriminate |].
  destruct (p a) eqn:E; [exact IH |]. simpl. intros H. injection H as <-. exact E.
Qed.

Lemma take_while_Forall (p : N -> bool) (s : jsstring) :
  Forall (fun c => p c = true) (Js.take_while p s).
Proof.
  induction s as [| c t IH]; simpl; [constructor |].
  destruct (p c) eqn:E; constructor; auto.
Qed.

Lemma last_rev_head (s : jsstring) : last (rev s) = head s.
Proof. destruct s as [| c t]; [reflexivity |]. simpl. apply last_snoc. Qed.

(** The trimmed text is a stretch of the text. *)
Lemma trim_infix (s : jsstring) :
  exists k n, Js.trim s = take n (drop k s).
Proof.
  unfold Js.trim.
  exists (length (Js.take_while Js.is_space s)).
  rewrite (drop_while_as_drop _ s).
  set (a := drop _ s).
  exists (length (Js.drop_while Js.is_space (rev a))).
  pose proof (take_drop_while Js.is_space (rev a)) as H.
  apply (f_equal (@rev N)) in H. rewrite rev_app_distr, rev_involutive in H.
  transitivity (take (length (rev (Js.drop_while Js.is_space (rev a))))
                  (rev (Js.drop_while Js.is_space (rev a))
                   ++ rev (Js.take_while Js.is_space (rev a)))).
  - rewrite take_app_length. reflexivity.
  - rewrite H, length_rev. reflexivity.
Qed.

Lemma trim_Forall (P : N -> Prop) (s : jsstring) :
  Forall P s -> Forall P (Js.trim s).
Proof.
  intros H. destruct (trim_infix s) as (k & n & ->).
  apply Forall_take, Forall_drop, H.
Qed.

Lemma trim_trimmed (s : jsstring) : trimmed (Js.trim s).
Proof.
  unfold trimmed, Js.trim. split; intros c Hc.
  - set (a := Js.drop_while Js.is_space s) in *.
    pose proof (take_drop_while Js.is_space (rev a)) as H.
    apply (f_equal (@rev N)) in H. rewrite rev_app_distr, rev_involutive in H.
    destruct (rev (Js.drop_while Js.is_space (rev a))) as [| x r] eqn:E;
      [discriminate |].
    simpl in Hc. injection Hc as <-.
    apply (drop_while_head Js.is_space s). fold a. rewrite <- H. reflexivity.
  - rewrite last_rev_head in Hc. apply (drop_while_head _ _ _ Hc).
Qed.

Lemma replace_all_from_skip (m : Js.matcher) (by_ : jsstring) (k : nat) (s : jsstring) :
  Js.replace_all_from m by_ k s = Js.replace_all_from m by_ 0 (drop k s).
Proof.
  revert k. induction s as [| c t IH]; intros k.
  - destruct k; reflexivity.
  - destruct k as [| k]; [reflexivity |]. simpl. apply IH.
Qed.

(** What a replacement lets through: the replacement text, and code units
    of the text at positions where the pattern does not match. *)
Lemma replace_all_Forall (P Q : N -> Prop) (m : Js.matcher) (by_ s : jsstring) (k : nat) :
  Forall P s -> Forall Q by_ ->
  (forall c t, m (c :: t) = None -> P c -> Q c) ->
  Forall Q (Js.replace_all_from m by_ k s).
Proof.
  intros Hs Hby Hm. revert k.
  induction Hs as [| c t Hc Ht IH]; intros k; simpl; [constructor |].
  destruct k as [| k]; [| apply IH].
  destruct (m (c :: t)) as [n |] eqn:E.
  - apply Forall_app. split; [exact Hby | apply IH].
  - constructor; [apply (Hm c t E Hc) | apply IH].
Qed.

Lemma replace_all_keeps (P : N -> Prop) (m : Js.matcher) (by_ s : jsstring) :
  Forall P s -> Forall P by_ -> Forall P (Js.replace_all m by_ s).
Proof.
  intros Hs Hby. apply (replace_all_Forall P P); auto.
Qed.

Lemma replace_class_Forall (P : N -> Prop) (p : N -> bool) (by_ s : jsstring) :
  Forall P s -> Forall P by_ ->
  Forall (fun c => P c /\ (p c = false \/ c ∈ by_)) (Js.replace_all (Js.class p) by_ s).
Proof.
  intros Hs Hby. apply (replace_all_Forall P _ _ _ _ 0 Hs).
  - apply Forall_forall. intros x Hx. split; [| right; exact Hx].
    rewrite Forall_forall in Hby. auto.
  - intros c t E Hc. split; [exact Hc |]. left.
    unfold Js.class in E. destruct (p c); [discriminate | reflexivity].
Qed.

Lemma spaces1_none (c : N) (t : jsstring) :
  Js.spaces1 (c :: t) = None -> Js.is_space c = false.
Proof.
  unfold Js.spaces1. simpl. destruct (Js.is_space c); [discriminate | reflexivity].
Qed.

(** After [replace(/\s+/g, ' ')] the only white space is the space. *)
Lemma squeeze_plain_spaces (P : N -> Prop) (s : jsstring) :
  Forall P s -> P 32%N ->
  Forall (fun c => P c /\ (Js.is_space c = true -> c = 32%N))
    (Js.replace_all Js.spaces1 $" " s).
Proof.
  intros Hs Hsp. apply (replace_all_Forall P _ _ _ _ 0 Hs).
  - repeat constructor; auto.
  - intros c t E Hc. split; [exact Hc |].
    rewrite (spaces1_none c t E). discriminate.
Qed.

(** One step of [replace(/\s+/g, ' ')]. *)
Lemma squeeze_cons (c : N) (t : jsstring) :
  Js.replace_all Js.spaces1 $" " (c :: t) =
  if Js.is_space c
  then 32%N :: Js.replace_all Js.spaces1 $" " (Js.drop_while Js.is_space t)
  else c :: Js.replace_all Js.spaces1 $" " t.
Proof.
  unfold Js.replace_all. cbn [Js.replace_all_from].
  unfold Js.spaces1 at 1. cbn [Js.take_while].
  destruct (Js.is_space c); [| reflexivity].
  cbn [length]. rewrite Nat.sub_1_r. cbn [Nat.pred].
  rewrite replace_all_from_skip, <- drop_while_as_drop. reflexivity.
Qed.

Lemma squeeze_head (s : jsstring) :
  (forall c, head s = Some c -> Js.is_space c = false) ->
  forall c, head (Js.replace_all Js.spaces1 $" " s) = Some c -> Js.is_space c = false.
Proof.
  intros Hs c. destruct s as [| a t]; [discriminate |].
  rewrite squeeze_cons. rewrite (Hs a eq_refl). simpl.
  intros H. injection H as <-. apply (Hs a eq_refl).
Qed.

Lemma single_spaced_cons (a : N) (t : jsstring) :
  single_spaced t = true ->
  (Js.is_space a = true -> forall c, head t = Some c -> Js.is_space c = false) ->
  single_spaced (a :: t) = true.
Proof.
  intros Ht Ha. destruct t as [| b r]; [reflexivity |].
  cbn [single_spaced]. cbn [single_spaced] in Ht. rewrite Ht.
  destruct (Js.is_space a); [| reflexivity].
  rewrite (Ha eq_refl b eq_refl). reflexivity.
Qed.

(** After [replace(/\s+/g, ' ')] no two white-space code units are next to
    each other. *)
Lemma squeeze_single_spaced (s : jsstring) :
  single_spaced (Js.replace_all Js.spaces1 $" " s) = true.
Proof.
  remember (length s) as n eqn:Hn. revert s Hn.
  induction n as [n IH] using lt_wf_ind. intros s Hn.
  destruct s as [| c t]; [reflexivity |].
  rewrite squeeze_cons. simpl in Hn.
  destruct (Js.is_space c) eqn:E.
  - apply single_spaced_cons.
    + apply (IH (length (Js.drop_while Js.is_space t))); [| reflexivity].
      rewrite drop_while_as_drop, length_drop. lia.
    + intros _. apply squeeze_head. apply drop_while_head.
  - apply single_spaced_cons.
    + apply (IH (length t)); [lia | reflexivity].
    + rewrite E. discriminate.
Qed.

Lemma single_spaced_tail (a : N) (t : jsstring) :
  single_spaced (a :: t) = true -> single_spaced t = true.
Proof.
  destruct t as [| b r]; [reflexivity |]. cbn [single_spaced].
  intros H. apply andb_true_iff in H. apply H.
Qed.

Lemma single_spaced_drop (k : nat) (s : jsstring) :
  single_spaced s = true -> single_spaced (drop k s) = true.
Proof.
  revert s. induction k as [| k IH]; intros s H; [exact H |].
  destruct s as [| a t]; [reflexivity |]. simpl. apply IH, (single_spaced_tail a), H.
Qed.

Lemma single_spaced_take (n : nat) (s : jsstring) :
  single_spaced s = true -> single_spaced (take n s) = true.
Proof.
  revert n. induction s as [| a t IH]; intros n H; [destruct n; reflexivity |].
  destruct n as [| n]; [reflexivity |].
  cbn [take]. pose proof (IH n (single_spaced_tail a t H)) as Ht.
  destruct t as [| b r]; [destruct n; reflexivity |].
  destruct n as [| n]; [reflexivity |].
  cbn [take] in *. cbn [single_spaced] in H |- *.
  apply andb_true_iff in H. destruct H as [H _].
  cbn [single_spaced] in Ht. rewrite H. exact Ht.
Qed.

Lemma trim_single_spaced (s : jsstring) :
  single_spaced s = true -> single_spaced (Js.trim s) = true.
Proof.
  intros H. destruct (trim_infix s) as (k & n & ->).
  apply single_spaced_take, single_spaced_drop, H.
Qed.

Lemma split_Forall (P : N -> Prop) (sep : N) (s : jsstring) :
  Forall P s -> Forall (Forall P) (Js.split sep s).
Proof.
  induction 1 as [| c t Hc Ht IH]; simpl; [repeat constructor |].
  destruct (c =? sep)%N; [constructor; [constructor | exact IH] |].
  destruct (Js.split sep t) as [| w ws]; [repeat constructor; exact Hc |].
  inversion IH; subst. constructor; [constructor |]; auto.
Qed.

Lemma join_Forall (P : N -> Prop) (sep : jsstring) (l : list jsstring) :
  Forall P sep -> Forall (Forall P) l -> Forall P (Js.join sep l).
Proof.
  intros Hsep. induction 1 as [| x rest Hx Hrest IH]; simpl; [constructor |].
  destruct rest as [| y rest']; [exact Hx |].
  apply Forall_app. split; [exact Hx |]. apply Forall_app. split; [exact Hsep | exact IH].
Qed.

Lemma filter_Forall {A} (P : A -> Prop) (f : A -> bool) (l : list A) :
  Forall P l -> Forall P (List.filter f l).
Proof.
  induction 1 as [| x rest Hx Hrest IH]; simpl; [constructor |].
  destruct (f x); [constructor |]; auto.
Qed.

End JsTextFacts.

(** ** Resume upload: the other file types, and what the heuristics give *)

Section ResumeUploadMore.
Import ResumeUpload TextShape.

Lemma accepted_type (f : File.t) (ty : jsstring) :
  File.type f = ty -> ty ∈ validTypes -> File.type f ∈ validTypes.
Proof. intros ->. auto. Qed.

(** X1: a Word document within the size limit: nothing is read from it, the
    text handed to [onUpload] is the file name followed by one fixed
    sentence, also when the bytes cannot be read. *)
Theorem word_document_is_not_read (f : File.t) (st : State) :
  File.type f = $"application/msword" \/
  File.type f = $"application/vnd.openxmlformats-officedocument.wordprocessingml.document" ->
  (File.size f <= 5242880)%N ->
  handleFileChange (Some f) st =
  (mkState (Some f) false None,
   [ToastSuccess $"Resume uploaded and processed successfully!";
    OnUpload true
      (Some (File.name f ++ $" - Resume includes professional experience spanning multiple years in technology roles, with skills in programming languages, databases, and web frameworks. Education includes degree in computer science or related field."))]).
Proof.
  intros Hty Hsz.
  rewrite handleFileChange_accepted;
    [| apply validTypes_spec; tauto | rewrite maxSize_value; exact Hsz].
  assert (Hx : extractText f = Returned (wordText (File.name f))).
  { unfold extractText. destruct Hty as [-> | ->]; reflexivity. }
  rewrite Hx. cbv beta iota. rewrite ensureMinimum_long; [reflexivity |].
  unfold wordText. rewrite length_app.
  match goal with |- context [length (Js.str ?x)] =>
    let n := eval vm_compute in (length (Js.str x)) in
    change (length (Js.str x)) with n end.
  lia.
Qed.

Lemma word_document_is_not_read_witness :
  handleFileChange (Some Fixture.word_file) (mkState None false None) =
  (mkState (Some Fixture.word_file) false None,
   [ToastSuccess $"Resume uploaded and processed successfully!";
    OnUpload true
      (Some (File.name Fixture.word_file ++ $" - Resume includes professional experience spanning multiple years in technology roles, with skills in programming languages, databases, and web frameworks. Education includes degree in computer science or related field."))]).
Proof.
  apply (word_document_is_not_read Fixture.word_file (mkState None false None)).
  - right. reflexivity.
  - vm_compute. discriminate.
Defined.

(** X2: a PDF whose bytes cannot be read is still uploaded: the inner [catch]
    replaces the text by the file name followed by a fixed sentence. *)
Theorem unreadable_pdf_is_uploaded (f : File.t) (st : State) (message : jsstring) :
  File.type f = $"application/pdf" ->
  (File.size f <= 5242880)%N ->
  File.decoded f = Thrown message ->
  handleFileChange (Some f) st =
  (mkState (Some f) false None,
   [ToastSuccess $"Resume uploaded and processed successfully!";
    OnUpload true
      (Some (File.name f ++ $" - Resume includes experience in software development, programming skills, and education details."))]).
Proof.
  intros Hty Hsz Hread.
  rewrite handleFileChange_accepted;
    [| apply validTypes_spec; tauto | rewrite maxSize_value; exact Hsz].
  assert (Hx : extractText f = Returned (pdfFailureText (File.name f))).
  { unfold extractText. rewrite Hty, Hread. reflexivity. }
  rewrite Hx. cbv beta iota. rewrite ensureMinimum_long; [reflexivity |].
  unfold pdfFailureText. rewrite length_app.
  match goal with |- context [length (Js.str ?x)] =>
    let n := eval vm_compute in (length (Js.str x)) in
    change (length (Js.str x)) with n end.
  lia.
Qed.

Lemma unreadable_pdf_is_uploaded_witness :
  handleFileChange (Some Fixture.unreadable_pdf) (mkState None false None) =
  (mkState (Some Fixture.unreadable_pdf) false None,
   [ToastSuccess $"Resume uploaded and processed successfully!";
    OnUpload true
      (Some (File.name Fixture.unreadable_pdf ++ $" - Resume includes experience in software development, programming skills, and education details."))]).
Proof.
  apply (unreadable_pdf_is_uploaded Fixture.unreadable_pdf (mkState None false None)
           $"NotReadableError").
  - reflexivity.
  - vm_compute. discriminate.
  - reflexivity.
Defined.

(** X3: a plain-text file whose bytes cannot be read is not uploaded: the
    outer [catch] sets the error, [onUpload] is not called, and the file
    stays selected. *)
Theorem unreadable_text_is_an_error (f : File.t) (st : State) (message : jsstring) :
  File.type f = $"text/plain" ->
  (File.size f <= 5242880)%N ->
  File.decoded f = Thrown message ->
  handleFileChange (Some f) st =
  (mkState (Some f) false (Some $"Error processing resume. Please try again."),
   [ToastError $"Error processing resume"]).
Proof.
  intros Hty Hsz Hread.
  rewrite handleFileChange_accepted;
    [| apply validTypes_spec; tauto | rewrite maxSize_value; exact Hsz].
  unfold extractText. rewrite Hty, eqb_refl, Hread. reflexivity.
Qed.

Lemma unreadable_text_is_an_error_witness :
  handleFileChange (Some Fixture.unreadable_text) (mkState None false None) =
  (mkState (Some Fixture.unreadable_text) false
     (Some $"Error processing resume. Please try again."),
   [ToastError $"Error processing resume"]).
Proof.
  apply (unreadable_text_is_an_error Fixture.unreadable_text (mkState None false None)
           $"NotReadableError").
  - reflexivity.
  - vm_compute. discriminate.
  - reflexivity.
Defined.

(** X4: whatever the file, [onUpload] is called at most once, and it is called
    exactly when no error is left on display. *)
Theorem upload_or_error (f : File.t) (st : State) :
  (is_Some (error (fst (handleFileChange (Some f) st))) /\
   onUploadCalls (snd (handleFileChange (Some f) st)) = []) \/
  (error (fst (handleFileChange (Some f) st)) = None /\
   exists t, onUploadCalls (snd (handleFileChange (Some f) st)) = [OnUpload true (Some t)]
             /\ 50 <= length t).
Proof.
  unfold handleFileChange.
  destruct (negb (bool_decide (File.type f ∈ validTypes))); [left; cbn; eauto |].
  destruct (maxSize <? File.size f)%N; [left; cbn; eauto |].
  destruct (extractText f) as [raw | message]; [right | left; cbn; eauto].
  cbn. split; [reflexivity |]. eexists. split; [reflexivity |].
  apply ensureMinimum_length.
Qed.

(** X5: the text of the parenthesis heuristic has no parenthesis left, its only
    white space is the space, and no two spaces are next to each other. *)
Theorem parenTokens_shape (content t : jsstring) :
  parenTokens content = Some t ->
  Forall (fun c => c <> Js.ch "(" /\ c <> Js.ch ")") t /\
  plain_spaces t /\ single_spaced t = true.
Proof.
  unfold parenTokens.
  destruct (Js.match_all paren_token content) as [| m ms]; [discriminate |].
  intros H. injection H as <-.
  set (joined := Js.join $" " (m :: ms)).
  pose proof (replace_class_Forall (fun _ => True) is_paren $" " joined
                ltac:(apply Forall_forall; auto) ltac:(repeat constructor)) as H1.
  assert (H1' : Forall (fun c => c <> Js.ch "(" /\ c <> Js.ch ")")
                  (Js.replace_all (Js.class is_paren) $" " joined)).
  { eapply Forall_impl; [exact H1 |]. intros c [_ [Hc | Hc]].
    - unfold is_paren in Hc. apply orb_false_iff in Hc. destruct Hc as [Ha Hb].
      apply N.eqb_neq in Ha, Hb. auto.
    - apply list_elem_of_singleton in Hc. subst c. split; discriminate. }
  pose proof (replace_all_keeps _ escaped_newline $" " _ H1'
                ltac:(repeat constructor; discriminate)) as H2.
  pose proof (squeeze_plain_spaces _ _ H2 ltac:(split; discriminate)) as H3.
  split; [| split].
  - eapply Forall_impl; [exact H3 |]. intros c [Hc _]. exact Hc.
  - eapply Forall_impl; [exact H3 |]. intros c [_ Hc]. exact Hc.
  - apply squeeze_single_spaced.
Qed.

Lemma parenTokens_shape_witness :
  Forall (fun c => c <> Js.ch "(" /\ c <> Js.ch ")") $" Senior engineer Python SQL " /\
  plain_spaces $" Senior engineer Python SQL " /\
  single_spaced $" Senior engineer Python SQL " = true.
Proof.
  apply (parenTokens_shape Fixture.pdf_content). reflexivity.
Defined.

(** X6: the text of the [/Text[...]] heuristic has no closing bracket and no
    parenthesis left. *)
Theorem textArrays_shape (content t : jsstring) :
  textArrays content = Some t ->
  Forall (fun c => c <> Js.ch "]" /\ c <> Js.ch "(" /\ c <> Js.ch ")") t.
Proof.
  unfold textArrays.
  destruct (Js.match_all text_array content) as [| m ms]; [discriminate |].
  intros H. injection H as <-.
  set (opened := Js.replace_all text_open [] (Js.join $" " (m :: ms))).
  pose proof (replace_class_Forall (fun _ => True) (fun c => c =? Js.ch "]")%N [] opened
                ltac:(apply Forall_forall; auto) ltac:(constructor)) as H1.
  assert (H1' : Forall (fun c => c <> Js.ch "]")
                  (Js.replace_all (Js.class (fun c => c =? Js.ch "]")%N) [] opened)).
  { eapply Forall_impl; [exact H1 |]. intros c [_ [Hc | Hc]].
    - apply N.eqb_neq in Hc. exact Hc.
    - apply elem_of_nil in Hc. contradiction. }
  pose proof (replace_class_Forall _ (fun c => c =? Js.ch "(")%N $" " _ H1'
                ltac:(repeat constructor; discriminate)) as H2.
  assert (H2' : Forall (fun c => c <> Js.ch "]" /\ c <> Js.ch "(")
                  (Js.replace_all (Js.class (fun c => c =? Js.ch "(")%N) $" "
                     (Js.replace_all (Js.class (fun c => c =? Js.ch "]")%N) [] opened))).
  { eapply Forall_impl; [exact H2 |]. intros c [Hb [Hc | Hc]].
    - apply N.eqb_neq in Hc. auto.
    - apply list_elem_of_singleton in Hc. subst c. split; discriminate. }
  pose proof (replace_class_Forall _ (fun c => c =? Js.ch ")")%N $" " _ H2'
                ltac:(repeat constructor; discriminate)) as H3.
  eapply Forall_impl; [exact H3 |]. intros c [[Hb Ho] [Hc | Hc]].
  - apply N.eqb_neq in Hc. auto.
  - apply list_elem_of_singleton in Hc. subst c. repeat split; discriminate.
Qed.

Lemma textArrays_shape_witness :
  Forall (fun c => c <> Js.ch "]" /\ c <> Js.ch "(" /\ c <> Js.ch ")") $" Python   SQL ".
Proof.
  apply (textArrays_shape Fixture.pdf_content). reflexivity.
Defined.

(** X7: the text of the last heuristic is printable ASCII, with single spaces
    between its words and none at the ends. *)
Theorem printableFilter_shape (content : jsstring) :
  Forall (fun c => (32 <= c <= 126)%N) (printableFilter content) /\
  single_spaced (printableFilter content) = true /\
  trimmed (printableFilter content).
Proof.
  unfold printableFilter. split; [| split].
  - apply trim_Forall.
    assert (H1 : Forall (fun c => (32 <= c <= 126)%N)
                   (Js.replace_all (Js.class (fun c => negb (printable c))) $" " content)).
    { eapply Forall_impl.
      - apply (replace_class_Forall (fun _ => True) (fun c => negb (printable c)) $" " content).
        + apply Forall_forall. auto.
        + repeat constructor.
      - intros c [_ [Hc | Hc]].
        + apply negb_false_iff in Hc. unfold printable in Hc.
          apply andb_true_iff in Hc. destruct Hc as [Ha Hb].
          apply N.leb_le in Ha, Hb. lia.
        + apply list_elem_of_singleton in Hc. subst c. vm_compute. split; discriminate. }
    assert (Hsp : Forall (fun c => (32 <= c <= 126)%N) $" ")
      by (repeat constructor; vm_compute; discriminate).
    pose proof (join_Forall _ $" " _ Hsp
                  (filter_Forall _ (fun word => 2 <? length word) _
                     (split_Forall _ 32%N _ H1))) as H2.
    eapply Forall_impl.
    + apply (squeeze_plain_spaces _ _ H2). lia.
    + intros c [Hc _]. exact Hc.
  - apply trim_single_spaced, squeeze_single_spaced.
  - apply trim_trimmed.
Qed.

End ResumeUploadMore.

(** ** Job-posting extraction: failures, bounds, normal form *)

Section JobDescriptionMore.
Import JobDescriptionInput TextShape.

(** X8: a response with an error status: the job text stays as it was, the
    parent is not called, and the error on display is the access-denied
    text for 403, the not-found text for 404, and the status code
    otherwise. *)
Theorem http_error_keeps_job_text (st : State) (status : N) (body : JsResult jsstring) :
  Js.truthy (jobUrl st) = true ->
  exists message,
    handleExtractFromUrl (FetchResponse false status body) st =
    (mkState (activeTab st) (jobUrl st) (jobText st) false (Some message),
     [ToastError message]) /\
    match status with
    | 403%N => Js.includes message $"Access denied" = true
    | 404%N => Js.includes message $"not found" = true
    | _ => message = $"Failed to fetch URL: " ++ Js.of_N status
    end.
Proof.
  intros Hurl. unfold handleExtractFromUrl. rewrite Hurl. cbn [negb fetchJobText].
  destruct (status =? 403)%N eqn:E3.
  { apply N.eqb_eq in E3. subst status. eexists. split; reflexivity. }
  destruct (status =? 404)%N eqn:E4.
  { apply N.eqb_eq in E4. subst status. eexists. split; reflexivity. }
  eexists. split; [reflexivity |].
  apply N.eqb_neq in E3, E4.
  destruct status as [| p]; [reflexivity |].
  repeat (destruct p as [p | p |]; try reflexivity); congruence.
Qed.

Lemma http_error_keeps_job_text_witness :
  exists message,
    handleExtractFromUrl (FetchResponse false 500 (Returned [])) Fixture.url_entered =
    (mkState (activeTab Fixture.url_entered) (jobUrl Fixture.url_entered)
       (jobText Fixture.url_entered) false (Some message),
     [ToastError message]) /\
    message = $"Failed to fetch URL: " ++ Js.of_N 500.
Proof.
  apply (http_error_keeps_job_text Fixture.url_entered 500 (Returned [])).
  reflexivity.
Defined.

Lemma substring_length (s : jsstring) (a n : nat) :
  length (Js.substring s a (a + n)) <= n.
Proof. unfold Js.substring. cbv zeta. rewrite length_take. lia. Qed.

Lemma substring_window (s : jsstring) (a n : nat) :
  a <= length s -> Js.substring s a (a + n) = take n (drop a s).
Proof.
  intros Ha. unfold Js.substring. cbv zeta.
  rewrite (Nat.min_l a (length s)) by exact Ha.
  assert (Hb : Nat.min (a + n) (length s) - a = Nat.min n (length (drop a s)))
    by (rewrite length_drop; lia).
  rewrite (Nat.max_r a (Nat.min (a + n) (length s))) by lia.
  rewrite (Nat.min_l a (Nat.min (a + n) (length s))) by lia.
  rewrite Hb. destruct (Nat.le_gt_cases n (length (drop a s))) as [H | H].
  - rewrite Nat.min_l by exact H. reflexivity.
  - rewrite Nat.min_r by lia. rewrite !take_ge; [reflexivity | lia | lia].
Qed.

(** X9: the stored text never has more than 5003 code units. *)
Theorem extractJobText_bounded (textContent : jsstring) :
  length (extractJobText textContent) <= 5000 + 3.
Proof.
  unfold extractJobText. cbv zeta.
  assert (Helse : length (if 5000 <? length (collapse textContent)
                          then Js.substring (collapse textContent) 0 5000 ++ $"..."
                          else collapse textContent) <= 5000 + 3).
  { destruct (Nat.ltb_spec 5000 (length (collapse textContent))).
    - rewrite length_app. pose proof (substring_length (collapse textContent) 0 5000) as H1.
      simpl in H1. change (length $"...") with 3. lia.
    - lia. }
  destruct (match_index (collapse textContent)) as [index |]; [| exact Helse].
  destruct (negb (index =? 0)); [| exact Helse].
  pose proof (substring_length (collapse textContent) index 4000). lia.
Qed.

Lemma match_index_heading (s : jsstring) : forall i,
  match_index s = Some i -> i <= length s /\ heading_here (drop i s) = true.
Proof.
  induction s as [| c t IH]; intros i; cbn [match_index].
  - destruct (heading_here []) eqn:E; [| discriminate].
    intros H. injection H as <-. split; [lia | exact E].
  - destruct (heading_here (c :: t)) eqn:E.
    + intros H. injection H as <-. split; [lia | exact E].
    + destruct (match_index t) as [j |]; [| discriminate].
      cbn. intros H. injection H as <-.
      destruct (IH j eq_refl) as [Hj Hh]. split; [lia | exact Hh].
Qed.

Lemma starts_with_i_take (p s : jsstring) (n : nat) :
  length p <= n -> starts_with_i p s = true -> starts_with_i p (take n s) = true.
Proof.
  revert s n. induction p as [| a p IH]; intros s n Hn; [reflexivity |].
  destruct s as [| b s]; [discriminate |].
  destruct n as [| n]; [simpl in Hn; lia |].
  cbn [starts_with_i take]. intros H. apply andb_true_iff in H. destruct H as [H1 H2].
  rewrite H1. simpl. apply IH; [simpl in Hn; lia | exact H2].
Qed.

Lemma heading_here_take (s : jsstring) :
  heading_here s = true -> heading_here (take 4000 s) = true.
Proof.
  unfold heading_here. intros H.
  assert (B1 : length $"job description" <= 4000) by (apply Nat.leb_le; reflexivity).
  assert (B2 : length $"requirements" <= 4000) by (apply Nat.leb_le; reflexivity).
  assert (B3 : length $"responsibilities" <= 4000) by (apply Nat.leb_le; reflexivity).
  apply orb_true_iff in H. destruct H as [H | H];
    [apply orb_true_iff in H; destruct H as [H | H] |].
  - rewrite (starts_with_i_take _ _ 4000 B1 H). reflexivity.
  - rewrite (starts_with_i_take _ _ 4000 B2 H).
    rewrite orb_true_r. reflexivity.
  - rewrite (starts_with_i_take _ _ 4000 B3 H).
    rewrite orb_true_r. reflexivity.
Qed.

(** X10: a heading found after the first code unit: the stored text begins with
    the heading and has at most 4000 code units. *)
Theorem stored_text_begins_with_heading (textContent : jsstring) (i : nat) :
  match_index (collapse textContent) = Some (S i) ->
  heading_here (extractJobText textContent) = true /\
  length (extractJobText textContent) <= 4000.
Proof.
  intros H. unfold extractJobText. rewrite H. cbn [Nat.eqb negb].
  destruct (match_index_heading _ _ H) as [Hi Hh].
  split; [| apply substring_length].
  rewrite substring_window by exact Hi. apply heading_here_take, Hh.
Qed.

Lemma stored_text_begins_with_heading_witness :
  heading_here (extractJobText Fixture.posting) = true /\
  length (extractJobText Fixture.posting) <= 4000.
Proof.
  apply (stored_text_begins_with_heading Fixture.posting 9). reflexivity.
Defined.

Lemma collapse_normal (textContent : jsstring) :
  plain_spaces (collapse textContent) /\
  single_spaced (collapse textContent) = true /\
  trimmed (collapse textContent).
Proof.
  unfold collapse. split; [| split].
  - apply trim_Forall.
    eapply Forall_impl.
    + apply (squeeze_plain_spaces (fun _ => True)); [apply Forall_forall; auto | exact I].
    + intros c [_ Hc]. exact Hc.
  - apply trim_single_spaced, squeeze_single_spaced.
  - apply trim_trimmed.
Qed.

(** X11: the normalised page text: its only white space is single spaces
    between words. *)
Theorem collapse_shape (textContent : jsstring) :
  plain_spaces (collapse textContent) /\
  single_spaced (collapse textContent) = true /\
  trimmed (collapse textContent).
Proof.
  exact (collapse_normal textContent).
Qed.

Lemma drop_while_id (p : N -> bool) (s : jsstring) :
  (forall c, head s = Some c -> p c = false) -> Js.drop_while p s = s.
Proof.
  destruct s as [| c t]; [reflexivity |]. intros H. simpl.
  rewrite (H c eq_refl). reflexivity.
Qed.

Lemma trim_id (s : jsstring) : trimmed s -> Js.trim s = s.
Proof.
  intros [Hh Hl]. unfold Js.trim. rewrite (drop_while_id _ s Hh).
  rewrite drop_while_id; [apply rev_involutive |].
  intros c Hc. apply Hl. rewrite <- (rev_involutive s). rewrite last_rev_head. exact Hc.
Qed.

Lemma squeeze_id (s : jsstring) :
  plain_spaces s -> single_spaced s = true -> Js.replace_all Js.spaces1 $" " s = s.
Proof.
  induction s as [| c t IH]; intros Hp Hs; [reflexivity |].
  inversion Hp as [| ? ? Hc Ht]; subst.
  pose proof (single_spaced_tail c t Hs) as Hs'.
  rewrite squeeze_cons. destruct (Js.is_space c) eqn:E.
  - rewrite (Hc eq_refl). f_equal.
    rewrite drop_while_id; [apply IH; assumption |].
    intros b Hb. destruct t as [| b' r]; [discriminate |].
    simpl in Hb. injection Hb as <-.
    cbn [single_spaced] in Hs. rewrite E in Hs. simpl in Hs.
    apply andb_true_iff in Hs. destruct Hs as [Hs _].
    apply negb_true_iff in Hs. exact Hs.
  - f_equal. apply IH; assumption.
Qed.

(** X12: normalising a normalised text changes nothing. *)
Theorem collapse_idempotent (textContent : jsstring) :
  collapse (collapse textContent) = collapse textContent.
Proof.
  destruct (collapse_normal textContent) as (Hp & Hs & Ht).
  unfold collapse at 1. rewrite squeeze_id by assumption. apply trim_id, Ht.
Qed.

End JobDescriptionMore.

(** ** The Gemini service: configuration, replies in prose, skill gaps *)

Section GeminiMore.
Import Json GeminiService.

Lemma lookup_set_eq (k : jsstring) (v : value) (m : list (jsstring * value)) :
  lookup_member k (set_member k v m) = Some v.
Proof.
  induction m as [| [k' v'] rest IH]; cbn [set_member lookup_member].
  - rewrite eqb_refl. reflexivity.
  - destruct (Js.eqb k k') eqn:E; cbn [lookup_member].
    + rewrite eqb_refl. reflexivity.
    + rewrite E. exact IH.
Qed.

Lemma lookup_set_ne (k k' : jsstring) (v : value) (m : list (jsstring * value)) :
  k <> k' -> lookup_member k' (set_member k v m) = lookup_member k' m.
Proof.
  intros Hne. induction m as [| [k0 v0] rest IH]; cbn [set_member lookup_member].
  - unfold Js.eqb. rewrite bool_decide_eq_false_2 by congruence. reflexivity.
  - destruct (Js.eqb k k0) eqn:E; cbn [lookup_member].
    + unfold Js.eqb in E. apply bool_decide_eq_true_1 in E. subst k0.
      unfold Js.eqb. rewrite bool_decide_eq_false_2 by congruence. reflexivity.
    + rewrite IH. reflexivity.
Qed.

Lemma set_set (k : jsstring) (v : value) (m : list (jsstring * value)) :
  set_member k v (set_member k v m) = set_member k v m.
Proof.
  induction m as [| [k' v'] rest IH]; cbn [set_member].
  - rewrite eqb_refl. reflexivity.
  - destruct (Js.eqb k k') eqn:E; cbn [set_member].
    + rewrite eqb_refl. reflexivity.
    + rewrite E, IH. reflexivity.
Qed.

(** X13: without an API key nothing is asked of the network: the two list
    calls give their fallback arrays and, for valid inputs, the analysis
    call gives the fallback analysis. *)
Theorem missing_key_gives_fallbacks E env (resumeText jobDescription : jsstring) :
  from_option Js.truthy false (GEMINI_API_KEY env) = false ->
  50 <= length (Js.trim resumeText) ->
  50 <= length (Js.trim jobDescription) ->
  getSalaryTrendsFromGemini env = salaryTrendsFallback /\
  getLearningRecommendationsFromGemini env = learningRecommendationsFallback /\
  analyzeResumeJobMatch E env resumeText jobDescription = Returned fallbackAnalysis.
Proof.
  intros Hkey Hr Hj.
  assert (Hcall : forall p, callGeminiAPI env p = Thrown $"Gemini API key is not configured").
  { intros p. unfold callGeminiAPI. rewrite Hkey. reflexivity. }
  split; [| split].
  - unfold getSalaryTrendsFromGemini. rewrite Hcall. reflexivity.
  - unfold getLearningRecommendationsFromGemini. rewrite Hcall. reflexivity.
  - apply (analyze_masks_call_failure E env _ _ _ Hr Hj (Hcall _)). reflexivity.
Qed.

Lemma missing_key_gives_fallbacks_witness :
  getSalaryTrendsFromGemini Fixture.no_key = salaryTrendsFallback /\
  getLearningRecommendationsFromGemini Fixture.no_key = learningRecommendationsFallback /\
  analyzeResumeJobMatch Sample.engine Fixture.no_key Sample.resume Sample.job
  = Returned fallbackAnalysis.
Proof.
  apply (missing_key_gives_fallbacks Sample.engine Fixture.no_key Sample.resume Sample.job).
  - reflexivity.
  - vm_compute. lia.
  - vm_compute. lia.
Defined.

(** X14: a text is returned by [callGeminiAPI] only when a key is configured,
    the response has an ok status, its body carries no [error], and the
    first part of the first candidate is that text; the text is never
    empty. *)
Theorem callGeminiAPI_returns_only_reply_text env (prompt : Prompt) (t : jsstring) :
  callGeminiAPI env prompt = Returned t ->
  t <> [] /\
  from_option Js.truthy false (GEMINI_API_KEY env) = true /\
  exists response data,
    fetch env prompt = FetchResolved response /\ ok response = true /\
    json response = Returned data /\ error data = None /\ firstText data = Some t.
Proof.
  unfold callGeminiAPI.
  destruct (from_option Js.truthy false (GEMINI_API_KEY env)); [| discriminate].
  cbn [negb]. destruct (fetch env prompt) as [message | response] eqn:Hf; [discriminate |].
  destruct (ok response) eqn:Hok; cbn [negb];
    [| destruct (json response); discriminate].
  destruct (json response) as [data | message] eqn:Hj; [| discriminate].
  destruct (error data) as [e |] eqn:He; [discriminate |].
  destruct (firstText data) as [t' |] eqn:Ht; [| discriminate].
  destruct (Js.truthy t') eqn:Hne; [| discriminate].
  intros H. injection H as <-.
  split; [destruct t'; discriminate |].
  split; [reflexivity |]. exists response, data. repeat split; auto.
Qed.

Lemma callGeminiAPI_returns_only_reply_text_witness :
  Sample.prose_reply <> [] /\
  from_option Js.truthy false (GEMINI_API_KEY (Sample.replying Sample.prose_reply)) = true /\
  exists response data,
    fetch (Sample.replying Sample.prose_reply) SalaryTrendsPrompt = FetchResolved response /\
    ok response = true /\
    json response = Returned data /\ error data = None /\
    firstText data = Some Sample.prose_reply.
Proof.
  apply (callGeminiAPI_returns_only_reply_text (Sample.replying Sample.prose_reply)
           SalaryTrendsPrompt Sample.prose_reply).
  reflexivity.
Defined.

Lemma drop_while_past (p : N -> bool) (pre : jsstring) (x : N) (r : jsstring) :
  Forall (fun c => p c = true) pre -> p x = false ->
  Js.drop_while p (pre ++ x :: r) = x :: r.
Proof.
  intros Hpre Hx. induction Hpre as [| c t Hc Ht IH]; simpl.
  - rewrite Hx. reflexivity.
  - rewrite Hc. exact IH.
Qed.

(** The bracket pattern on a reply with prose around the brackets. *)
Lemma span_wrapped (o c : N) (pre body post : jsstring) :
  Forall (fun x => x <> o) pre -> Forall (fun x => x <> c) post ->
  span o c (pre ++ o :: body ++ c :: post) = Some (o :: body ++ [c]).
Proof.
  intros Hpre Hpost. unfold span.
  rewrite drop_while_past.
  - rewrite rev_app_distr. cbn [rev]. rewrite <- app_assoc. cbn [app].
    rewrite drop_while_past.
    + cbn [rev]. rewrite rev_involutive. reflexivity.
    + apply Forall_rev. eapply Forall_impl; [exact Hpost |].
      intros x Hx. apply negb_true_iff, N.eqb_neq. exact Hx.
    + rewrite N.eqb_refl. reflexivity.
  - eapply Forall_impl; [exact Hpre |].
    intros x Hx. apply negb_true_iff, N.eqb_neq. exact Hx.
  - rewrite N.eqb_refl. reflexivity.
Qed.

Lemma arrayText_wrapped (pre body post : jsstring) :
  Forall (fun x => x <> Js.ch "[") pre -> Forall (fun x => x <> Js.ch "]") post ->
  arrayText (pre ++ Js.ch "[" :: body ++ Js.ch "]" :: post)
  = Js.ch "[" :: body ++ [Js.ch "]"].
Proof.
  intros Hpre Hpost. unfold arrayText.
  rewrite (span_wrapped _ _ _ _ _ Hpre Hpost). reflexivity.
Qed.

Lemma objectText_wrapped (pre body post : jsstring) :
  Forall (fun x => x <> Js.ch "{") pre -> Forall (fun x => x <> Js.ch "}") post ->
  objectText (pre ++ Js.ch "{" :: body ++ Js.ch "}" :: post)
  = Js.ch "{" :: body ++ [Js.ch "}"].
Proof.
  intros Hpre Hpost. unfold objectText.
  rewrite (span_wrapped _ _ _ _ _ Hpre Hpost). reflexivity.
Qed.

(** X15: what the bracket pattern matches: the stretch of the reply from the
    first opening bracket to the last closing bracket. *)
Theorem span_is_first_to_last (o c : N) (s t : jsstring) :
  span o c s = Some t ->
  exists pre body post,
    s = pre ++ t ++ post /\ t = o :: body ++ [c] /\
    Forall (fun x => x <> o) pre /\ Forall (fun x => x <> c) post.
Proof.
  unfold span. intros H.
  pose proof (take_drop_while (fun x => negb (x =? o)%N) s) as Hs.
  pose proof (take_while_Forall (fun x => negb (x =? o)%N) s) as Hpre.
  destruct (Js.drop_while (fun x => negb (x =? o)%N) s) as [| o' rest] eqn:Ed;
    [discriminate |].
  assert (Ho : o' = o).
  { pose proof (drop_while_head (fun x => negb (x =? o)%N) s o') as Hh.
    rewrite Ed in Hh. specialize (Hh eq_refl).
    apply negb_false_iff, N.eqb_eq in Hh. exact Hh. }
  subst o'.
  pose proof (take_drop_while (fun x => negb (x =? c)%N) (rev rest)) as Hr.
  pose proof (take_while_Forall (fun x => negb (x =? c)%N) (rev rest)) as Hpost.
  destruct (Js.drop_while (fun x => negb (x =? c)%N) (rev rest)) as [| c' upto] eqn:Eu;
    [discriminate |].
  assert (Hc : c' = c).
  { pose proof (drop_while_head (fun x => negb (x =? c)%N) (rev rest) c') as Hh.
    rewrite Eu in Hh. specialize (Hh eq_refl).
    apply negb_false_iff, N.eqb_eq in Hh. exact Hh. }
  subst c'. injection H as <-.
  apply (f_equal (@rev N)) in Hr. rewrite rev_app_distr, rev_involutive in Hr.
  exists (Js.take_while (fun x => negb (x =? o)%N) s), (rev upto),
         (rev (Js.take_while (fun x => negb (x =? c)%N) (rev rest))).
  split; [| split; [| split]].
  - rewrite <- Hs at 1. f_equal. cbn [app]. f_equal. cbn [rev] in Hr |- *.
    symmetry. exact Hr.
  - reflexivity.
  - eapply Forall_impl; [exact Hpre |]. intros x Hx.
    apply negb_true_iff, N.eqb_neq in Hx. exact Hx.
  - apply Forall_rev. eapply Forall_impl; [exact Hpost |]. intros x Hx.
    apply negb_true_iff, N.eqb_neq in Hx. exact Hx.
Qed.

Lemma span_is_first_to_last_witness :
  exists pre body post,
    Fixture.fenced_array = pre ++ $"[1, 2, 3, 4]" ++ post /\
    $"[1, 2, 3, 4]" = Js.ch "[" :: body ++ [Js.ch "]"] /\
    Forall (fun x => x <> Js.ch "[") pre /\ Forall (fun x => x <> Js.ch "]") post.
Proof.
  apply (span_is_first_to_last (Js.ch "[") (Js.ch "]") Fixture.fenced_array).
  reflexivity.
Defined.

(** X16: a reply that wraps one JSON array in prose (no opening bracket before
    it, no closing bracket after it): the array is cut out, parsed, and
    its first three items are returned by both list calls. *)
Theorem array_in_prose_is_used env (pre body post : jsstring) (items : list value) :
  Forall (fun x => x <> Js.ch "[") pre ->
  Forall (fun x => x <> Js.ch "]") post ->
  parse (Js.ch "[" :: body ++ [Js.ch "]"]) = Some (Arr items) ->
  callGeminiAPI env SalaryTrendsPrompt
  = Returned (pre ++ Js.ch "[" :: body ++ Js.ch "]" :: post) ->
  callGeminiAPI env LearningRecommendationsPrompt
  = Returned (pre ++ Js.ch "[" :: body ++ Js.ch "]" :: post) ->
  getSalaryTrendsFromGemini env = Arr (take 3 items) /\
  getLearningRecommendationsFromGemini env = Arr (take 3 items).
Proof.
  intros Hpre Hpost Hparse H1 H2.
  unfold getSalaryTrendsFromGemini, getLearningRecommendationsFromGemini,
    parseFirstThree.
  rewrite H1, H2, (arrayText_wrapped _ _ _ Hpre Hpost), Hparse. split; reflexivity.
Qed.

Lemma array_in_prose_is_used_witness :
  getSalaryTrendsFromGemini (Sample.replying Fixture.fenced_array)
  = Arr (take 3 [n_ "1"; n_ "2"; n_ "3"; n_ "4"]) /\
  getLearningRecommendationsFromGemini (Sample.replying Fixture.fenced_array)
  = Arr (take 3 [n_ "1"; n_ "2"; n_ "3"; n_ "4"]).
Proof.
  apply (array_in_prose_is_used (Sample.replying Fixture.fenced_array)
           $"Here you go: " $"1, 2, 3, 4" $" Hope this helps.").
  - repeat constructor; discriminate.
  - repeat constructor; discriminate.
  - reflexivity.
  - reflexivity.
  - reflexivity.
Defined.

(** An input that is empty or shorter than 50 code units after trimming is
    reported to the caller with one of the two validation messages,
    whatever the configuration and the network. *)
Theorem short_input_is_reported E env (resumeText jobDescription : jsstring) :
  (resumeText = [] \/ length (Js.trim resumeText) < 50) \/
  (jobDescription = [] \/ length (Js.trim jobDescription) < 50) ->
  exists message,
    analyzeResumeJobMatch E env resumeText jobDescription = Thrown message /\
    Js.includes message $"too short" = true /\
    (message = resumeTooShort \/ message = jobDescriptionTooShort).
Proof.
  intros H.
  destruct (Nat.lt_ge_cases (length (Js.trim resumeText)) 50) as [Hr | Hr].
  - exists resumeTooShort.
    rewrite (analyze_rejects_short_resume E env _ _ (or_intror Hr)).
    split; [reflexivity |]. split; [reflexivity | left; reflexivity].
  - destruct H as [[-> | H] | H]; [vm_compute in Hr; lia | lia |].
    exists jobDescriptionTooShort.
    rewrite (analyze_rejects_short_job E env _ _ Hr H).
    split; [reflexivity |]. split; [reflexivity | right; reflexivity].
Qed.

Lemma short_input_is_reported_witness :
  exists message,
    analyzeResumeJobMatch Sample.engine (Sample.replying Sample.analysis_reply)
      Sample.resume ($"Senior engineer" ++ repeat 32%N 60) = Thrown message /\
    Js.includes message $"too short" = true /\
    (message = resumeTooShort \/ message = jobDescriptionTooShort).
Proof.
  apply (short_input_is_reported Sample.engine (Sample.replying Sample.analysis_reply)).
  right. right. vm_compute. lia.
Defined.

Lemma unknownSkill_truthy E : truthy E unknownSkill = true.
Proof. reflexivity. Qed.

Lemma withSkillName_form E (item item' : value) :
  withSkillName E item = Some item' ->
  exists X sv, item' = Obj (set_member $"skill" sv X) /\ truthy E sv = true.
Proof.
  destruct item as [| b | lexeme | s | items | m]; cbn [withSkillName];
    try discriminate; intros H; injection H as <-.
  - exists [], unknownSkill. split; reflexivity.
  - exists [], unknownSkill. split; reflexivity.
  - eexists _, unknownSkill. split; reflexivity.
  - eexists _, unknownSkill. split; reflexivity.
  - eexists m, _. split; [reflexivity |].
    destruct (lookup_member $"skill" m) as [sv |]; [| reflexivity].
    destruct (truthy E sv) eqn:Et; [exact Et | reflexivity].
Qed.

Lemma withSkillName_fixed E (item item' : value) :
  withSkillName E item = Some item' -> withSkillName E item' = Some item'.
Proof.
  intros H. destruct (withSkillName_form E item item' H) as (X & sv & -> & Hsv).
  cbn [withSkillName]. rewrite lookup_set_eq, Hsv, set_set. reflexivity.
Qed.

Lemma mapM_named E (items named : list value) :
  mapM (withSkillName E) items = Some named ->
  length named = length items /\
  Forall (fun item => exists mm sv,
            item = Obj mm /\ lookup_member $"skill" mm = Some sv /\ truthy E sv = true)
         named /\
  mapM (withSkillName E) named = Some named.
Proof.
  intros H. apply mapM_Some in H.
  split; [symmetry; apply (Forall2_length _ _ _ H) |].
  split.
  - induction H as [| x y l k Hxy Hlk IH]; constructor; [| exact IH].
    destruct (withSkillName_form E x y Hxy) as (X & sv & -> & Hsv).
    exists (set_member $"skill" sv X), sv. rewrite lookup_set_eq. auto.
  - apply mapM_Some. apply Forall_Forall2_diag.
    induction H as [| x y l k Hxy Hlk IH]; constructor; [| exact IH].
    apply (withSkillName_fixed E x y Hxy).
Qed.

(** X17: when the analysis has a non-empty [skillGapData] array and the naming
    step succeeds, the array keeps its length, every entry is an object
    with a truthy [skill], and every other property of the analysis is as
    it was parsed. *)
Theorem nameSkillGaps_names_every_gap E (m : list (jsstring * value))
  (items : list value) (analysis' : value) :
  lookup_member $"skillGapData" m = Some (Arr items) ->
  items <> [] ->
  nameSkillGaps E (Obj m) = Some analysis' ->
  exists named,
    member analysis' $"skillGapData" = Some (Arr named) /\
    length named = length items /\
    Forall (fun item => exists mm sv,
              item = Obj mm /\ lookup_member $"skill" mm = Some sv /\ truthy E sv = true)
           named /\
    forall k, k <> $"skillGapData" -> member analysis' k = lookup_member k m.
Proof.
  intros Hl Hne. unfold nameSkillGaps. rewrite Hl.
  destruct items as [| i0 rest]; [contradiction |].
  change (0 <? length (i0 :: rest)) with true. cbv iota.
  destruct (mapM (withSkillName E) (i0 :: rest)) as [named |] eqn:Em; [| discriminate].
  cbn [mbind option_bind]. intros H. injection H as <-.
  destruct (mapM_named E _ _ Em) as (Hlen & Hall & _).
  exists named. cbn [member]. rewrite lookup_set_eq.
  repeat split; auto.
  intros k Hk. apply lookup_set_ne. congruence.
Qed.

Lemma nameSkillGaps_names_every_gap_witness :
  exists named,
    member (Obj [($"skillGapData",
                  Arr [Obj [($"skill", unknownSkill)];
                       Obj [($"0", n_ "7"); ($"skill", unknownSkill)]]);
                 ($"strengths", Arr [])]) $"skillGapData" = Some (Arr named) /\
    length named = length [Obj [($"skill", n_ "0")]; Arr [n_ "7"]] /\
    Forall (fun item => exists mm sv,
              item = Obj mm /\ lookup_member $"skill" mm = Some sv /\
              truthy Sample.engine sv = true)
           named /\
    forall k, k <> $"skillGapData" ->
      member (Obj [($"skillGapData",
                    Arr [Obj [($"skill", unknownSkill)];
                         Obj [($"0", n_ "7"); ($"skill", unknownSkill)]]);
                   ($"strengths", Arr [])]) k
      = lookup_member k [($"skillGapData", Arr [Obj [($"skill", n_ "0")]; Arr [n_ "7"]]);
                         ($"strengths", Arr [])].
Proof.
  apply (nameSkillGaps_names_every_gap Sample.engine
           [($"skillGapData", Arr [Obj [($"skill", n_ "0")]; Arr [n_ "7"]]);
            ($"strengths", Arr [])]
           [Obj [($"skill", n_ "0")]; Arr [n_ "7"]]).
  - reflexivity.
  - discriminate.
  - reflexivity.
Defined.

(** X18: the naming step changes nothing when it is applied a second time. *)
Theorem nameSkillGaps_idempotent E (analysis analysis' : value) :
  nameSkillGaps E analysis = Some analysis' ->
  nameSkillGaps E analysis' = Some analysis'.
Proof.
  destruct analysis as [| b | lexeme | s | items | m]; cbn [nameSkillGaps];
    try discriminate; try (intros H; injection H as <-; reflexivity).
  destruct (lookup_member $"skillGapData" m) as [gaps |] eqn:El.
  - destruct gaps as [| b | lexeme | s | items | sm].
    + intros H. injection H as <-. cbn [nameSkillGaps]. rewrite El. reflexivity.
    + intros H. injection H as <-. cbn [nameSkillGaps]. rewrite El. reflexivity.
    + intros H. injection H as <-. cbn [nameSkillGaps]. rewrite El. reflexivity.
    + destruct (0 <? length s) eqn:Es; [discriminate |].
      intros H. injection H as <-. cbn [nameSkillGaps]. rewrite El, Es. reflexivity.
    + destruct (0 <? length items) eqn:Ei.
      * destruct (mapM (withSkillName E) items) as [named |] eqn:Em; [| discriminate].
        cbn [mbind option_bind]. intros H. injection H as <-.
        destruct (mapM_named E _ _ Em) as (Hlen & _ & Hfix).
        cbn [nameSkillGaps]. rewrite lookup_set_eq, Hlen, Ei, Hfix.
        cbn [mbind option_bind]. rewrite set_set. reflexivity.
      * intros H. injection H as <-. cbn [nameSkillGaps]. rewrite El, Ei. reflexivity.
    + destruct (lookup_member $"length" sm) as [len |] eqn:Elen.
      * destruct (greater_than_zero E len) eqn:Eg; [discriminate |].
        intros H. injection H as <-. cbn [nameSkillGaps]. rewrite El, Elen, Eg. reflexivity.
      * intros H. injection H as <-. cbn [nameSkillGaps]. rewrite El, Elen. reflexivity.
  - intros H. injection H as <-. cbn [nameSkillGaps]. rewrite El. reflexivity.
Qed.

Lemma nameSkillGaps_idempotent_witness :
  nameSkillGaps Sample.engine
    (Obj [($"skillGapData",
           Arr [Obj [($"skill", unknownSkill)];
                Obj [($"0", n_ "7"); ($"skill", unknownSkill)]]);
          ($"strengths", Arr [])])
  = Some (Obj [($"skillGapData",
                Arr [Obj [($"skill", unknownSkill)];
                     Obj [($"0", n_ "7"); ($"skill", unknownSkill)]]);
               ($"strengths", Arr [])]).
Proof.
  apply (nameSkillGaps_idempotent Sample.engine
           (Obj [($"skillGapData", Arr [Obj [($"skill", n_ "0")]; Arr [n_ "7"]]);
                 ($"strengths", Arr [])])).
  reflexivity.
Defined.

(** X19: one [null] among the entries of [skillGapData] makes the naming step
    throw; the whole analysis of the model is then replaced by the
    fallback analysis. *)
Theorem null_gap_discards_analysis E env (resumeText jobDescription reply : jsstring)
  (m : list (jsstring * value)) (items : list value) :
  50 <= length (Js.trim resumeText) ->
  50 <= length (Js.trim jobDescription) ->
  callGeminiAPI env (ResumeJobMatchPrompt (Js.trim resumeText) (Js.trim jobDescription))
  = Returned reply ->
  parse (objectText reply) = Some (Obj m) ->
  lookup_member $"skillGapData" m = Some (Arr items) ->
  Null ∈ items ->
  analyzeResumeJobMatch E env resumeText jobDescription = Returned fallbackAnalysis.
Proof.
  intros Hr Hj Hcall Hparse Hl Hnull.
  apply (analyze_masks_parse_failure E env _ _ reply Hr Hj Hcall).
  unfold parseAnalysis. rewrite Hparse. cbn [mbind option_bind].
  unfold nameSkillGaps. rewrite Hl.
  destruct items as [| i0 rest]; [apply elem_of_nil in Hnull; contradiction |].
  change (0 <? length (i0 :: rest)) with true. cbv iota.
  destruct (mapM (withSkillName E) (i0 :: rest)) as [named |] eqn:Em; [| reflexivity].
  exfalso. assert (Hs : is_Some (mapM (withSkillName E) (i0 :: rest))) by eauto.
  apply mapM_is_Some in Hs. rewrite Forall_forall in Hs.
  destruct (Hs Null Hnull) as [y Hy]. discriminate.
Qed.

Lemma null_gap_discards_analysis_witness :
  analyzeResumeJobMatch Sample.engine (Sample.replying Fixture.null_gap_reply)
    Sample.resume Sample.job = Returned fallbackAnalysis.
Proof.
  apply (null_gap_discards_analysis Sample.engine (Sample.replying Fixture.null_gap_reply)
           Sample.resume Sample.job Fixture.null_gap_reply
           [($"skillGapData", Arr [Null])] [Null]).
  - vm_compute. lia.
  - vm_compute. lia.
  - reflexivity.
  - reflexivity.
  - reflexivity.
  - apply list_elem_of_singleton. reflexivity.
Defined.

(** X20: a reply that wraps one JSON object in prose (no opening brace before
    it, no closing brace after it): with valid inputs the call returns
    that object, after the naming step. *)
Theorem object_in_prose_is_used E env (resumeText jobDescription pre body post : jsstring)
  (analysis named : value) :
  50 <= length (Js.trim resumeText) ->
  50 <= length (Js.trim jobDescription) ->
  Forall (fun x => x <> Js.ch "{") pre ->
  Forall (fun x => x <> Js.ch "}") post ->
  callGeminiAPI env (ResumeJobMatchPrompt (Js.trim resumeText) (Js.trim jobDescription))
  = Returned (pre ++ Js.ch "{" :: body ++ Js.ch "}" :: post) ->
  parse (Js.ch "{" :: body ++ [Js.ch "}"]) = Some analysis ->
  nameSkillGaps E analysis = Some named ->
  analyzeResumeJobMatch E env resumeText jobDescription = Returned named.
Proof.
  intros Hr Hj Hpre Hpost Hcall Hparse Hname.
  unfold analyzeResumeJobMatch, analysisAttempt.
  rewrite (passes_validation _ Hr), (passes_validation _ Hj). cbv zeta.
  rewrite Hcall. unfold parseAnalysis.
  rewrite (objectText_wrapped _ _ _ Hpre Hpost), Hparse. cbn [mbind option_bind].
  rewrite Hname. reflexivity.
Qed.

Lemma object_in_prose_is_used_witness :
  analyzeResumeJobMatch Sample.engine (Sample.replying Fixture.gaps_reply)
    Sample.resume Sample.job
  = Returned (Obj [($"skillGapData",
                    Arr [Obj [($"skill", unknownSkill)];
                         Obj [($"0", n_ "7"); ($"skill", unknownSkill)]]);
                   ($"strengths", Arr [])]).
Proof.
  apply (object_in_prose_is_used Sample.engine (Sample.replying Fixture.gaps_reply)
           Sample.resume Sample.job $"Sure: " Fixture.gaps_body $" Done."
           (Obj [($"skillGapData", Arr [Obj [($"skill", n_ "0")]; Arr [n_ "7"]]);
                 ($"strengths", Arr [])])).
  - vm_compute. lia.
  - vm_compute. lia.
  - repeat constructor; discriminate.
  - repeat constructor; discriminate.
  - reflexivity.
  - reflexivity.
  - reflexivity.
Defined.

End GeminiMore.

(** ** The page: gate, storage, history, wiring *)

Section PageFacts.
Import Dashboard.

Lemma long_is_truthy (s : jsstring) : 50 <= length s -> Js.truthy s = true.
Proof. destruct s; [simpl; lia | reflexivity]. Qed.

Lemma handleAnalyze_passes (page : State) :
  is_Some (user page) -> resumeUploaded page = true ->
  50 <= length (resumeText page) -> 50 <= length (jobDescription page) ->
  handleAnalyze page =
  mkState (activeTab page) (resumeUploaded page) (resumeText page) (jobDescription page)
    true (authModalOpen page) (analysisHistory page) false
    (selectedHistoryItem page) (user page) (localStorage page) (toasts page).
Proof.
  intros [u Hu] Hup Hr Hj. unfold handleAnalyze.
  rewrite Hu, Hup, (long_is_truthy _ Hr), (long_is_truthy _ Hj). cbn [negb orb].
  replace (length (resumeText page) <? 50) with false
    by (symmetry; apply Nat.ltb_ge; exact Hr).
  replace (length (jobDescription page) <? 50) with false
    by (symmetry; apply Nat.ltb_ge; exact Hj).
  reflexivity.
Qed.

Lemma handleAnalyze_inputs (page : State) :
  showResults page = false ->
  showResults (handleAnalyze page) = true ->
  is_Some (user page) /\ resumeUploaded page = true /\
  50 <= length (resumeText page) /\ 50 <= length (jobDescription page).
Proof.
  intros Hoff. unfold handleAnalyze.
  destruct (user page) as [u |]; [| cbn; rewrite Hoff; discriminate].
  destruct (resumeUploaded page); cbn [negb orb];
    [| cbn; rewrite Hoff; discriminate].
  destruct (negb (Js.truthy (resumeText page))); [cbn; rewrite Hoff; discriminate |].
  destruct (negb (Js.truthy (jobDescription page))); [cbn; rewrite Hoff; discriminate |].
  destruct (Nat.ltb_spec (length (resumeText page)) 50); [cbn; rewrite Hoff; discriminate |].
  destruct (Nat.ltb_spec (length (jobDescription page)) 50);
    [cbn; rewrite Hoff; discriminate |].
  intros _. eauto.
Qed.

(** X21: from the input form, [handleAnalyze] shows the results exactly when a
    user is signed in, a resume is uploaded, and both texts have at least
    50 code units. *)
Theorem handleAnalyze_gate (page : State) :
  showResults page = false ->
  (showResults (handleAnalyze page) = true <->
   is_Some (user page) /\ resumeUploaded page = true /\
   50 <= length (resumeText page) /\ 50 <= length (jobDescription page)).
Proof.
  intros Hoff. split.
  - apply handleAnalyze_inputs, Hoff.
  - intros (Hu & Hup & Hr & Hj). rewrite handleAnalyze_passes; auto.
Qed.

Lemma handleAnalyze_gate_witness :
  showResults (handleAnalyze Sample.ready) = true <->
  is_Some (user Sample.ready) /\ resumeUploaded Sample.ready = true /\
  50 <= length (resumeText Sample.ready) /\ 50 <= length (jobDescription Sample.ready).
Proof. apply (handleAnalyze_gate Sample.ready). reflexivity. Defined.

(** X22: a saved history is read back: a page with the same user and the same
    local storage loads the list that the save left, one record longer
    than before the save. *)
Theorem saved_history_survives_reload (clock : Clock) (percentage : option Json.value)
  (page fresh : State) (u : User) :
  user page = Some u -> hasBeenSaved page = false ->
  user fresh = Some u ->
  localStorage fresh = localStorage (saveToHistory clock percentage page) ->
  analysisHistory (loadHistory fresh)
  = analysisHistory (saveToHistory clock percentage page) /\
  length (analysisHistory (loadHistory fresh)) = S (length (analysisHistory page)).
Proof.
  intros Hu Hs Hfu Hst.
  destruct (saveToHistory_first_save clock percentage page u Hu Hs) as (Hnew & _ & Hkey).
  assert (Hload : analysisHistory (loadHistory fresh)
                  = analysisHistory (saveToHistory clock percentage page)).
  { unfold loadHistory. rewrite Hfu, Hst, Hkey. reflexivity. }
  split; [exact Hload |]. rewrite Hload, Hnew. reflexivity.
Qed.

Lemma saved_history_survives_reload_witness :
  analysisHistory
    (loadHistory
       (mkState $"analyze" false [] [] false false [] false None (Some Sample.alice)
          (localStorage (saveToHistory Sample.later None Sample.ready)) []))
  = analysisHistory (saveToHistory Sample.later None Sample.ready) /\
  length (analysisHistory
            (loadHistory
               (mkState $"analyze" false [] [] false false [] false None (Some Sample.alice)
                  (localStorage (saveToHistory Sample.later None Sample.ready)) [])))
  = S (length (analysisHistory Sample.ready)).
Proof.
  apply (saved_history_survives_reload Sample.later None Sample.ready _ Sample.alice);
    reflexivity.
Defined.

Lemma storageKey_injective (u v : User) :
  storageKey u = storageKey v -> email u = email v.
Proof. unfold storageKey. apply app_inv_head. Qed.

(** X23: a save writes under the key of the signed-in user only: the stored
    history of a user with another email address is not touched. *)
Theorem other_users_history_untouched (clock : Clock) (percentage : option Json.value)
  (page : State) (u other : User) :
  user page = Some u -> email other <> email u ->
  localStorage (saveToHistory clock percentage page) !! storageKey other
  = localStorage page !! storageKey other.
Proof.
  intros Hu Hne. unfold saveToHistory. rewrite Hu.
  destruct (hasBeenSaved page); [reflexivity |]. cbn.
  apply lookup_insert_ne. intros H. apply storageKey_injective in H. congruence.
Qed.

Lemma other_users_history_untouched_witness :
  localStorage (saveToHistory Sample.later None Sample.ready) !! storageKey Fixture.bob
  = localStorage Sample.ready !! storageKey Fixture.bob.
Proof.
  apply (other_users_history_untouched Sample.later None Sample.ready Sample.alice).
  - reflexivity.
  - discriminate.
Defined.

Local Ltac fields :=
  cbn [activeTab resumeUploaded resumeText jobDescription showResults authModalOpen
       analysisHistory hasBeenSaved selectedHistoryItem user localStorage toasts
       toast default from_option id].

Lemma act_keeps_history (a : Page.Action) (page : State) :
  Page.synced page ->
  Page.synced (Page.act a page) /\
  analysisHistory page `suffix_of` analysisHistory (Page.act a page) /\
  user (Page.act a page) = user page.
Proof.
  unfold Page.synced. intros Hsync.
  destruct a as [| | uploaded extractedText | jd | clock percentage | item | | tab];
    cbn [Page.act].
  - unfold loadHistory. destruct (user page) as [u |] eqn:Hu; [| rewrite Hu; auto].
    destruct (localStorage page !! storageKey u) as [h |] eqn:Hl.
    + fields. rewrite Hl. cbn [default from_option id] in Hsync. subst h. auto.
    + rewrite Hu, Hl. auto.
  - unfold handleAnalyze, toast.
    destruct (user page) as [u |] eqn:Hu; fields; [| auto].
    repeat (match goal with
            | |- context [if ?b then _ else _] => destruct b
            end; fields); rewrite ?Hu; auto.
  - unfold handleResumeUpload. fields. destruct (user page); auto.
  - unfold handleJobDescriptionChange. fields. destruct (user page); auto.
  - unfold saveToHistory. destruct (user page) as [u |] eqn:Hu; [| rewrite Hu; auto].
    destruct (hasBeenSaved page); [rewrite Hu; auto |]. fields.
    rewrite lookup_insert_eq. fields. split; [reflexivity |].
    split; [apply suffix_cons_r; reflexivity | reflexivity].
  - unfold handleViewHistory, toast.
    destruct (AnalysisHistoryItem.resumeText item) as [r |];
      destruct (AnalysisHistoryItem.jobDescription item) as [j |]; fields;
      try (destruct (Js.truthy r && Js.truthy j); fields);
      destruct (user page); auto.
  - unfold onBack. destruct (selectedHistoryItem page); fields; destruct (user page); auto.
  - unfold setActiveTab. fields. destruct (user page); auto.
Qed.

(** X24: while the same user stays signed in, whatever is done on the page, the
    list on the page stays equal to the list in local storage, and records
    are only ever added in front of it: none is changed or removed. *)
Theorem history_is_append_only (actions : list Page.Action) (page : State) :
  Page.synced page ->
  Page.synced (Page.acts actions page) /\
  analysisHistory page `suffix_of` analysisHistory (Page.acts actions page) /\
  user (Page.acts actions page) = user page.
Proof.
  revert page. induction actions as [| a rest IH]; intros page Hsync.
  - cbn. auto.
  - destruct (act_keeps_history a page Hsync) as (H1 & H2 & H3).
    destruct (IH (Page.act a page) H1) as (H4 & H5 & H6).
    unfold Page.acts in *. cbn [foldl].
    split; [exact H4 |]. split; [| congruence].
    etransitivity; [exact H2 | exact H5].
Qed.

Lemma history_is_append_only_witness :
  Page.synced (Page.acts [Page.ViewHistory Sample.storedItem; Page.Save Sample.later None;
                          Page.Back; Page.Load] Sample.reloaded) /\
  analysisHistory Sample.reloaded `suffix_of`
    analysisHistory (Page.acts [Page.ViewHistory Sample.storedItem;
                                Page.Save Sample.later None;
                                Page.Back; Page.Load] Sample.reloaded) /\
  user (Page.acts [Page.ViewHistory Sample.storedItem; Page.Save Sample.later None;
                   Page.Back; Page.Load] Sample.reloaded) = user Sample.reloaded.
Proof.
  apply (history_is_append_only _ Sample.reloaded). reflexivity.
Defined.

(** X25: viewing a stored record and going back leaves the texts of the record
    in the two inputs, with the input form shown and the save flag
    reset. *)
Theorem back_after_viewing_keeps_texts (item : AnalysisHistoryItem.t) (page : State)
  (r j : jsstring) :
  AnalysisHistoryItem.resumeText item = Some r ->
  AnalysisHistoryItem.jobDescription item = Some j ->
  r <> [] -> j <> [] ->
  resumeText (onBack (handleViewHistory item page)) = r /\
  jobDescription (onBack (handleViewHistory item page)) = j /\
  resumeUploaded (onBack (handleViewHistory item page)) = true /\
  showResults (onBack (handleViewHistory item page)) = false /\
  hasBeenSaved (onBack (handleViewHistory item page)) = false /\
  selectedHistoryItem (onBack (handleViewHistory item page)) = None.
Proof.
  intros Hr Hj Hrn Hjn. unfold handleViewHistory. rewrite Hr, Hj.
  destruct r; [contradiction |]. destruct j; [contradiction |]. cbn.
  repeat split; reflexivity.
Qed.

Lemma back_after_viewing_keeps_texts_witness :
  resumeText (onBack (handleViewHistory Sample.storedItem Sample.reloaded)) = Sample.resume /\
  jobDescription (onBack (handleViewHistory Sample.storedItem Sample.reloaded)) = Sample.job /\
  resumeUploaded (onBack (handleViewHistory Sample.storedItem Sample.reloaded)) = true /\
  showResults (onBack (handleViewHistory Sample.storedItem Sample.reloaded)) = false /\
  hasBeenSaved (onBack (handleViewHistory Sample.storedItem Sample.reloaded)) = false /\
  selectedHistoryItem (onBack (handleViewHistory Sample.storedItem Sample.reloaded)) = None.
Proof.
  apply (back_after_viewing_keeps_texts Sample.storedItem Sample.reloaded);
    try reflexivity; discriminate.
Defined.

(** X26: a file selection seen from the page: either an error is on display in
    the upload component and the page is as before, or the page holds the
    uploaded text, of at least 50 code units, with [resumeUploaded] set. *)
Theorem upload_reaches_page (f : File.t) (st : ResumeUpload.State) (page : State) :
  let result := ResumeUpload.handleFileChange (Some f) st in
  let page' := Page.deliverUpload (snd result) page in
  (is_Some (ResumeUpload.error (fst result)) /\ page' = page) \/
  (ResumeUpload.error (fst result) = None /\
   resumeUploaded page' = true /\ 50 <= length (resumeText page') /\
   ResumeUpload.uploadedTexts (snd result) = [resumeText page']).
Proof.
  cbv zeta. unfold ResumeUpload.handleFileChange.
  destruct (negb (bool_decide (File.type f ∈ ResumeUpload.validTypes)));
    [left; cbn; eauto |].
  destruct (ResumeUpload.maxSize <? File.size f)%N; [left; cbn; eauto |].
  destruct (ResumeUpload.extractText f) as [raw | message]; [right | left; cbn; eauto].
  pose proof (ensureMinimum_length f raw) as Hlen.
  unfold Page.deliverUpload. cbn [fst snd ResumeUpload.error foldl].
  unfold handleResumeUpload. cbv zeta. cbn [default from_option id].
  rewrite (long_is_truthy _ Hlen). fields.
  repeat split; auto.
Qed.

(** An extraction from a URL seen from the page: either the page is as
    before, or no error is on display and the job description of the page
    is the text that the input component stored. *)
Theorem extraction_reaches_page (response : JobDescriptionInput.FetchOutcome)
  (st : JobDescriptionInput.State) (page : State) :
  let result := JobDescriptionInput.handleExtractFromUrl response st in
  let page' := Page.deliverJobDescription (snd result) page in
  page' = page \/
  (JobDescriptionInput.extractionError (fst result) = None /\
   jobDescription page' = JobDescriptionInput.jobText (fst result) /\
   resumeText page' = resumeText page /\
   analysisHistory page' = analysisHistory page).
Proof.
  cbv zeta. unfold JobDescriptionInput.handleExtractFromUrl.
  destruct (negb (Js.truthy (JobDescriptionInput.jobUrl st))); [left; reflexivity |].
  destruct (JobDescriptionInput.fetchJobText response) as [t | message];
    [right | left; reflexivity].
  cbn. auto.
Qed.

End PageFacts.

(** ** The results component: its query, its save effect, its chart rows *)

Section ResultsFacts.
Import Json GeminiService Dashboard AnalysisResults ResultsDisplay.

(** X27: after [handleAnalyze] has shown the results, the two length checks of
    the query function cannot fail: the query is the service call on the
    texts of the page. *)
Theorem query_checks_pass_after_gate E env (page : Dashboard.State) :
  showResults page = false ->
  showResults (handleAnalyze page) = true ->
  queryFn E env (resumeText (handleAnalyze page)) (jobDescription (handleAnalyze page))
  = analyzeResumeJobMatch E env (resumeText page) (jobDescription page).
Proof.
  intros Hoff Hon.
  destruct (handleAnalyze_inputs page Hoff Hon) as (Hu & Hup & Hr & Hj).
  rewrite (handleAnalyze_passes page Hu Hup Hr Hj).
  cbn [resumeText jobDescription]. unfold queryFn.
  rewrite (long_is_truthy _ Hr), (long_is_truthy _ Hj). cbn [negb orb].
  replace (length (resumeText page) <? 50) with false
    by (symmetry; apply Nat.ltb_ge; exact Hr).
  replace (length (jobDescription page) <? 50) with false
    by (symmetry; apply Nat.ltb_ge; exact Hj).
  reflexivity.
Qed.

Lemma query_checks_pass_after_gate_witness :
  queryFn Sample.engine (Sample.replying Sample.analysis_reply)
    (resumeText (handleAnalyze Sample.ready)) (jobDescription (handleAnalyze Sample.ready))
  = analyzeResumeJobMatch Sample.engine (Sample.replying Sample.analysis_reply)
      (resumeText Sample.ready) (jobDescription Sample.ready).
Proof.
  apply (query_checks_pass_after_gate Sample.engine
           (Sample.replying Sample.analysis_reply) Sample.ready); reflexivity.
Defined.

Lemma saveToHistory_changes (clock : Clock) (percentage : option value)
  (page : Dashboard.State) :
  analysisHistory (saveToHistory clock percentage page) <> analysisHistory page ->
  is_Some (user page) /\ hasBeenSaved page = false /\
  hasBeenSaved (saveToHistory clock percentage page) = true /\
  length (analysisHistory (saveToHistory clock percentage page))
  = S (length (analysisHistory page)).
Proof.
  unfold saveToHistory. destruct (user page) as [u |]; [| intros H; contradiction].
  destruct (hasBeenSaved page); [intros H; contradiction |].
  intros _. cbn. eauto.
Qed.

(** X28: one evaluation of the save effect changes the history only when a
    user is signed in, nothing was saved yet on the page or in the
    component, and the results are there, loaded and without error; it
    then adds one record and sets both guards. *)
Theorem history_changes_only_on_first_save E (clock : Clock)
  (page page' : Dashboard.State) (v v' : AnalysisResults.State) :
  saveEffect E clock page v = Some (page', v') ->
  analysisHistory page' <> analysisHistory page ->
  is_Some (user page) /\ hasBeenSaved page = false /\ hasSaved v = false /\
  is_Some (analysisResults v) /\ analysisLoading v = false /\
  from_option Js.truthy false (analysisError v) = false /\
  hasBeenSaved page' = true /\ hasSaved v' = true /\
  length (analysisHistory page') = S (length (analysisHistory page)).
Proof.
  unfold saveEffect.
  destruct (analysisResults v) as [results |] eqn:Hr;
    [| intros H; injection H as <- <-; intros Hne; contradiction].
  destruct (truthy E results && negb (analysisLoading v)
            && negb (from_option Js.truthy false (analysisError v))
            && negb (hasSaved v)) eqn:Hc;
    [| intros H; injection H as <- <-; intros Hne; contradiction].
  destruct (overallMatchPercentage results) as [percentage |]; [| discriminate].
  cbn [mbind option_bind]. intros H. injection H as <- <-. intros Hne.
  destruct (saveToHistory_changes clock percentage page Hne) as (Hu & Hs & Hs' & Hlen).
  apply andb_true_iff in Hc. destruct Hc as [Hc H4].
  apply andb_true_iff in Hc. destruct Hc as [Hc H3].
  apply andb_true_iff in Hc. destruct Hc as [_ H2].
  apply negb_true_iff in H2, H3, H4.
  repeat split; eauto.
Qed.

Lemma history_changes_only_on_first_save_witness :
  is_Some (user (handleAnalyze Sample.ready)) /\
  hasBeenSaved (handleAnalyze Sample.ready) = false /\
  hasSaved (errorEffect (settle (Returned fallbackAnalysis) mount)) = false /\
  is_Some (analysisResults (errorEffect (settle (Returned fallbackAnalysis) mount))) /\
  analysisLoading (errorEffect (settle (Returned fallbackAnalysis) mount)) = false /\
  from_option Js.truthy false
    (analysisError (errorEffect (settle (Returned fallbackAnalysis) mount))) = false /\
  hasBeenSaved
    (saveToHistory Sample.later (Some (n_ "65")) (handleAnalyze Sample.ready)) = true /\
  hasSaved (mkState None true (Some fallbackAnalysis) false None) = true /\
  length (analysisHistory
            (saveToHistory Sample.later (Some (n_ "65")) (handleAnalyze Sample.ready)))
  = S (length (analysisHistory (handleAnalyze Sample.ready))).
Proof.
  apply (history_changes_only_on_first_save Sample.engine Sample.later
           (handleAnalyze Sample.ready)
           (saveToHistory Sample.later (Some (n_ "65")) (handleAnalyze Sample.ready))
           (errorEffect (settle (Returned fallbackAnalysis) mount))
           (mkState None true (Some fallbackAnalysis) false None)).
  - reflexivity.
  - vm_compute. discriminate.
Defined.

Lemma cleanSkill_length (name : jsstring) : length (cleanSkill name) <= 23.
Proof.
  unfold cleanSkill. destruct (Nat.ltb_spec 20 (length name)); [| lia].
  rewrite length_app. pose proof (substring_length name 0 20) as H1.
  simpl in H1. change (length $"...") with 3. lia.
Qed.

Lemma imap_rows_skill (g h : nat -> N) (l : list jsstring) :
  List.map skill (imap (fun i name => mkRow (cleanSkill name) (g i) (h i)) l)
  = List.map cleanSkill l.
Proof.
  revert g h. induction l as [| x rest IH]; intros g h; [reflexivity |].
  cbn [imap List.map skill]. f_equal.
  apply (IH (fun i => g (S i)) (fun i => h (S i))).
Qed.

(** X29: the rows made for the chart: the first four matched skills, then the
    first four missing skills, so at most eight rows; a name of more than
    20 code units is cut to 20 and followed by three dots. *)
Theorem skill_gap_rows (draw : nat -> N -> N) (matchedSkills missingSkills : list jsstring) :
  List.map skill (createSkillGapData draw matchedSkills missingSkills)
  = List.map cleanSkill (take 4 matchedSkills ++ take 4 missingSkills) /\
  length (createSkillGapData draw matchedSkills missingSkills) <= 8 /\
  Forall (fun row => length (skill row) <= 23)
    (createSkillGapData draw matchedSkills missingSkills).
Proof.
  assert (Hnames : List.map skill (createSkillGapData draw matchedSkills missingSkills)
                   = List.map cleanSkill (take 4 matchedSkills ++ take 4 missingSkills)).
  { unfold createSkillGapData. cbv zeta. rewrite !List.map_app.
    rewrite (imap_rows_skill (fun i => (draw (2 * i)%nat 25 + 70)%N)
               (fun i => (draw (2 * i + 1)%nat 15 + 75)%N)).
    rewrite (imap_rows_skill
               (fun j => (draw (2 * (length (take 4 matchedSkills) + j))%nat 40 + 10)%N)
               (fun j => (draw (2 * (length (take 4 matchedSkills) + j) + 1)%nat 15 + 75)%N)).
    reflexivity. }
  split; [exact Hnames |]. split.
  - unfold createSkillGapData. cbv zeta.
    rewrite length_app, !length_imap, !length_take. lia.
  - apply Forall_forall. intros row Hrow.
    assert (Hin : skill row ∈ List.map skill
                    (createSkillGapData draw matchedSkills missingSkills)).
    { apply list_elem_of_In, in_map, list_elem_of_In, Hrow. }
    rewrite Hnames in Hin. apply list_elem_of_In, in_map_iff in Hin.
    destruct Hin as (name & <- & _). apply cleanSkill_length.
Qed.

Lemma imap_rows_Forall (P : Row -> Prop) (f : nat -> jsstring -> Row) (l : list jsstring) :
  (forall i name, P (f i name)) -> Forall P (imap f l).
Proof.
  revert f. induction l as [| x rest IH]; intros f Hf; cbn [imap]; constructor.
  - apply Hf.
  - apply IH. intros i name. apply Hf.
Qed.

(** X30: when every draw [Math.floor(Math.random() * n)] is below [n]: a row of
    a matched skill has a current level from 70 to 94, a row of a missing
    skill one from 10 to 49, and every required level is from 75 to 89. *)
Theorem skill_gap_levels (draw : nat -> N -> N) (matchedSkills missingSkills : list jsstring) :
  (forall k n, (0 < n)%N -> (draw k n < n)%N) ->
  exists matched missing,
    createSkillGapData draw matchedSkills missingSkills = matched ++ missing /\
    length matched = Nat.min 4 (length matchedSkills) /\
    Forall (fun row => (70 <= current row <= 94)%N /\ (75 <= required row <= 89)%N)
      matched /\
    Forall (fun row => (10 <= current row <= 49)%N /\ (75 <= required row <= 89)%N)
      missing.
Proof.
  intros Hdraw. unfold createSkillGapData. cbv zeta.
  eexists _, _. split; [reflexivity |]. split; [| split].
  - rewrite length_imap, length_take. reflexivity.
  - apply imap_rows_Forall. intros i name. cbn [current required].
    pose proof (Hdraw (2 * i) 25%N ltac:(lia)).
    pose proof (Hdraw (2 * i + 1) 15%N ltac:(lia)). lia.
  - apply imap_rows_Forall. intros j name. cbn [current required].
    pose proof (Hdraw (2 * (length (take 4 matchedSkills) + j)) 40%N ltac:(lia)).
    pose proof (Hdraw (2 * (length (take 4 matchedSkills) + j) + 1) 15%N ltac:(lia)).
    lia.
Qed.

Lemma skill_gap_levels_witness :
  exists matched missing,
    createSkillGapData Fixture.first_draw [$"Python"; $"SQL"] [$"Kubernetes"]
    = matched ++ missing /\
    length matched = Nat.min 4 (length [$"Python"; $"SQL"]) /\
    Forall (fun row => (70 <= current row <= 94)%N /\ (75 <= required row <= 89)%N)
      matched /\
    Forall (fun row => (10 <= current row <= 49)%N /\ (75 <= required row <= 89)%N)
      missing.
Proof.
  apply (skill_gap_levels Fixture.first_draw). intros k n Hn. exact Hn.
Defined.

End ResultsFacts.
